(** * Task-Scheduler: the timetable scheduling engine

    A shallow embedding of [src/lib/timetable-scheduler.ts] (class
    [TimetableScheduler]), of the [useScheduler] hook of
    [src/hooks/index.ts], of the task helpers of [src/lib/utils.ts] and of
    two handlers of [src/components/Dashboard.tsx], with the properties of
    the engine that the specification states.

    Conventions of the embedding.

    - A JavaScript [Date] is the integer number of milliseconds since the
      epoch ([getTime()]).  The local-time accessors ([setHours],
      [getHours], [toDateString], ...) depend on the host time zone; it is
      the section variable [tz], the offset of local time from UTC in
      milliseconds, constant over the run (no daylight-saving change).
    - [new Date()] reads the wall clock.  One call of the engine is taken
      to be instantaneous: every clock read of one call returns the same
      instant, the argument [clock].
    - Strings built from several values by template literals (block ids,
      task descriptions, date-only strings) are kept as the tuple of the
      interpolated values.
    - [Task.duration] is a positive whole number of minutes (the task form
      enforces [min="1"]); the type [positive] excludes the rest. *)

From Stdlib Require Import ZArith List Bool Lia Permutation Sorted.
From stdpp Require Import base list strings.
Import ListNotations.
Local Open Scope Z_scope.

(** ** Dates *)

Definition MINUTE : Z := 60000.
Definition HOUR : Z := 3600000.
Definition DAY : Z := 86400000.

(** [Math.ceil(a / b)] for an integer [a] and a positive integer [b]. *)
Definition ceilDiv (a b : Z) : Z := - ((- a) / b).

(** ** Data model ([@/types/task]) *)

Inductive Priority := low | medium | high.
Inductive TaskType := work | study | leisure.
Module BlockType.
Inductive t := task | break | unavailable.
End BlockType.
Inductive RecurringType := daily | weekly.

#[global] Instance Priority_eq_dec : EqDecision Priority.
Proof. solve_decision. Defined.
#[global] Instance TaskType_eq_dec : EqDecision TaskType.
Proof. solve_decision. Defined.
#[global] Instance BlockType_eq_dec : EqDecision BlockType.t.
Proof. solve_decision. Defined.

Module Task.
Record t := mk {
  id : string;
  name : string;
  duration : positive;
  deadline : Z;
  priority : Priority;
  type : TaskType;
  completed : bool;
  scheduledTime : option Z
}.

(** [{ ...task, scheduledTime: time }] *)
Definition withScheduledTime (task : t) (time : option Z) : t :=
  mk (id task) (name task) (duration task) (deadline task) (priority task)
     (type task) (completed task) time.
End Task.

Module Recurring.
Record t := mk {
  type : RecurringType;
  days : option (list Z);
  exceptions : option (list Z)
}.
End Recurring.

Module UnavailableBlock.
Record t := mk {
  id : string;
  startTime : Z;
  endTime : Z;
  title : string;
  description : option string;
  recurring : option Recurring.t
}.
End UnavailableBlock.

(** Block ids are template literals over an entity id and
  [date.toDateString()]; break ids join the ids of the two neighbours. *)
Inductive BlockId :=
| UnavailableId (blockId : string) (dateString : Z)
| ScheduledId (taskId : string) (dateString : Z)
| PlacedId (taskId : string) (dateString : Z)
| BreakId (current next : BlockId)
| ForeignId (s : string).

Inductive Description :=
| Text (s : string)
| TaskSummary (ty : TaskType) (p : Priority) (minutes : positive).

Module TimeBlock.
Record t := mk {
  id : BlockId;
  type : BlockType.t;
  taskId : option string;
  task : option Task.t;
  startTime : Z;
  endTime : Z;
  title : string;
  description : option Description;
  isFixed : option bool
}.
End TimeBlock.

(** The private state of a [TimetableScheduler] object.  The numeric
    configuration fields are never assigned after construction. *)
Record Scheduler := mkScheduler {
  tasks : list Task.t;
  unavailableBlocks : list UnavailableBlock.t
}.

Definition dayStart : Z := 6.
Definition dayEnd : Z := 23.
Definition shortBreakDuration : Z := 15.
Definition longBreakDuration : Z := 30.
Definition maxContinuousWork : Z := 90.

(** ** Sorting

    [Array.prototype.sort] with a comparator.  The sort is stable; for a
    comparator that orders by a numeric key its result is the stable
    insertion of each element in front of the sorted rest. *)
Section Sort.

Context {A : Type} (compareFn : A -> A -> Z).

Fixpoint insertSorted (x : A) (l : list A) : list A :=
  match l with
  | [] => [x]
  | y :: l' => if compareFn x y <=? 0 then x :: l else y :: insertSorted x l'
  end.

Definition sortBy (l : list A) : list A := fold_right insertSorted [] l.

End Sort.

(** [array.slice(i, j)] for [0 <= i <= j]. *)
Definition slice {A : Type} (i j : nat) (l : list A) : list A :=
  firstn (j - i) (skipn i l).

(** [array.some((x, index) => f x index)], indices counted from [k]. *)
Fixpoint someIndexedFrom {A : Type} (k : nat) (f : A -> nat -> bool) (l : list A) : bool :=
  match l with
  | [] => false
  | x :: l' => f x k || someIndexedFrom (S k) f l'
  end.

Definition someIndexed {A : Type} (f : A -> nat -> bool) (l : list A) : bool :=
  someIndexedFrom 0 f l.

(** [d.toISOString().split('T')[0]]: the date-only string of the UTC date,
    kept as the day it names. *)
Definition isoDateString (d : Z) : Z := d / DAY.

Section Engine.

Variable tz : Z.

(** The calendar day (days since the epoch) of the local date of [d]:
    what [d.toDateString()] and the year-month-day accessors identify. *)
Definition localDay (d : Z) : Z := (d + tz) / DAY.

(** [d.setHours(h, m, 0, 0)]: same local calendar day, given time of day.
    An hour of 24 or more rolls over into the following days, as in JS. *)
Definition setHours (d h m : Z) : Z := localDay d * DAY - tz + h * HOUR + m * MINUTE.

Definition getHours (d : Z) : Z := ((d + tz) mod DAY) / HOUR.
Definition getMinutes (d : Z) : Z := ((d + tz) mod HOUR) / MINUTE.

(** [d.getDay()]: 0 is Sunday; the epoch was a Thursday. *)
Definition getDay (d : Z) : Z := (localDay d + 4) mod 7.

(** The date-only string [YYYY-MM-DD] built from the local accessors
    [getFullYear], [getMonth] and [getDate], kept as the day it names. *)
Definition localDateString (d : Z) : Z := localDay d.


(** ** The scheduling engine *)

Definition slotsOverlap (start1 end1 start2 end2 : Z) : bool :=
  (start1 <? end2) && (end1 >? start2).

Definition shouldIncludeBlock (block : UnavailableBlock.t) (date : Z) : bool :=
  match UnavailableBlock.recurring block with
  | None => localDay (UnavailableBlock.startTime block) =? localDay date
  | Some recurring =>
    let dateString := localDateString date in
    if match Recurring.exceptions recurring with
       | Some exceptions => existsb (Z.eqb dateString) exceptions
       | None => false
       end
    then false
    else
      match Recurring.type recurring with
      | daily => true
      | weekly =>
        let dayOfWeek := getDay date in
        match Recurring.days recurring with
        | Some days => existsb (Z.eqb dayOfWeek) days
        | None => false
        end
      end
  end.

(** The block pushed by [addUnavailableBlocks] for one applicable block. *)
Definition unavailableTimeBlock (block : UnavailableBlock.t) (date : Z) : TimeBlock.t :=
  let blockDate :=
    setHours date (getHours (UnavailableBlock.startTime block))
                  (getMinutes (UnavailableBlock.startTime block)) in
  let blockEndTime :=
    setHours blockDate (getHours (UnavailableBlock.endTime block))
                       (getMinutes (UnavailableBlock.endTime block)) in
  TimeBlock.mk (UnavailableId (UnavailableBlock.id block) (localDay date))
               BlockType.unavailable None None blockDate blockEndTime
               (UnavailableBlock.title block)
               (option_map Text (UnavailableBlock.description block))
               (Some true).

Definition addUnavailableBlocks (this : Scheduler) (timetable : list TimeBlock.t)
    (date : Z) : list TimeBlock.t :=
  fold_left
    (fun timetable block =>
       if shouldIncludeBlock block date
       then timetable ++ [unavailableTimeBlock block date]
       else timetable)
    (unavailableBlocks this) timetable.

Definition taskDescription (task : Task.t) : Description :=
  TaskSummary (Task.type task) (Task.priority task) (Task.duration task).

(** The block pushed by [addExistingScheduledTasks] for a kept task. *)
Definition scheduledTimeBlock (task : Task.t) (scheduledDate date : Z) : TimeBlock.t :=
  let endTime := scheduledDate + Z.pos (Task.duration task) * 60000 in
  TimeBlock.mk (ScheduledId (Task.id task) (localDay date))
               BlockType.task (Some (Task.id task)) (Some task)
               scheduledDate endTime (Task.name task)
               (Some (taskDescription task)) None.

Definition addExistingScheduledTasks (this : Scheduler) (clock : Z)
    (timetable : list TimeBlock.t) (date : Z) (currentTime : option Z)
    : list TimeBlock.t :=
  let targetDateOnly := setHours date 0 0 in
  let now := default clock currentTime in
  let isToday := localDay date =? localDay now in
  fold_left
    (fun timetable task =>
       match Task.scheduledTime task with
       | None => timetable
       | Some scheduledDate =>
         if Task.completed task then timetable
         else
           let scheduledDateOnly := setHours scheduledDate 0 0 in
           if scheduledDateOnly =? targetDateOnly then
             if isToday && (scheduledDate <=? now) && negb (Task.completed task)
             then timetable
             else timetable ++ [scheduledTimeBlock task scheduledDate date]
           else timetable
       end)
    (tasks this) timetable.

Definition getTasksForRescheduling (this : Scheduler) (clock : Z)
    (targetDate : Z) (currentTime : option Z) : list Task.t :=
  let now := default clock currentTime in
  let isToday := localDay targetDate =? localDay now in
  let targetDateOnly := setHours targetDate 0 0 in
  let todayOnly := setHours now 0 0 in
  List.filter
    (fun task =>
       if Task.completed task then false
       else if targetDateOnly <? todayOnly then false
       else
         let deadlineDateOnly := setHours (Task.deadline task) 0 0 in
         let isOverdue := deadlineDateOnly <? todayOnly in
         match Task.scheduledTime task with
         | Some scheduledDate =>
           let scheduledDateOnly := setHours scheduledDate 0 0 in
           if scheduledDateOnly =? targetDateOnly then
             if isToday && (scheduledDate <=? now) && negb (Task.completed task)
             then true
             else if isToday && (scheduledDate >? now) then false
             else false
           else if (scheduledDateOnly <? todayOnly) && negb (Task.completed task)
           then true
           else false
         | None =>
           if isOverdue && (targetDateOnly >=? todayOnly) then true
           else deadlineDateOnly >=? targetDateOnly
         end)
    (tasks this).

(** *** Slot allocation *)

Record Slot := mkSlot {
  slotStart : Z;
  slotEnd : Z;
  available : bool
}.

(** The [while (current < latestTaskStart)] loop that creates the
    15-minute slots.  [fuel] bounds the number of iterations. *)
Fixpoint buildSlots (fuel : nat) (current latestTaskStart dayEndTime : Z) : list Slot :=
  match fuel with
  | O => []
  | S fuel' =>
    if current <? latestTaskStart then
      let slotEnd := current + 15 * 60000 in
      (if slotEnd <=? dayEndTime then [mkSlot current slotEnd true] else [])
      ++ buildSlots fuel' (current + 15 * 60000) latestTaskStart dayEndTime
    else []
  end.

(** Enough fuel for the loop to leave by its own test: the distance in
    whole slots, plus one. *)
Definition slotFuel (current latestTaskStart : Z) : nat :=
  Z.to_nat ((latestTaskStart - current) / (15 * 60000) + 1).

Definition markUnavailable (timetable : list TimeBlock.t) (slots : list Slot) : list Slot :=
  fold_left
    (fun slots block =>
       map (fun slot =>
              if slotsOverlap (slotStart slot) (slotEnd slot)
                              (TimeBlock.startTime block) (TimeBlock.endTime block)
              then mkSlot (slotStart slot) (slotEnd slot) false
              else slot)
           slots)
    timetable slots.

(** The start of the working window (the variable [dayStart] of
    [findAvailableSlot] after the adjustment for today). *)
Definition windowStart (now date : Z) : Z :=
  let isToday := localDay date =? localDay now in
  let dayStartTime := setHours date dayStart 0 in
  if isToday && (now >? dayStartTime) then
    let nextSlot := now + 15 * 60000 in
    let minutes := getMinutes nextSlot in
    let roundedMinutes := ceilDiv minutes 15 * 15 in
    if roundedMinutes >=? 60
    then setHours dayStartTime (getHours nextSlot + 1) 0
    else setHours dayStartTime (getHours nextSlot) roundedMinutes
  else dayStartTime.

(** The [for (let i = 0; i <= slots.length - requiredSlots; i++)] loop,
    over the list of the values of [i]. *)
Fixpoint scanSlots (timetable : list TimeBlock.t) (duration : positive)
    (dayEndTime : Z) (lastTaskEndTime : option Z) (continuousWorkTime : Z)
    (slots : list Slot) (requiredSlots : nat) (indices : list nat)
    : option (Z * Z) :=
  match indices with
  | [] => None
  | i :: indices' =>
    let continue :=
      scanSlots timetable duration dayEndTime lastTaskEndTime continuousWorkTime
                slots requiredSlots indices' in
    let consecutiveSlots := slice i (i + requiredSlots) slots in
    if forallb available consecutiveSlots then
      match consecutiveSlots with
      | [] => None (* [consecutiveSlots[0]] is undefined: not reached, the slice is not empty *)
      | first :: _ =>
        let proposedStart := slotStart first in
        let actualEnd := proposedStart + Z.pos duration * 60000 in
        if actualEnd >? dayEndTime then continue
        else
          let hasConflict :=
            existsb (fun block =>
                       slotsOverlap proposedStart actualEnd
                                    (TimeBlock.startTime block) (TimeBlock.endTime block))
                    timetable in
          if hasConflict then continue
          else
            let needsMoreBreak :=
              match lastTaskEndTime with
              | Some lastEnd =>
                if negb (continuousWorkTime =? 0) && (continuousWorkTime >=? maxContinuousWork)
                then
                  let timeSinceLastTask := proposedStart - lastEnd in
                  let minBreakTime :=
                    if continuousWorkTime >=? 120 then longBreakDuration
                    else shortBreakDuration in
                  timeSinceLastTask <? minBreakTime * 60000
                else false
              | None => false
              end in
            if needsMoreBreak then continue
            else Some (proposedStart, actualEnd)
      end
    else continue
  end.

Definition findAvailableSlot (clock : Z) (timetable : list TimeBlock.t)
    (duration : positive) (date : Z) (currentTime : option Z)
    (lastTaskEndTime : option Z) (continuousWorkTime : Z) : option (Z * Z) :=
  let now := default clock currentTime in
  let today := setHours clock 0 0 in
  let targetDate := setHours date 0 0 in
  if targetDate <? today then None
  else
    let dayStartTime := windowStart now date in
    let dayEndTime := setHours date dayEnd 0 in
    let latestTaskStart := dayEndTime - Z.pos duration * 60000 in
    let slots :=
      buildSlots (slotFuel dayStartTime latestTaskStart)
                 dayStartTime latestTaskStart dayEndTime in
    let slots := markUnavailable timetable slots in
    let requiredSlots := Z.to_nat (ceilDiv (Z.pos duration) 15) in
    scanSlots timetable duration dayEndTime lastTaskEndTime continuousWorkTime
              slots requiredSlots (seq 0 (length slots + 1 - requiredSlots)).

(** The block pushed by [placeTasks] for a task that found a slot. *)
Definition placedTimeBlock (task : Task.t) (date start stop : Z) : TimeBlock.t :=
  TimeBlock.mk (PlacedId (Task.id task) (localDay date))
               BlockType.task (Some (Task.id task))
               (Some (Task.withScheduledTime task (Some start)))
               start stop (Task.name task)
               (Some (taskDescription task)) None.

(** [this.tasks.map(t => t.id === id ? { ...t, scheduledTime } : t)] *)
Definition updateScheduledTime (stored : list Task.t) (taskId : string) (time : Z)
    : list Task.t :=
  map (fun t => if String.eqb (Task.id t) taskId
                then Task.withScheduledTime t (Some time) else t)
      stored.

(** The loop of [placeTasks]; its state is the timetable, the two local
    variables and the field [this.tasks]. *)
Fixpoint placeTasksLoop (clock date : Z) (currentTime : option Z)
    (pending : list Task.t) (timetable : list TimeBlock.t)
    (lastTaskEndTime : option Z) (continuousWorkTime : Z) (stored : list Task.t)
    : list TimeBlock.t * list Task.t :=
  match pending with
  | [] => (timetable, stored)
  | task :: pending' =>
    match findAvailableSlot clock timetable (Task.duration task) date currentTime
                            lastTaskEndTime continuousWorkTime with
    | Some (start, stop) =>
      let timetable := timetable ++ [placedTimeBlock task date start stop] in
      let continuousWorkTime := continuousWorkTime + Z.pos (Task.duration task) in
      let stored := updateScheduledTime stored (Task.id task) start in
      let continuousWorkTime :=
        if continuousWorkTime >? maxContinuousWork then 0 else continuousWorkTime in
      placeTasksLoop clock date currentTime pending' timetable
                     (Some stop) continuousWorkTime stored
    | None =>
      placeTasksLoop clock date currentTime pending' timetable
                     lastTaskEndTime continuousWorkTime stored
    end
  end.

Definition placeTasks (this : Scheduler) (clock : Z) (timetable : list TimeBlock.t)
    (sortedTasks : list Task.t) (date : Z) (currentTime : option Z)
    : list TimeBlock.t * Scheduler :=
  let '(timetable, stored) :=
    placeTasksLoop clock date currentTime sortedTasks timetable None 0 (tasks this) in
  (timetable, mkScheduler stored (unavailableBlocks this)).

(** *** Break insertion *)

(** [minutesBetween >= k], where [minutesBetween = timeBetween / (1000 * 60)]
    is a floating-point quotient of an integer number of milliseconds: for
    whole [k] the comparison is the one of [timeBetween] with [k] minutes. *)
Definition minutesAtLeast (timeBetween k : Z) : bool := timeBetween >=? k * 60000.

(** [task?.duration || 0] *)
Definition durationOrZero (task : option Task.t) : Z :=
  match task with
  | Some t => Z.pos (Task.duration t)
  | None => 0
  end.

(** [task?.priority === 'high' || (task?.duration || 0) >= 90] *)
Definition intensive (task : option Task.t) : bool :=
  match task with
  | Some t => bool_decide (Task.priority t = high)
  | None => false
  end || (durationOrZero task >=? 90).

(** The loop of [insertIntelligentBreaks] over the consecutive pairs
    [taskBlocks[i]], [taskBlocks[i + 1]]; the result is [breaksToAdd]. *)
Fixpoint breaksLoop (continuousWorkTime : Z) (taskBlocks : list TimeBlock.t)
    : list TimeBlock.t :=
  match taskBlocks with
  | currentTask :: ((nextTask :: _) as rest) =>
    let taskDuration := durationOrZero (TimeBlock.task currentTask) in
    let continuousWorkTime := continuousWorkTime + taskDuration in
    let timeBetween := TimeBlock.startTime nextTask - TimeBlock.endTime currentTask in
    let needsShortBreak :=
      (taskDuration >=? 45) && minutesAtLeast timeBetween shortBreakDuration in
    let needsLongBreak :=
      (continuousWorkTime >=? maxContinuousWork)
      && minutesAtLeast timeBetween longBreakDuration in
    let currentIntensive := intensive (TimeBlock.task currentTask) in
    let nextIntensive := intensive (TimeBlock.task nextTask) in
    let needsRestBreak :=
      currentIntensive && nextIntensive && minutesAtLeast timeBetween shortBreakDuration in
    let breakDuration := if needsLongBreak then longBreakDuration else shortBreakDuration in
    let breakEnd := TimeBlock.endTime currentTask + breakDuration * 60000 in
    let inserted :=
      (needsLongBreak || needsRestBreak || needsShortBreak)
      && minutesAtLeast timeBetween shortBreakDuration
      && (breakEnd <=? TimeBlock.startTime nextTask) in
    let breakType :=
      if needsLongBreak then "Extended Break"%string
      else if needsRestBreak then "Rest Break"%string else "Short Break"%string in
    let breakText :=
      if needsLongBreak then "Extended rest for wellbeing"%string
      else if needsRestBreak then "Recovery from intensive work"%string
      else "Quick refresh"%string in
    let breakBlock :=
      TimeBlock.mk (BreakId (TimeBlock.id currentTask) (TimeBlock.id nextTask))
                   BlockType.break None None
                   (TimeBlock.endTime currentTask) breakEnd
                   breakType (Some (Text breakText)) None in
    let continuousWorkTime :=
      if inserted && needsLongBreak then 0 else continuousWorkTime in
    let continuousWorkTime :=
      if minutesAtLeast timeBetween 60 then 0 else continuousWorkTime in
    (if inserted then [breakBlock] else []) ++ breaksLoop continuousWorkTime rest
  | _ => []
  end.

Definition byStartTime (a b : TimeBlock.t) : Z :=
  TimeBlock.startTime a - TimeBlock.startTime b.

Definition isTaskBlock (block : TimeBlock.t) : bool :=
  bool_decide (TimeBlock.type block = BlockType.task).

Definition insertIntelligentBreaks (timetable : list TimeBlock.t) : list TimeBlock.t :=
  let taskBlocks := sortBy byStartTime (List.filter isTaskBlock timetable) in
  let breaksToAdd := breaksLoop 0 taskBlocks in
  timetable ++ breaksToAdd.

(** *** Prioritisation *)

(** [hoursToDeadline <= h], where [hoursToDeadline] is the floating-point
    quotient of the millisecond difference by [1000 * 60 * 60]: for whole
    [h] the comparison is the one of the difference with [h] hours. *)
Definition hoursAtMost (milliseconds h : Z) : bool := milliseconds <=? h * HOUR.

Definition priorityScores (p : Priority) : Z :=
  match p with high => 40 | medium => 25 | low => 10 end.

Definition typeScores (ty : TaskType) : Z :=
  match ty with work => 15 | study => 12 | leisure => 8 end.

Definition getScore (now : Z) (task : Task.t) : Z :=
  let toDeadline := Task.deadline task - now in
  let score := 0 in
  let score :=
    if hoursAtMost toDeadline 24 then score + 80
    else if hoursAtMost toDeadline 48 then score + 60
    else if hoursAtMost toDeadline 168 then score + 40
    else score + 15 in
  let score := score + priorityScores (Task.priority task) in
  let score := score + typeScores (Task.type task) in
  let score := if Z.pos (Task.duration task) >? 120 then score - 10 else score in
  let score := if Z.pos (Task.duration task) >? 180 then score - 15 else score in
  score.

Definition prioritizeTasks (clock : Z) (tasks : list Task.t) (targetDate : Z)
    (currentTime : option Z) : list Task.t :=
  let now := default clock currentTime in
  sortBy (fun a b => getScore now b - getScore now a) tasks.

(** *** The public operations *)

Definition setTasks (this : Scheduler) (tasks : list Task.t) : Scheduler :=
  mkScheduler (List.filter (fun task => negb (Task.completed task)) tasks)
              (unavailableBlocks this).

Definition setUnavailableBlocks (this : Scheduler) (blocks : list UnavailableBlock.t)
    : Scheduler :=
  mkScheduler (tasks this) blocks.

Definition generateTimetable (this : Scheduler) (clock : Z) (date : Z)
    : list TimeBlock.t * Scheduler :=
  let timetable := [] in
  let targetDate := setHours date 0 0 in
  let now := clock in
  let isToday := localDay targetDate =? localDay now in
  let today := setHours clock 0 0 in
  if targetDate <? today then ([], this)
  else
    let currentTime := if isToday then Some now else None in
    let timetable := addUnavailableBlocks this timetable targetDate in
    let timetable := addExistingScheduledTasks this clock timetable targetDate currentTime in
    let eligibleTasks := getTasksForRescheduling this clock targetDate currentTime in
    let sortedTasks := prioritizeTasks clock eligibleTasks targetDate currentTime in
    let '(timetable, this) := placeTasks this clock timetable sortedTasks targetDate currentTime in
    let timetable := insertIntelligentBreaks timetable in
    (sortBy byStartTime
       (List.filter
          (fun block =>
             match TimeBlock.task block with
             | Some task =>
               if isTaskBlock block then negb (Task.completed task) else true
             | None => true
             end)
          timetable),
     this).

Definition rescheduleTask (this : Scheduler) (clock : Z) (taskId : string)
    (newStartTime : Z) (timetable : option (list TimeBlock.t))
    : list TimeBlock.t * Scheduler :=
  let '(currentTimetable, this) :=
    match timetable with
    | Some timetable => (timetable, this)
    | None => generateTimetable this clock newStartTime
    end in
  match list_find (fun block => TimeBlock.taskId block = Some taskId) currentTimetable with
  | None => (currentTimetable, this)
  | Some (taskIndex, taskBlock) =>
    match TimeBlock.task taskBlock with
    | None => (currentTimetable, this)
    | Some task =>
      let duration := Z.pos (Task.duration task) * 60000 in
      let newEndTime := newStartTime + duration in
      let conflictExists :=
        someIndexed
          (fun block index =>
             negb (index =? taskIndex)%nat
             && slotsOverlap newStartTime newEndTime
                             (TimeBlock.startTime block) (TimeBlock.endTime block))
          currentTimetable in
      if negb conflictExists then
        let updated :=
          TimeBlock.mk (TimeBlock.id taskBlock) (TimeBlock.type taskBlock)
                       (TimeBlock.taskId taskBlock)
                       (Some (Task.withScheduledTime task (Some newStartTime)))
                       newStartTime newEndTime
                       (TimeBlock.title taskBlock) (TimeBlock.description taskBlock)
                       (TimeBlock.isFixed taskBlock) in
        let updatedTimetable := <[taskIndex := updated]> currentTimetable in
        (updatedTimetable,
         mkScheduler (updateScheduledTime (tasks this) taskId newStartTime)
                     (unavailableBlocks this))
      else (currentTimetable, this)
    end
  end.

(** Returns the boolean result and the state after the in-place update of
    the block found. *)
Definition addExceptionToRecurringBlock (this : Scheduler) (blockId : string)
    (exceptionDate : Z) : bool * Scheduler :=
  match list_find (fun b => UnavailableBlock.id b = blockId) (unavailableBlocks this) with
  | None => (false, this)
  | Some (index, block) =>
    match UnavailableBlock.recurring block with
    | None => (false, this)
    | Some recurring =>
      let dateString := isoDateString exceptionDate in
      let exceptions := default [] (Recurring.exceptions recurring) in
      let exceptions :=
        if existsb (Z.eqb dateString) exceptions then exceptions
        else exceptions ++ [dateString] in
      let recurring :=
        Recurring.mk (Recurring.type recurring) (Recurring.days recurring)
                     (Some exceptions) in
      let block :=
        UnavailableBlock.mk (UnavailableBlock.id block) (UnavailableBlock.startTime block)
                            (UnavailableBlock.endTime block) (UnavailableBlock.title block)
                            (UnavailableBlock.description block) (Some recurring) in
      (true, mkScheduler (tasks this) (<[index := block]> (unavailableBlocks this)))
    end
  end.

(** [generateTimetableForDate] of the [useScheduler] hook: the operation
    [generateTimetable(date, tasks, unavailableBlocks, now)] of the
    specification. *)
Definition generateTimetableForDate (scheduler : Scheduler) (clock : Z)
    (tasks : list Task.t) (unavailableBlocks : list UnavailableBlock.t) (date : Z)
    : list TimeBlock.t * Scheduler :=
  let scheduler := setTasks scheduler tasks in
  let scheduler := setUnavailableBlocks scheduler unavailableBlocks in
  generateTimetable scheduler clock date.

(** ** Predicates of the properties *)

(** [R] holds between the elements at any two distinct positions. *)
Definition Pairwise {A : Type} (R : A -> A -> Prop) (l : list A) : Prop :=
  forall i j a b, i <> j -> l !! i = Some a -> l !! j = Some b -> R a b.

(** The overlap test of the specification on two blocks. *)
Definition overlap (a b : TimeBlock.t) : bool :=
  slotsOverlap (TimeBlock.startTime a) (TimeBlock.endTime a)
               (TimeBlock.startTime b) (TimeBlock.endTime b).

Definition NoOverlap (timetable : list TimeBlock.t) : Prop :=
  Pairwise (fun a b => overlap a b = false) timetable.

(** The fixed blocks of a date: what [generateTimetable] has collected
    before it places tasks (unavailable blocks, then kept scheduled tasks). *)
Definition fixedBlocks (this : Scheduler) (clock date : Z) : list TimeBlock.t :=
  let targetDate := setHours date 0 0 in
  let currentTime := if localDay targetDate =? localDay clock then Some clock else None in
  addExistingScheduledTasks this clock (addUnavailableBlocks this [] targetDate)
                            targetDate currentTime.

(** The terms of the score, as [getScore] adds them up. *)
Definition deadlineUrgency (now : Z) (task : Task.t) : Z :=
  let toDeadline := Task.deadline task - now in
  if hoursAtMost toDeadline 24 then 80
  else if hoursAtMost toDeadline 48 then 60
  else if hoursAtMost toDeadline 168 then 40
  else 15.

(** The length penalty that the two successive tests of [getScore] add up to. *)
Definition lengthPenalty (duration : Z) : Z :=
  if duration >? 180 then 25 else if duration >? 120 then 10 else 0.

(** The length penalty in the words of the specification (section 4.4):
    15 above 180 minutes, else 10 above 120 minutes, else 0. *)
Definition lengthPenalty_spec (duration : Z) : Z :=
  if duration >? 180 then 15 else if duration >? 120 then 10 else 0.

(** The score in the words of the specification. *)
Definition score_spec (now : Z) (task : Task.t) : Z :=
  deadlineUrgency now task + priorityScores (Task.priority task)
  + typeScores (Task.type task) - lengthPenalty_spec (Z.pos (Task.duration task)).

(** [timetable.findIndex(block => block.taskId === taskId)] is [i], at
    which the timetable holds [block]. *)
Definition FirstMatch (taskId : string) (timetable : list TimeBlock.t)
    (i : nat) (block : TimeBlock.t) : Prop :=
  timetable !! i = Some block
  /\ TimeBlock.taskId block = Some taskId
  /\ forall j other, (j < i)%nat -> timetable !! j = Some other ->
       TimeBlock.taskId other <> Some taskId.

(** A task block is consistent with the task snapshot it carries. *)
Definition TaskBlockOk (block : TimeBlock.t) : Prop :=
  TimeBlock.type block = BlockType.task ->
  exists t, TimeBlock.task block = Some t
    /\ TimeBlock.endTime block
       = TimeBlock.startTime block + Z.pos (Task.duration t) * 60000
    /\ Task.scheduledTime t = Some (TimeBlock.startTime block).

(** Executable form of [NoOverlap]. *)
Fixpoint noOverlapb (timetable : list TimeBlock.t) : bool :=
  match timetable with
  | [] => true
  | a :: rest => forallb (fun b => negb (overlap a b)) rest && noOverlapb rest
  end.

(** Two blocks are compatible when they do not overlap, or when one is a
    break and the other an unavailable block (the break inserter looks at
    task blocks only). *)
Definition Compatible (a b : TimeBlock.t) : Prop :=
  overlap a b = true ->
  (TimeBlock.type a = BlockType.break /\ TimeBlock.type b = BlockType.unavailable)
  \/ (TimeBlock.type a = BlockType.unavailable /\ TimeBlock.type b = BlockType.break).

(** [a] ends no later than [b] starts. *)
Definition Before (a b : TimeBlock.t) : Prop :=
  TimeBlock.endTime a <= TimeBlock.startTime b.

(** The exception list after [addExceptionToRecurringBlock]. *)
Definition exceptionsWith (recurring : Recurring.t) (exceptionDate : Z) : list Z :=
  let exceptions := default [] (Recurring.exceptions recurring) in
  if existsb (Z.eqb (isoDateString exceptionDate)) exceptions then exceptions
  else exceptions ++ [isoDateString exceptionDate].

Definition withException (block : UnavailableBlock.t) (recurring : Recurring.t)
    (exceptionDate : Z) : UnavailableBlock.t :=
  UnavailableBlock.mk (UnavailableBlock.id block) (UnavailableBlock.startTime block)
    (UnavailableBlock.endTime block) (UnavailableBlock.title block)
    (UnavailableBlock.description block)
    (Some (Recurring.mk (Recurring.type recurring) (Recurring.days recurring)
                        (Some (exceptionsWith recurring exceptionDate)))).

(** Blocks whose id is that of an unavailable block come from an
    unavailable block that applies to the target date. *)
Definition FromApplicable (this : Scheduler) (targetDate : Z) (timeBlock : TimeBlock.t)
    : Prop :=
  forall blockId day,
    TimeBlock.id timeBlock = UnavailableId blockId day ->
    exists block,
      In block (unavailableBlocks this)
      /\ shouldIncludeBlock block targetDate = true
      /\ UnavailableBlock.id block = blockId.

(** ** Sample data

    A day, some instants of it in a host on UTC, and a few records. *)

Definition sampleDay : Z := 20000 * DAY.

Definition sampleTime (h m : Z) : Z := sampleDay + h * HOUR + m * MINUTE.

Definition emptyScheduler : Scheduler := mkScheduler [] [].

Definition gym : UnavailableBlock.t :=
  UnavailableBlock.mk "gym" (sampleTime 7 0) (sampleTime 8 0) "Gym" None
                      (Some (Recurring.mk daily None None)).

Definition call : UnavailableBlock.t :=
  UnavailableBlock.mk "call" (sampleTime 7 30) (sampleTime 8 30) "Call" None
                      (Some (Recurring.mk daily None None)).

Definition report : Task.t :=
  Task.mk "report" "Write report" 60 (sampleDay + 3 * DAY) high work false None.

Definition review : Task.t :=
  Task.mk "review" "Review notes" 60 (sampleDay + 3 * DAY) high work false None.

Definition thesis : Task.t :=
  Task.mk "thesis" "Thesis chapter" 200 (sampleDay + 30 * DAY) high work false None.

Definition reading : Task.t :=
  Task.mk "reading" "Reading" 60 (sampleDay + 30 * DAY) medium study false None.

Definition memo : Task.t :=
  Task.mk "memo" "Memo" 30 (sampleDay + 3 * DAY) medium work false None.

Definition errand : Task.t :=
  Task.mk "errand" "Errand" 30 (sampleDay - DAY + 12 * HOUR) low leisure false None.

Definition marathon : Task.t :=
  Task.mk "marathon" "Marathon" 1100 (sampleDay - DAY + 12 * HOUR) low leisure false None.

Definition backlog : Task.t :=
  Task.mk "backlog" "Backlog" 540 (sampleDay - DAY + 12 * HOUR) low leisure false None.

(** A block that names a task but carries no snapshot of it. *)
Definition orphan : TimeBlock.t :=
  TimeBlock.mk (ForeignId "orphan") BlockType.task (Some "report"%string) None
               (sampleTime 9 0) (sampleTime 10 0) "Write report" None None.

(** ** Further notions for the properties of the engine *)

(** The block that [addExistingScheduledTasks] pushes for one stored task,
    if it pushes one. *)
Definition keptScheduledBlock (clock date : Z) (currentTime : option Z)
    (task : Task.t) : option TimeBlock.t :=
  let targetDateOnly := setHours date 0 0 in
  let now := default clock currentTime in
  let isToday := localDay date =? localDay now in
  match Task.scheduledTime task with
  | None => None
  | Some scheduledDate =>
    if Task.completed task then None
    else if setHours scheduledDate 0 0 =? targetDateOnly then
      if isToday && (scheduledDate <=? now) && negb (Task.completed task)
      then None
      else Some (scheduledTimeBlock task scheduledDate date)
    else None
  end.

(** A task for which [placeTasks] found a slot, with the slot. *)
Definition chosenBlock (date : Z) (chosen : Task.t * (Z * Z)) : TimeBlock.t :=
  placedTimeBlock (fst chosen) date (fst (snd chosen)) (snd (snd chosen)).

(** The updates of [this.tasks] made by [placeTasks] for the chosen tasks. *)
Definition storeChosen (stored : list Task.t) (chosen : list (Task.t * (Z * Z)))
    : list Task.t :=
  fold_left
    (fun stored c => updateScheduledTime stored (Task.id (fst c)) (fst (snd c)))
    chosen stored.

(** The task ids named by the blocks of a timetable, in order. *)
Definition taskIdsOf (timetable : list TimeBlock.t) : list string :=
  omap TimeBlock.taskId timetable.

(** A task without its placement: only [scheduledTime] is forgotten. *)
Definition unscheduled (task : Task.t) : Task.t := Task.withScheduledTime task None.

(** ** [addUnavailableBlockAndReschedule] *)

(** The test of the clearing loops on one stored task: the task is
    incomplete, scheduled on the local day of [day], and its interval
    overlaps [blockStart, blockEnd). *)
Definition conflictsWithBlock (day blockStart blockEnd : Z) (task : Task.t) : bool :=
  match Task.scheduledTime task with
  | None => false
  | Some scheduledTime =>
    if Task.completed task then false
    else if negb (localDay scheduledTime =? localDay day) then false
    else
      let taskEnd := scheduledTime + Z.pos (Task.duration task) * 60000 in
      (scheduledTime <? blockEnd) && (taskEnd >? blockStart)
  end.

(** One pass of [this.tasks.forEach]: each conflicting task has its
    [scheduledTime] cleared in place and is counted. *)
Definition clearConflicts (day blockStart blockEnd : Z) (stored : list Task.t)
    : list Task.t * Z :=
  (map (fun task =>
          if conflictsWithBlock day blockStart blockEnd task
          then Task.withScheduledTime task None else task)
       stored,
   Z.of_nat (length (List.filter (conflictsWithBlock day blockStart blockEnd) stored))).

(** [datesToCheck] for a recurring block.  [futureDate.setDate(getDate() + n)]
    moves the date by [n] local days. *)
Definition datesToCheck (clock : Z) (recurring : Recurring.t) (targetDate : Z) : list Z :=
  let today := setHours clock 0 0 in
  targetDate ::
  match Recurring.type recurring with
  | daily =>
    flat_map
      (fun i =>
         let futureDate := targetDate + i * DAY in
         if futureDate >=? today then [futureDate] else [])
      [1; 2; 3; 4; 5; 6; 7]
  | weekly =>
    match Recurring.days recurring with
    | Some days =>
      flat_map
        (fun week =>
           flat_map
             (fun dayOfWeek =>
                let daysUntilTarget := Z.rem (dayOfWeek - getDay targetDate + 7) 7 in
                let futureDate := targetDate + (week * 7 + daysUntilTarget) * DAY in
                if futureDate >=? today then [futureDate] else [])
             days)
        [0; 1; 2; 3]
    | None => []
    end
  end.

(** The clearing of the scheduled times of conflicting tasks: the stored
    tasks after it and [rescheduledCount]. *)
Definition clearConflictingTasks (this : Scheduler) (clock : Z)
    (block : UnavailableBlock.t) (targetDate : Z) : list Task.t * Z :=
  match UnavailableBlock.recurring block with
  | Some recurring =>
    fold_left
      (fun '(stored, rescheduledCount) date =>
         let blockStart :=
           setHours date (getHours (UnavailableBlock.startTime block))
                         (getMinutes (UnavailableBlock.startTime block)) in
         let blockEnd :=
           setHours date (getHours (UnavailableBlock.endTime block))
                         (getMinutes (UnavailableBlock.endTime block)) in
         let '(stored, cleared) := clearConflicts date blockStart blockEnd stored in
         (stored, rescheduledCount + cleared))
      (datesToCheck clock recurring targetDate)
      (tasks this, 0)
  | None =>
    let blockStart := UnavailableBlock.startTime block in
    let blockEnd := UnavailableBlock.endTime block in
    clearConflicts blockStart blockStart blockEnd (tasks this)
  end.

(** Returns [updatedTimetable], [rescheduledTasksCount] and the state. *)
Definition addUnavailableBlockAndReschedule (this : Scheduler) (clock : Z)
    (block : UnavailableBlock.t) (targetDate : Z)
    : (list TimeBlock.t * Z) * Scheduler :=
  let pushed := unavailableBlocks this ++ [block] in
  let '(stored, rescheduledCount) :=
    clearConflictingTasks (mkScheduler (tasks this) pushed) clock block targetDate in
  let '(updatedTimetable, this) :=
    generateTimetable (mkScheduler stored pushed) clock targetDate in
  ((updatedTimetable, rescheduledCount),
   mkScheduler (tasks this) (removelast (unavailableBlocks this))).

(** ** Task helpers ([src/lib/utils.ts]) *)

(** The object built for one task by [convertTasksToScheduleBlocks]; a
    [ScheduleBlock] has the fields of a [TimeBlock] without [isFixed]. *)
Definition scheduleBlock (task : Task.t) (scheduledTime : Z) : TimeBlock.t :=
  TimeBlock.mk (ForeignId (String.append "scheduled-" (Task.id task)))
               BlockType.task (Some (Task.id task)) (Some task)
               scheduledTime (scheduledTime + Z.pos (Task.duration task) * 60000)
               (Task.name task) (Some (taskDescription task)) None.

Definition convertTasksToScheduleBlocks (tasks : list Task.t) : list TimeBlock.t :=
  sortBy byStartTime
    (flat_map
       (fun task =>
          match Task.scheduledTime task with
          | Some scheduledTime => [scheduleBlock task scheduledTime]
          | None => []
          end)
       (List.filter
          (fun task =>
             match Task.scheduledTime task with Some _ => true | None => false end
             && negb (Task.completed task))
          tasks)).

Definition updateTaskScheduledTime (tasks : list Task.t) (taskId : string) (newTime : Z)
    : list Task.t :=
  map (fun task => if String.eqb (Task.id task) taskId
                   then Task.withScheduledTime task (Some newTime) else task)
      tasks.

Definition toggleTaskCompletion (tasks : list Task.t) (taskId : string) : list Task.t :=
  map (fun task =>
         if String.eqb (Task.id task) taskId
         then Task.mk (Task.id task) (Task.name task) (Task.duration task)
                      (Task.deadline task) (Task.priority task) (Task.type task)
                      (negb (Task.completed task)) (Task.scheduledTime task)
         else task)
      tasks.

Definition removeTaskById (tasks : list Task.t) (taskId : string) : list Task.t :=
  List.filter (fun task => negb (String.eqb (Task.id task) taskId)) tasks.

(** The number of stored tasks that have a [scheduledTime]. *)
Definition scheduledCount (stored : list Task.t) : nat :=
  length (List.filter
            (fun task => match Task.scheduledTime task with
                         | Some _ => true | None => false end)
            stored).

(** A stored task after the clearing: as before, or an incomplete scheduled
    task without its [scheduledTime]. *)
Definition KeptOrCleared (before after : Task.t) : Prop :=
  after = before
  \/ (after = Task.withScheduledTime before None
      /\ Task.completed before = false
      /\ Task.scheduledTime before <> None).

(** ** The dashboard handlers (src/components/Dashboard.tsx)

    The handlers of the component read the values of one render ([tasks],
    [unavailableBlocks], [timetable], [selectedDate]) and the scheduler
    object, and give new values to [setTimetable], [setTasks] and
    [setSchedule]; a run of a handler is a function from the values read to
    the values set (toasts are the constructor of the outcome).  The
    timeline blocks are built by the code of [convertTasksToScheduleBlocks],
    which the handlers repeat inline. *)

(** [{ const taskBlock = newSchedule.find(block => block.taskId === task.id);
       if (taskBlock) return { ...task, scheduledTime: taskBlock.startTime };
       return task; }] *)
Definition syncScheduledTime (newSchedule : list TimeBlock.t) (task : Task.t) : Task.t :=
  match list_find (fun block => TimeBlock.taskId block = Some (Task.id task)) newSchedule with
  | Some (_, taskBlock) =>
    Task.withScheduledTime task (Some (TimeBlock.startTime taskBlock))
  | None => task
  end.

(** [generateSchedule]: the values given to [setTimetable], [setTasks] and
    [setSchedule], and the scheduler afterwards. *)
Definition generateSchedule (scheduler : Scheduler) (clock : Z)
    (tasks : list Task.t) (unavailableBlocks : list UnavailableBlock.t)
    (selectedDate : Z)
    : (list TimeBlock.t * list Task.t * list TimeBlock.t) * Scheduler :=
  let scheduler := setTasks scheduler tasks in
  let scheduler := setUnavailableBlocks scheduler unavailableBlocks in
  let '(newSchedule, scheduler) := generateTimetable scheduler clock selectedDate in
  let updatedTasks := map (syncScheduledTime newSchedule) tasks in
  let scheduleBlocks := convertTasksToScheduleBlocks updatedTasks in
  ((newSchedule, updatedTasks, scheduleBlocks), scheduler).

(** How a run of [handleRescheduleTask] ends: one of the refusals (named
    by the toast shown; [NoSuchTask] is the silent return), or the values
    given to [setTimetable], [setTasks] and [setSchedule]. *)
Inductive RescheduleOutcome : Type :=
| CannotScheduleInThePast
| CannotRescheduleCompletedTask
| NoSuchTask
| TimeSlotOccupied
| OutsideWorkingHours
| TaskRescheduled (newTimetable : list TimeBlock.t) (updatedTasks : list Task.t)
                  (scheduleBlocks : list TimeBlock.t).

Definition handleRescheduleTask (scheduler : Scheduler) (clock : Z)
    (tasks : list Task.t) (timetable : list TimeBlock.t)
    (taskId : string) (newStartTime : Z) : RescheduleOutcome * Scheduler :=
  let now := clock in
  if newStartTime <=? now then (CannotScheduleInThePast, scheduler)
  else
    match List.find (fun task => String.eqb (Task.id task) taskId) tasks with
    | None => (NoSuchTask, scheduler)
    | Some targetTask =>
      if Task.completed targetTask then (CannotRescheduleCompletedTask, scheduler)
      else
        let taskEndTime := newStartTime + Z.pos (Task.duration targetTask) * 60000 in
        let hasConflict :=
          existsb
            (fun block =>
               if bool_decide (TimeBlock.taskId block = Some taskId) then false
               else (newStartTime <? TimeBlock.endTime block)
                    && (taskEndTime >? TimeBlock.startTime block))
            timetable in
        if hasConflict then (TimeSlotOccupied, scheduler)
        else
          let dayEnd := setHours newStartTime 23 0 in
          if taskEndTime >? dayEnd then (OutsideWorkingHours, scheduler)
          else
            let updatedTasks := updateTaskScheduledTime tasks taskId newStartTime in
            let scheduler := setTasks scheduler updatedTasks in
            let '(newTimetable, scheduler) :=
              rescheduleTask scheduler clock taskId newStartTime (Some timetable) in
            let scheduleBlocks := convertTasksToScheduleBlocks updatedTasks in
            (TaskRescheduled newTimetable updatedTasks scheduleBlocks, scheduler)
    end.

(** ** The turns of the loop of [placeTasks]

    One turn per task of the sorted list, in order: the task and the slot
    that [findAvailableSlot] returned for it, if any. *)
Definition Turn : Type := (Task.t * option (Z * Z))%type.

(** The blocks pushed in the given turns. *)
Definition placedBlocks (date : Z) (turns : list Turn) : list TimeBlock.t :=
  flat_map
    (fun turn : Turn =>
       match snd turn with
       | Some (start, stop) => [placedTimeBlock (fst turn) date start stop]
       | None => []
       end)
    turns.

(** The local variable [lastTaskEndTime] after the given turns. *)
Definition lastTaskEndTimeAfter (lastTaskEndTime : option Z) (turns : list Turn)
    : option Z :=
  fold_left
    (fun last (turn : Turn) =>
       match snd turn with
       | Some (_, stop) => Some stop
       | None => last
       end)
    turns lastTaskEndTime.

(** The local variable [continuousWorkTime] after the given turns. *)
Definition continuousWorkTimeAfter (continuousWorkTime : Z) (turns : list Turn) : Z :=
  fold_left
    (fun work (turn : Turn) =>
       match snd turn with
       | Some _ =>
         let work := work + Z.pos (Task.duration (fst turn)) in
         if work >? maxContinuousWork then 0 else work
       | None => work
       end)
    turns continuousWorkTime.

(** ** Facts on lists and sorting *)

Section ListFacts.

Context {A : Type}.
Implicit Types (R : A -> A -> Prop) (l : list A).

Lemma Pairwise_nil R : Pairwise R [].
Proof. intros i j a b _ H. destruct i; discriminate H. Qed.

Lemma Pairwise_cons R x l :
  Pairwise R (x :: l) <->
  (forall y, In y l -> R x y /\ R y x) /\ Pairwise R l.
Proof.
  split.
  - intros H. split.
    + intros y Hy. apply list_elem_of_In, list_elem_of_lookup_1 in Hy as [k Hk].
      split; [apply (H 0%nat (S k)) | apply (H (S k) 0%nat)]; auto.
    + intros i j a b Hij Ha Hb. apply (H (S i) (S j)); auto.
  - intros [Hx Hl] i j a b Hij Ha Hb.
    destruct i as [|i], j as [|j]; simpl in Ha, Hb.
    + congruence.
    + inversion Ha; subst a.
      apply Hx, list_elem_of_In. eapply list_elem_of_lookup_2; eauto.
    + inversion Hb; subst b.
      apply Hx, list_elem_of_In. eapply list_elem_of_lookup_2; eauto.
    + apply (Hl i j); auto.
Qed.

Lemma Pairwise_Permutation R l l' :
  Permutation l l' -> Pairwise R l -> Pairwise R l'.
Proof.
  induction 1 as [|x l l' Hp IH|x y l|l l' l'' _ IH1 _ IH2]; auto.
  - rewrite !Pairwise_cons. intros [Hx Hl]. split; auto.
    intros y Hy. apply Hx. eapply Permutation_in; [symmetry|]; eauto.
  - rewrite !Pairwise_cons. simpl. intros [Hy [Hx Hl]].
    split; [|split; auto].
    intros z [<-|Hz]; [|apply Hx; auto].
    destruct (Hy x) as [? ?]; auto.
Qed.

Lemma Pairwise_app R l1 l2 :
  Pairwise R (l1 ++ l2) <->
  Pairwise R l1 /\ Pairwise R l2 /\
  (forall x y, In x l1 -> In y l2 -> R x y /\ R y x).
Proof.
  induction l1 as [|a l1 IH]; simpl.
  - split; [intros H | intros (_ & H & _); auto].
    split; [apply Pairwise_nil | split; [auto | contradiction]].
  - rewrite !Pairwise_cons, IH. split.
    + intros (Ha & H1 & H2 & H12).
      split; [split; auto; intros; apply Ha, in_or_app; auto|].
      split; auto.
      intros x y [<-|Hx] Hy; [apply Ha, in_or_app; auto | apply H12; auto].
    + intros ((Ha & H1) & H2 & H12).
      split; [|split; [auto | split; auto]].
      intros y Hy. apply in_app_or in Hy as [Hy|Hy]; [apply Ha | apply H12]; auto.
Qed.

Lemma Pairwise_filter R (f : A -> bool) l :
  Pairwise R l -> Pairwise R (List.filter f l).
Proof.
  induction l as [|a l IH]; simpl; auto.
  rewrite Pairwise_cons. intros [Ha Hl].
  destruct (f a); auto. rewrite Pairwise_cons. split; auto.
  intros y Hy. apply filter_In in Hy as [Hy _]. auto.
Qed.

Lemma Pairwise_insert R l (i : nat) x :
  Pairwise R l ->
  (forall j b, j <> i -> l !! j = Some b -> R x b /\ R b x) ->
  Pairwise R (<[i := x]> l).
Proof.
  intros Hl Hx j k a b Hjk Ha Hb.
  destruct (decide (i = j)) as [Hij|Hij]; destruct (decide (i = k)) as [Hik|Hik].
  - congruence.
  - subst j. rewrite list_lookup_insert_ne in Hb by auto.
    apply list_lookup_insert_Some in Ha as [(_ & <- & _)|[? _]]; [|congruence].
    apply (Hx k); auto.
  - subst k. rewrite list_lookup_insert_ne in Ha by auto.
    apply list_lookup_insert_Some in Hb as [(_ & <- & _)|[? _]]; [|congruence].
    apply (Hx j); auto.
  - rewrite list_lookup_insert_ne in Ha by auto.
    rewrite list_lookup_insert_ne in Hb by auto. apply (Hl j k); auto.
Qed.

Lemma In_firstn (n : nat) l x : In x (firstn n l) -> In x l.
Proof.
  revert l. induction n as [|n IH]; intros [|a l]; simpl; try contradiction.
  intros [->|H]; auto.
Qed.

Lemma In_skipn (n : nat) l x : In x (skipn n l) -> In x l.
Proof.
  revert l. induction n as [|n IH]; intros [|a l]; simpl; auto.
Qed.

Lemma In_slice (i j : nat) l x : In x (slice i j l) -> In x l.
Proof. unfold slice. intros H. eapply In_skipn, In_firstn, H. Qed.

(** Sorting by a numeric key. *)
Section SortByKey.

Variables (compareFn : A -> A -> Z) (key : A -> Z).
Hypothesis compareFn_key : forall a b, compareFn a b = key a - key b.

Lemma insertSorted_Permutation x l : Permutation (insertSorted compareFn x l) (x :: l).
Proof.
  induction l as [|y l IH]; simpl; auto.
  destruct (compareFn x y <=? 0); auto.
  rewrite IH. apply perm_swap.
Qed.

Lemma sortBy_Permutation l : Permutation (sortBy compareFn l) l.
Proof.
  induction l as [|x l IH]; simpl; auto.
  rewrite insertSorted_Permutation. auto.
Qed.

Lemma insertSorted_sorted x l :
  StronglySorted (fun a b => key a <= key b) l ->
  StronglySorted (fun a b => key a <= key b) (insertSorted compareFn x l).
Proof.
  induction 1 as [|y l Hl IH Hy]; simpl.
  - repeat constructor.
  - rewrite compareFn_key. destruct (Z.leb_spec (key x - key y) 0) as [Hle|Hgt].
    + constructor; [constructor; auto|].
      constructor; [lia|]. eapply Forall_impl; [exact Hy|]. simpl. intros; lia.
    + constructor; auto.
      eapply Permutation_Forall; [symmetry; apply insertSorted_Permutation|].
      constructor; [lia | auto].
Qed.

Lemma sortBy_sorted l : StronglySorted (fun a b => key a <= key b) (sortBy compareFn l).
Proof.
  induction l as [|x l IH]; simpl; [constructor | apply insertSorted_sorted, IH].
Qed.

(** Stability: the elements of any one key keep their input order. *)
Lemma insertSorted_stable v x l :
  List.filter (fun a => key a =? v) (insertSorted compareFn x l) =
  List.filter (fun a => key a =? v) (x :: l).
Proof.
  induction l as [|y l IH]; auto.
  simpl insertSorted. rewrite compareFn_key.
  destruct (Z.leb_spec (key x - key y) 0) as [Hle|Hgt]; auto.
  simpl in *. rewrite IH.
  destruct (Z.eqb_spec (key x) v), (Z.eqb_spec (key y) v); auto; lia.
Qed.

Lemma sortBy_stable v l :
  List.filter (fun a => key a =? v) (sortBy compareFn l) =
  List.filter (fun a => key a =? v) l.
Proof.
  induction l as [|x l IH]; auto.
  simpl sortBy. rewrite insertSorted_stable. simpl. rewrite IH. auto.
Qed.

End SortByKey.

End ListFacts.

(** ** Facts on dates *)

Ltac zdiv := Z.to_euclidean_division_equations; lia.

Ltac unfold_dates :=
  unfold setHours, getHours, getMinutes, localDateString, localDay, isoDateString,
    dayStart, dayEnd, DAY, HOUR, MINUTE in *.

Lemma startOfDay_ltb a b :
  (setHours a 0 0 <? setHours b 0 0) = (localDay a <? localDay b).
Proof.
  destruct (Z.ltb_spec (localDay a) (localDay b));
    [apply Z.ltb_lt | apply Z.ltb_ge]; unfold setHours, DAY, HOUR, MINUTE; lia.
Qed.

Lemma startOfDay_eqb a b :
  (setHours a 0 0 =? setHours b 0 0) = (localDay a =? localDay b).
Proof.
  destruct (Z.eqb_spec (localDay a) (localDay b)) as [Heq|Hne].
  - unfold setHours. rewrite Heq. apply Z.eqb_refl.
  - apply Z.eqb_neq. unfold setHours, DAY, HOUR, MINUTE. lia.
Qed.

Lemma localDay_setHours d h m :
  0 <= h * HOUR + m * MINUTE < DAY -> localDay (setHours d h m) = localDay d.
Proof. unfold_dates. intros. zdiv. Qed.

Lemma localDay_next d : localDay (d + DAY) = localDay d + 1.
Proof. unfold_dates. zdiv. Qed.

(** ** Properties of the engine *)

(** C6 (past-date guard): when the calendar day of the target date is
    strictly before the calendar day of now, [generateTimetable] returns the
    empty sequence, whatever the tasks and the unavailable blocks held by
    the scheduler. *)
Theorem generateTimetable_past_date (this : Scheduler) (clock date : Z) :
  localDay date < localDay clock ->
  fst (generateTimetable this clock date) = [].
Proof.
  intros Hpast. unfold generateTimetable.
  rewrite startOfDay_ltb, localDay_setHours by (unfold DAY, HOUR, MINUTE; lia).
  apply Z.ltb_lt in Hpast. rewrite Hpast. reflexivity.
Qed.

(** C9: the sequence returned by [generateTimetable] is sorted in
    non-decreasing order of [startTime], for every input. *)
Theorem generateTimetable_sorted (this : Scheduler) (clock date : Z) :
  StronglySorted (fun a b => TimeBlock.startTime a <= TimeBlock.startTime b)
                 (fst (generateTimetable this clock date)).
Proof.
  unfold generateTimetable.
  destruct (setHours date 0 0 <? setHours clock 0 0); [constructor|].
  destruct (placeTasks _ _ _ _ _ _) as [timetable this'].
  apply sortBy_sorted. reflexivity.
Qed.

(** C2 (determinism): [generateTimetable(date, tasks, blocks, now)], the
    operation that installs the task list and the block list and generates,
    yields the same output whatever state earlier calls left in the
    scheduler; in particular a second call with the same arguments, run on
    the state left by the first, returns the same sequence. *)
Theorem generateTimetable_deterministic
    (scheduler1 scheduler2 : Scheduler) (now : Z)
    (tasks : list Task.t) (blocks : list UnavailableBlock.t) (date : Z) :
  fst (generateTimetableForDate scheduler1 now tasks blocks date)
  = fst (generateTimetableForDate scheduler2 now tasks blocks date)
  /\ fst (generateTimetableForDate
            (snd (generateTimetableForDate scheduler1 now tasks blocks date))
            now tasks blocks date)
     = fst (generateTimetableForDate scheduler1 now tasks blocks date).
Proof. split; reflexivity. Qed.

(** The score of [getScore] is the sum of its four terms. *)
Lemma getScore_terms now task :
  getScore now task =
  deadlineUrgency now task + priorityScores (Task.priority task)
  + typeScores (Task.type task) - lengthPenalty (Z.pos (Task.duration task)).
Proof.
  unfold getScore, deadlineUrgency, lengthPenalty.
  repeat match goal with |- context [if ?c then _ else _] => destruct c eqn:? end;
    lia.
Qed.

(** C3, as the code has it: the Prioritizer returns a permutation of its
    input in non-increasing order of [score = deadlineUrgency +
    priorityWeight + categoryWeight - lengthPenalty], where the length
    penalty is 25 above 180 minutes, 10 above 120 and up to 180 minutes, and
    0 otherwise; tasks of equal score keep their relative input order. *)
Theorem prioritizeTasks_stable_descending
    (clock : Z) (tasks : list Task.t) (targetDate : Z) (currentTime : option Z) :
  let now := default clock currentTime in
  let sorted := prioritizeTasks clock tasks targetDate currentTime in
  (forall task, getScore now task =
     deadlineUrgency now task + priorityScores (Task.priority task)
     + typeScores (Task.type task) - lengthPenalty (Z.pos (Task.duration task)))
  /\ (forall d, lengthPenalty d =
        if d >? 180 then 25 else if d >? 120 then 10 else 0)
  /\ Permutation sorted tasks
  /\ StronglySorted (fun a b => getScore now a >= getScore now b) sorted
  /\ (forall score,
        List.filter (fun task => getScore now task =? score) sorted
        = List.filter (fun task => getScore now task =? score) tasks).
Proof.
  intros now sorted. subst sorted. unfold prioritizeTasks. fold now.
  assert (Hkey : forall a b : Task.t,
             getScore now b - getScore now a = - getScore now a - - getScore now b)
    by (intros; lia).
  split; [apply getScore_terms|]. split; [reflexivity|].
  split; [eapply sortBy_Permutation|]. split.
  - pose proof (sortBy_sorted _ (fun task => - getScore now task) Hkey tasks) as Hs.
    induction Hs as [|a l Hl IH Ha]; constructor; auto.
    eapply Forall_impl; [exact Ha|]. simpl. intros; lia.
  - intros score.
    pose proof (sortBy_stable _ (fun task => - getScore now task) Hkey (- score) tasks) as Hs.
    erewrite (filter_ext _ (fun task => - getScore now task =? - score)), Hs.
    + apply filter_ext. intros a. destruct (Z.eqb_spec (getScore now a) score),
        (Z.eqb_spec (- getScore now a) (- score)); auto; lia.
    + intros a. destruct (Z.eqb_spec (getScore now a) score),
        (Z.eqb_spec (- getScore now a) (- score)); auto; lia.
Qed.

(** *** Rescheduling *)

Lemma someIndexedFrom_true {A : Type} (f : A -> nat -> bool) (l : list A) (k : nat) :
  someIndexedFrom k f l = true <->
  exists j x, l !! j = Some x /\ f x (k + j)%nat = true.
Proof.
  revert k. induction l as [|a l IH]; intros k; simpl.
  - split; [discriminate | intros (j & x & H & _); destruct j; discriminate].
  - rewrite orb_true_iff, IH. split.
    + intros [H|(j & x & Hj & Hf)].
      * exists 0%nat, a. rewrite Nat.add_0_r. auto.
      * exists (S j), x. rewrite Nat.add_succ_r. auto.
    + intros (j & x & Hj & Hf). destruct j as [|j]; simpl in Hj.
      * inversion Hj; subst. rewrite Nat.add_0_r in Hf. auto.
      * right. exists j, x. rewrite Nat.add_succ_r in Hf. auto.
Qed.

Lemma someIndexed_false {A : Type} (f : A -> nat -> bool) (l : list A) :
  someIndexed f l = false <->
  forall j x, l !! j = Some x -> f x j = false.
Proof.
  unfold someIndexed. split.
  - intros H j x Hj. destruct (f x j) eqn:Hf; auto.
    rewrite <- H. symmetry. apply someIndexedFrom_true. eauto.
  - intros H. destruct (someIndexedFrom 0 f l) eqn:Hs; auto.
    apply someIndexedFrom_true in Hs as (j & x & Hj & Hf). simpl in Hf.
    rewrite (H j x Hj) in Hf. discriminate.
Qed.

Lemma list_find_FirstMatch taskId timetable :
  match list_find (fun block => TimeBlock.taskId block = Some taskId) timetable with
  | Some (i, block) => FirstMatch taskId timetable i block
  | None => forall block, In block timetable -> TimeBlock.taskId block <> Some taskId
  end.
Proof.
  destruct (list_find _ timetable) as [[i block]|] eqn:Hfind.
  - apply list_find_Some in Hfind as (Hi & Hid & Hfirst).
    split; [|split]; auto. intros j other Hlt Hj. eapply Hfirst; eauto.
  - apply list_find_None in Hfind. intros block Hin.
    rewrite Forall_forall in Hfind. apply Hfind, list_elem_of_In, Hin.
Qed.

(** C4, as the code has it: [rescheduleTask] returns the input timetable
    unchanged when no block has the task id, when the first block that has
    it carries no task snapshot, or when the new interval
    [newStart, newStart + duration) overlaps a block at another position;
    otherwise the result has the length of the input, holds at the position
    of the matched block that block with [startTime], [endTime] and the
    snapshot's [scheduledTime] set to the new interval (all its other
    fields kept), and is equal to the input at every other position. *)
Theorem rescheduleTask_cases
    (this : Scheduler) (clock : Z) (taskId : string) (newStartTime : Z)
    (timetable : list TimeBlock.t) :
  let result := fst (rescheduleTask this clock taskId newStartTime (Some timetable)) in
  (result = timetable
   /\ ((forall block, In block timetable -> TimeBlock.taskId block <> Some taskId)
       \/ (exists i block,
             FirstMatch taskId timetable i block /\ TimeBlock.task block = None)
       \/ (exists i block t j other,
             FirstMatch taskId timetable i block
             /\ TimeBlock.task block = Some t
             /\ j <> i /\ timetable !! j = Some other
             /\ slotsOverlap newStartTime
                             (newStartTime + Z.pos (Task.duration t) * 60000)
                             (TimeBlock.startTime other) (TimeBlock.endTime other)
                = true)))
  \/ (exists i block t,
        FirstMatch taskId timetable i block
        /\ TimeBlock.task block = Some t
        /\ (forall j other, j <> i -> timetable !! j = Some other ->
              slotsOverlap newStartTime
                           (newStartTime + Z.pos (Task.duration t) * 60000)
                           (TimeBlock.startTime other) (TimeBlock.endTime other)
              = false)
        /\ length result = length timetable
        /\ result !! i
           = Some (TimeBlock.mk (TimeBlock.id block) (TimeBlock.type block)
                     (TimeBlock.taskId block)
                     (Some (Task.withScheduledTime t (Some newStartTime)))
                     newStartTime
                     (newStartTime + Z.pos (Task.duration t) * 60000)
                     (TimeBlock.title block) (TimeBlock.description block)
                     (TimeBlock.isFixed block))
        /\ (forall j, j <> i -> result !! j = timetable !! j)).
Proof.
  intros result. subst result. unfold rescheduleTask.
  pose proof (list_find_FirstMatch taskId timetable) as Hfind.
  destruct (list_find _ timetable) as [[i block]|]; [|left; auto].
  destruct (TimeBlock.task block) as [t|] eqn:Htask;
    [|left; split; [reflexivity|]; right; left; exists i, block; auto].
  destruct (someIndexed _ timetable) eqn:Hconflict; simpl.
  - left. split; auto. right. right.
    apply someIndexedFrom_true in Hconflict as (j & other & Hj & Hf).
    apply andb_true_iff in Hf as [Hne Hov].
    apply negb_true_iff, Nat.eqb_neq in Hne.
    exists i, block, t, j, other. auto.
  - right. exists i, block, t.
    rewrite someIndexed_false in Hconflict.
    split; [auto|]. split; [auto|]. split.
    + intros j other Hne Hj. specialize (Hconflict j other Hj).
      apply andb_false_iff in Hconflict as [Hc|Hc]; auto.
      apply negb_false_iff, Nat.eqb_eq in Hc. contradiction.
    + split; [apply length_insert|]. split.
      * apply list_lookup_insert_eq. destruct Hfind as [Hi _].
        eapply lookup_lt_Some; eauto.
      * intros j Hne. apply list_lookup_insert_ne. auto.
Qed.

(** *** How the timetable is assembled *)

Lemma addUnavailableBlocks_app this timetable date :
  addUnavailableBlocks this timetable date =
  timetable ++ map (fun block => unavailableTimeBlock block date)
                   (List.filter (fun block => shouldIncludeBlock block date)
                                (unavailableBlocks this)).
Proof.
  unfold addUnavailableBlocks. revert timetable.
  induction (unavailableBlocks this) as [|block blocks IH]; intros timetable; simpl.
  - symmetry. apply app_nil_r.
  - rewrite IH. destruct (shouldIncludeBlock block date); simpl; auto.
    rewrite <- app_assoc. reflexivity.
Qed.

(** The blocks added by [addExistingScheduledTasks] are the blocks of
    stored tasks at their scheduled time. *)
Lemma addExistingScheduledTasks_app this clock timetable date currentTime :
  exists added,
    addExistingScheduledTasks this clock timetable date currentTime = timetable ++ added
    /\ Forall (fun block => exists stored scheduledDate,
                 In stored (tasks this)
                 /\ Task.scheduledTime stored = Some scheduledDate
                 /\ block = scheduledTimeBlock stored scheduledDate date)
              added.
Proof.
  unfold addExistingScheduledTasks.
  set (step := fun timetable task => _).
  assert (Hgen : forall stored timetable,
             (forall t, In t stored -> In t (tasks this)) ->
             exists added,
               fold_left step stored timetable = timetable ++ added
               /\ Forall (fun block => exists stored scheduledDate,
                            In stored (tasks this)
                            /\ Task.scheduledTime stored = Some scheduledDate
                            /\ block = scheduledTimeBlock stored scheduledDate date)
                         added).
  { induction stored as [|t stored IH]; intros tt Hsub; simpl.
    - exists []. rewrite app_nil_r. auto.
    - assert (Hstep : step tt t = tt
                      \/ exists scheduledDate,
                           Task.scheduledTime t = Some scheduledDate
                           /\ step tt t = tt ++ [scheduledTimeBlock t scheduledDate date]).
      { unfold step. destruct (Task.scheduledTime t) as [sd|]; auto.
        repeat match goal with
               | |- context [if ?c then _ else _] => destruct c
               end; eauto. }
      destruct (IH (step tt t)) as (added & Heq & Hall);
        [intros; apply Hsub; right; auto|].
      destruct Hstep as [Hs|(sd & Hsd & Hs)]; rewrite Hs in Heq |- *.
      + exists added. auto.
      + exists (scheduledTimeBlock t sd date :: added).
        rewrite Heq, <- app_assoc. split; auto.
        constructor; auto. exists t, sd. split; [apply Hsub; left|]; auto. }
  apply Hgen. auto.
Qed.

(** An invariant of the timetable that holds when a block is appended for a
    slot found by [findAvailableSlot] holds after [placeTasks]. *)
Lemma placeTasksLoop_invariant (Inv : list TimeBlock.t -> Prop)
    clock date currentTime :
  (forall timetable task lastTaskEndTime continuousWorkTime start stop,
      Inv timetable ->
      findAvailableSlot clock timetable (Task.duration task) date currentTime
                        lastTaskEndTime continuousWorkTime = Some (start, stop) ->
      Inv (timetable ++ [placedTimeBlock task date start stop])) ->
  forall pending timetable lastTaskEndTime continuousWorkTime stored,
    Inv timetable ->
    Inv (fst (placeTasksLoop clock date currentTime pending timetable
                             lastTaskEndTime continuousWorkTime stored)).
Proof.
  intros Hstep. induction pending as [|task pending IH]; intros; simpl; auto.
  destruct (findAvailableSlot _ _ _ _ _ _ _) as [[start stop]|] eqn:Hslot.
  - apply IH. eapply Hstep; eauto.
  - apply IH. auto.
Qed.

Lemma placeTasks_invariant (Inv : list TimeBlock.t -> Prop)
    this clock date currentTime :
  (forall timetable task lastTaskEndTime continuousWorkTime start stop,
      Inv timetable ->
      findAvailableSlot clock timetable (Task.duration task) date currentTime
                        lastTaskEndTime continuousWorkTime = Some (start, stop) ->
      Inv (timetable ++ [placedTimeBlock task date start stop])) ->
  forall sortedTasks timetable,
    Inv timetable ->
    Inv (fst (placeTasks this clock timetable sortedTasks date currentTime)).
Proof.
  intros Hstep sortedTasks timetable Hinv. unfold placeTasks.
  pose proof (placeTasksLoop_invariant Inv clock date currentTime Hstep
                sortedTasks timetable None 0 (tasks this) Hinv) as H.
  destruct (placeTasksLoop _ _ _ _ _ _ _ _). exact H.
Qed.

(** What a slot returned by the scan satisfies. *)
Lemma scanSlots_Some timetable duration dayEndTime lastTaskEndTime continuousWorkTime
    slots requiredSlots indices start stop :
  scanSlots timetable duration dayEndTime lastTaskEndTime continuousWorkTime
            slots requiredSlots indices = Some (start, stop) ->
  stop = start + Z.pos duration * 60000
  /\ stop <= dayEndTime
  /\ (exists slot, In slot slots /\ slotStart slot = start)
  /\ (forall block, In block timetable ->
        slotsOverlap start stop (TimeBlock.startTime block) (TimeBlock.endTime block)
        = false).
Proof.
  induction indices as [|i indices IH]; simpl; [discriminate|].
  destruct (forallb available _); auto.
  destruct (slice i (i + requiredSlots) slots) as [|first rest] eqn:Hslice;
    [discriminate|].
  destruct (Z.gtb_spec (slotStart first + Z.pos duration * 60000) dayEndTime); auto.
  destruct (existsb _ timetable) eqn:Hconflict; auto.
  match goal with |- context [if ?c then _ else _] => destruct c end; auto.
  intros Heq. inversion Heq; subst. split; [reflexivity|]. split; [lia|]. split.
  - exists first. split; auto.
    assert (Hin : In first (slice i (i + requiredSlots) slots))
      by (rewrite Hslice; left; auto).
    eapply In_slice, Hin.
  - intros block Hin. destruct (slotsOverlap _ _ _ _) eqn:Hov; auto.
    rewrite <- Hconflict. symmetry. apply existsb_exists. eauto.
Qed.

Lemma findAvailableSlot_Some clock timetable duration date currentTime
    lastTaskEndTime continuousWorkTime start stop :
  findAvailableSlot clock timetable duration date currentTime
                    lastTaskEndTime continuousWorkTime = Some (start, stop) ->
  stop = start + Z.pos duration * 60000
  /\ stop <= setHours date dayEnd 0
  /\ (forall block, In block timetable ->
        slotsOverlap start stop (TimeBlock.startTime block) (TimeBlock.endTime block)
        = false).
Proof.
  unfold findAvailableSlot.
  destruct (setHours date 0 0 <? setHours clock 0 0); [discriminate|].
  intros H. apply scanSlots_Some in H as (? & ? & _ & ?). auto.
Qed.

(** Every block added by the break inserter is a break. *)
Lemma breaksLoop_type continuousWorkTime taskBlocks :
  Forall (fun block => TimeBlock.type block = BlockType.break)
         (breaksLoop continuousWorkTime taskBlocks).
Proof.
  revert continuousWorkTime.
  induction taskBlocks as [|current rest IH]; intros; [constructor|].
  destruct rest as [|next rest]; [constructor|].
  cbn [breaksLoop]. apply Forall_app. split; [|apply IH].
  match goal with |- context [if ?c then _ else _] => destruct c end;
    repeat constructor.
Qed.

Lemma breaksLoop_id continuousWorkTime taskBlocks :
  Forall (fun block => exists current next, TimeBlock.id block = BreakId current next)
         (breaksLoop continuousWorkTime taskBlocks).
Proof.
  revert continuousWorkTime.
  induction taskBlocks as [|current rest IH]; intros; [constructor|].
  destruct rest as [|next rest]; [constructor|].
  cbn [breaksLoop]. apply Forall_app. split; [|apply IH].
  match goal with |- context [if ?c then _ else _] => destruct c end;
    repeat constructor. simpl. eauto.
Qed.

(** *** Task blocks and their snapshots *)

Lemma TaskBlockOk_unavailable block date : TaskBlockOk (unavailableTimeBlock block date).
Proof. intros Htype. discriminate Htype. Qed.

Lemma TaskBlockOk_scheduled stored scheduledDate date :
  Task.scheduledTime stored = Some scheduledDate ->
  TaskBlockOk (scheduledTimeBlock stored scheduledDate date).
Proof. intros Hs _. exists stored. simpl. auto. Qed.

Lemma TaskBlockOk_placed task date start :
  TaskBlockOk (placedTimeBlock task date start
                               (start + Z.pos (Task.duration task) * 60000)).
Proof. intros _. eexists. simpl. split; [reflexivity|]. auto. Qed.

Lemma fixedBlocks_TaskBlockOk this clock date :
  Forall TaskBlockOk (fixedBlocks this clock date).
Proof.
  unfold fixedBlocks.
  destruct (addExistingScheduledTasks_app this clock
              (addUnavailableBlocks this [] (setHours date 0 0)) (setHours date 0 0)
              (if localDay (setHours date 0 0) =? localDay clock then Some clock else None))
    as (added & -> & Hadded).
  rewrite addUnavailableBlocks_app. simpl. apply Forall_app. split.
  - apply Forall_forall. intros block Hin. apply list_elem_of_In in Hin.
    apply in_map_iff in Hin as (ub & <- & _). apply TaskBlockOk_unavailable.
  - eapply Forall_impl; [exact Hadded|].
    intros block (stored & sd & _ & Hsd & ->). apply TaskBlockOk_scheduled, Hsd.
Qed.

(** The output of [generateTimetable], when the date is not in the past:
    a sorted selection of the fixed blocks, the placed tasks and the
    breaks. *)
Lemma generateTimetable_blocks this clock date block :
  In block (fst (generateTimetable this clock date)) ->
  let targetDate := setHours date 0 0 in
  let currentTime := if localDay targetDate =? localDay clock then Some clock else None in
  let sortedTasks :=
    prioritizeTasks clock (getTasksForRescheduling this clock targetDate currentTime)
                    targetDate currentTime in
  let placed :=
    fst (placeTasks this clock (fixedBlocks this clock date) sortedTasks
                    targetDate currentTime) in
  In block (insertIntelligentBreaks placed).
Proof.
  unfold generateTimetable, fixedBlocks.
  destruct (setHours date 0 0 <? setHours clock 0 0); [contradiction|].
  destruct (placeTasks _ _ _ _ _ _) as [timetable this']. simpl.
  intros Hin.
  eapply Permutation_in in Hin; [|eapply sortBy_Permutation; reflexivity].
  apply filter_In in Hin as [Hin _]. exact Hin.
Qed.

(** C10: every block of type task in the output of [generateTimetable]
    carries a task snapshot, ends [duration] minutes after its start, and its
    snapshot's [scheduledTime] is the block's [startTime]. *)
Theorem generateTimetable_task_blocks
    (this : Scheduler) (clock date : Z) (block : TimeBlock.t) :
  In block (fst (generateTimetable this clock date)) ->
  TimeBlock.type block = BlockType.task ->
  exists t, TimeBlock.task block = Some t
    /\ TimeBlock.endTime block
       = TimeBlock.startTime block + Z.pos (Task.duration t) * 60000
    /\ Task.scheduledTime t = Some (TimeBlock.startTime block).
Proof.
  intros Hin Htype. apply generateTimetable_blocks in Hin.
  unfold insertIntelligentBreaks in Hin. apply in_app_or in Hin as [Hin|Hin].
  - match type of Hin with
    | In _ ?placed => assert (Hok : Forall TaskBlockOk placed)
    end.
    { apply placeTasks_invariant with (Inv := Forall TaskBlockOk).
      - intros timetable task last work start stop Hinv Hslot.
        apply findAvailableSlot_Some in Hslot as (-> & _).
        apply Forall_app. split; auto. constructor; auto using TaskBlockOk_placed.
      - apply fixedBlocks_TaskBlockOk. }
    rewrite Forall_forall in Hok. apply (Hok block); auto.
    apply list_elem_of_In, Hin.
  - match type of Hin with
    | In _ (breaksLoop ?work ?blocks) =>
      pose proof (breaksLoop_type work blocks) as Hbreaks
    end.
    rewrite Forall_forall in Hbreaks. apply list_elem_of_In, Hbreaks in Hin.
    congruence.
Qed.

(** *** Overlaps *)

Lemma overlap_sym a b : overlap a b = overlap b a.
Proof.
  unfold overlap, slotsOverlap. rewrite !Z.gtb_ltb. apply andb_comm.
Qed.

Lemma Before_overlap a b : Before a b -> overlap a b = false /\ overlap b a = false.
Proof.
  unfold Before. intros H. rewrite (overlap_sym b a).
  assert (Ho : overlap a b = false); [|auto].
  unfold overlap, slotsOverlap. rewrite Z.gtb_ltb.
  apply andb_false_iff. right. apply Z.ltb_ge. exact H.
Qed.

Lemma noOverlapb_sound timetable : noOverlapb timetable = true -> NoOverlap timetable.
Proof.
  unfold NoOverlap. induction timetable as [|a rest IH]; simpl.
  - intros _. apply Pairwise_nil.
  - intros H. apply andb_true_iff in H as [Ha Hrest].
    apply Pairwise_cons. split; auto.
    intros b Hb. rewrite forallb_forall in Ha. specialize (Ha b Hb).
    apply negb_true_iff in Ha. rewrite (overlap_sym b a). auto.
Qed.

Lemma noOverlapb_complete timetable : NoOverlap timetable -> noOverlapb timetable = true.
Proof.
  unfold NoOverlap. induction timetable as [|a rest IH]; simpl; auto.
  rewrite Pairwise_cons. intros [Ha Hrest].
  apply andb_true_iff. split; auto.
  apply forallb_forall. intros b Hb. apply negb_true_iff, Ha, Hb.
Qed.

(** A slot found by [findAvailableSlot] keeps the timetable free of
    overlaps. *)
Lemma NoOverlap_placed clock date currentTime timetable task
    lastTaskEndTime continuousWorkTime start stop :
  NoOverlap timetable ->
  findAvailableSlot clock timetable (Task.duration task) date currentTime
                    lastTaskEndTime continuousWorkTime = Some (start, stop) ->
  NoOverlap (timetable ++ [placedTimeBlock task date start stop]).
Proof.
  intros Hinv Hslot. apply findAvailableSlot_Some in Hslot as (_ & _ & Hfree).
  apply Pairwise_app. split; [exact Hinv|]. split.
  - apply Pairwise_cons. split; [contradiction | apply Pairwise_nil].
  - intros x y Hx [<-|[]]. rewrite (overlap_sym x). specialize (Hfree x Hx). auto.
Qed.

(** Task blocks that are sorted by start, free of overlaps and of positive
    length follow one another. *)
Lemma sorted_NoOverlap_chain l :
  StronglySorted (fun a b => TimeBlock.startTime a <= TimeBlock.startTime b) l ->
  NoOverlap l ->
  Forall (fun b => TimeBlock.startTime b < TimeBlock.endTime b) l ->
  StronglySorted Before l.
Proof.
  unfold NoOverlap. induction 1 as [|a l Hl IH Ha]; [constructor|].
  rewrite Pairwise_cons. intros [Hcross Hrest] Hpos.
  inversion Hpos as [|? ? Hapos Hlpos]; subst.
  constructor; auto.
  rewrite Forall_forall in *. intros b Hb. apply list_elem_of_In in Hb as Hb'.
  destruct (Hcross b Hb') as [Hov _]. specialize (Ha b Hb). specialize (Hlpos b Hb).
  unfold overlap, slotsOverlap in Hov. rewrite Z.gtb_ltb in Hov.
  apply andb_false_iff in Hov as [Hov|Hov]; apply Z.ltb_ge in Hov;
    unfold Before; lia.
Qed.

(** On such a chain every break lies between two neighbours. *)
Lemma breaksLoop_chain taskBlocks :
  StronglySorted Before taskBlocks ->
  Forall (fun b => TimeBlock.startTime b < TimeBlock.endTime b) taskBlocks ->
  forall continuousWorkTime,
    let breaks := breaksLoop continuousWorkTime taskBlocks in
    StronglySorted Before breaks
    /\ Forall (fun b => Forall (fun t => Before t b \/ Before b t) taskBlocks) breaks
    /\ match taskBlocks with
       | first :: _ => Forall (Before first) breaks
       | [] => True
       end.
Proof.
  induction 1 as [|current rest Hrest IH Hcurrent]; intros Hpos work.
  - simpl. repeat constructor.
  - inversion Hpos as [|? ? Hcpos Hrpos]; subst.
    destruct rest as [|next rest].
    { simpl. repeat constructor. }
    cbn [breaksLoop].
    set (work' := if minutesAtLeast _ 60 then 0 else _).
    destruct (IH Hrpos work') as (IHsorted & IHcross & IHfirst). clear IH.
    set (tail := breaksLoop work' (next :: rest)) in *.
    inversion Hcurrent as [|? ? Hcn Hcr]; subst.
    inversion Hrpos as [|? ? Hnpos _]; subst.
    assert (Htail : Forall (Before current) tail).
    { eapply Forall_impl; [exact IHfirst|]. unfold Before in *. intros; lia. }
    assert (Hcross : Forall (fun b => Forall (fun t => Before t b \/ Before b t)
                                             (current :: next :: rest)) tail).
    { rewrite Forall_forall in *. intros b Hb. constructor; auto. }
    match goal with
    | |- context [if ?c then [?b] else []] =>
      set (inserted := c); set (breakBlock := b)
    end.
    destruct inserted eqn:Hinserted; simpl app; [|auto].
    subst inserted. apply andb_true_iff in Hinserted as [_ Hfits].
    apply Z.leb_le in Hfits.
    assert (Hbn : Before breakBlock next) by exact Hfits.
    split; [|split].
    + constructor; auto. eapply Forall_impl; [exact IHfirst|].
      unfold Before in *. intros; lia.
    + constructor; auto. constructor; [left; unfold Before; simpl; lia|].
      constructor; [right; auto|].
      inversion Hrest as [|? ? _ Hnr]; subst.
      eapply Forall_impl; [exact Hnr|]. unfold Before in *. intros; right; lia.
    + constructor; auto. unfold Before. simpl. lia.
Qed.

Lemma fixedBlocks_not_break this clock date :
  Forall (fun block => TimeBlock.type block <> BlockType.break)
         (fixedBlocks this clock date).
Proof.
  unfold fixedBlocks.
  destruct (addExistingScheduledTasks_app this clock
              (addUnavailableBlocks this [] (setHours date 0 0)) (setHours date 0 0)
              (if localDay (setHours date 0 0) =? localDay clock then Some clock else None))
    as (added & -> & Hadded).
  rewrite addUnavailableBlocks_app. simpl. apply Forall_app. split.
  - apply Forall_forall. intros block Hin. apply list_elem_of_In in Hin.
    apply in_map_iff in Hin as (ub & <- & _). discriminate.
  - eapply Forall_impl; [exact Hadded|].
    intros block (stored & sd & _ & _ & ->). discriminate.
Qed.

(** The timetable handed to the break inserter. *)
Lemma placeTasks_timetable this clock date sortedTasks currentTime :
  NoOverlap (fixedBlocks this clock date) ->
  let placed :=
    fst (placeTasks this clock (fixedBlocks this clock date) sortedTasks
                    (setHours date 0 0) currentTime) in
  NoOverlap placed
  /\ Forall TaskBlockOk placed
  /\ Forall (fun block => TimeBlock.type block <> BlockType.break) placed.
Proof.
  intros Hfixed placed. subst placed.
  apply placeTasks_invariant
    with (Inv := fun timetable =>
                   NoOverlap timetable /\ Forall TaskBlockOk timetable
                   /\ Forall (fun block => TimeBlock.type block <> BlockType.break)
                             timetable).
  - intros timetable task last work start stop (Hno & Hok & Hty) Hslot.
    split; [eapply NoOverlap_placed; eauto|].
    apply findAvailableSlot_Some in Hslot as (-> & _).
    split; apply Forall_app; split; auto; constructor; auto;
      try apply TaskBlockOk_placed; try discriminate.
  - auto using fixedBlocks_TaskBlockOk, fixedBlocks_not_break.
Qed.

Lemma insertIntelligentBreaks_Compatible timetable :
  NoOverlap timetable ->
  Forall TaskBlockOk timetable ->
  Forall (fun block => TimeBlock.type block <> BlockType.break) timetable ->
  Pairwise Compatible (insertIntelligentBreaks timetable).
Proof.
  intros Hno Hok Hty. unfold insertIntelligentBreaks.
  set (taskBlocks := sortBy byStartTime (List.filter isTaskBlock timetable)).
  assert (Hperm : Permutation taskBlocks (List.filter isTaskBlock timetable))
    by (eapply sortBy_Permutation; reflexivity).
  assert (Hchain : StronglySorted Before taskBlocks).
  { apply sorted_NoOverlap_chain.
    - apply sortBy_sorted. reflexivity.
    - eapply Pairwise_Permutation; [symmetry; exact Hperm|].
      apply Pairwise_filter, Hno.
    - eapply Permutation_Forall; [symmetry; exact Hperm|].
      apply Forall_forall. intros block Hin.
      apply list_elem_of_In, filter_In in Hin as [Hin Htask].
      rewrite Forall_forall in Hok. apply list_elem_of_In in Hin.
      destruct (Hok block Hin) as (t & _ & -> & _); [|lia].
      unfold isTaskBlock in Htask. apply bool_decide_eq_true in Htask. exact Htask. }
  assert (Hpos : Forall (fun b => TimeBlock.startTime b < TimeBlock.endTime b) taskBlocks).
  { eapply Permutation_Forall; [symmetry; exact Hperm|].
    apply Forall_forall. intros block Hin.
    apply list_elem_of_In, filter_In in Hin as [Hin Htask].
    rewrite Forall_forall in Hok. apply list_elem_of_In in Hin.
    destruct (Hok block Hin) as (t & _ & -> & _); [|lia].
    unfold isTaskBlock in Htask. apply bool_decide_eq_true in Htask. exact Htask. }
  destruct (breaksLoop_chain taskBlocks Hchain Hpos 0) as (Hbsorted & Hbcross & _).
  pose proof (breaksLoop_type 0 taskBlocks) as Hbtype.
  set (breaks := breaksLoop 0 taskBlocks) in *.
  apply Pairwise_app. split; [|split].
  - intros i j a b Hij Ha Hb Hov. rewrite (Hno i j a b Hij Ha Hb) in Hov. discriminate.
  - clear Hbcross Hbtype. induction Hbsorted as [|a l Hl IH Ha]; [apply Pairwise_nil|].
    apply Pairwise_cons. split; auto.
    intros b Hb. rewrite Forall_forall in Ha.
    apply list_elem_of_In in Hb. destruct (Before_overlap a b (Ha b Hb)) as [H1 H2].
    split; intros Hov; congruence.
  - intros x b Hx Hb.
    rewrite Forall_forall in Hbcross, Hbtype, Hty.
    apply list_elem_of_In in Hb as Hb'. apply list_elem_of_In in Hx as Hx'.
    destruct (TimeBlock.type x) eqn:Htype.
    + assert (Hxt : In x taskBlocks).
      { eapply Permutation_in; [symmetry; exact Hperm|]. apply filter_In. split; auto.
        unfold isTaskBlock. apply bool_decide_eq_true. exact Htype. }
      specialize (Hbcross b Hb'). rewrite Forall_forall in Hbcross.
      apply list_elem_of_In in Hxt.
      destruct (Hbcross x Hxt) as [H|H]; apply Before_overlap in H as [H1 H2];
        split; intros Hov; congruence.
    + destruct (Hty x Hx'). exact Htype.
    + specialize (Hbtype b Hb'). split; intros _; [right | left]; auto.
Qed.

(** What [rescheduleTask] returns: the input, or the input with the block
    at one position replaced by a block that overlaps none of the others. *)
Lemma rescheduleTask_result this clock taskId newStartTime timetable :
  let result := fst (rescheduleTask this clock taskId newStartTime (Some timetable)) in
  result = timetable
  \/ exists i updated,
       result = <[i := updated]> timetable
       /\ forall j other, j <> i -> timetable !! j = Some other ->
            overlap updated other = false.
Proof.
  intros result. subst result. unfold rescheduleTask.
  destruct (list_find _ timetable) as [[i block]|]; [|left; auto].
  destruct (TimeBlock.task block) as [t|]; [|left; auto].
  destruct (someIndexed _ timetable) eqn:Hconflict; simpl; [left; auto|].
  right. eexists i, _. split; [reflexivity|].
  rewrite someIndexed_false in Hconflict.
  intros j other Hne Hj. specialize (Hconflict j other Hj).
  apply andb_false_iff in Hconflict as [Hc|Hc]; auto.
  apply negb_false_iff, Nat.eqb_eq in Hc. contradiction.
Qed.

(** C1, as the code has it.  [generateTimetable]: when the fixed blocks of
    the date (the unavailable blocks that apply and the kept scheduled
    tasks) do not overlap one another, two blocks at distinct positions of
    the output overlap only if one is a break and the other an unavailable
    block.  [rescheduleTask]: when no two blocks of the input timetable
    overlap, no two blocks of the result overlap. *)
Theorem timetable_no_overlap :
  (forall (this : Scheduler) (clock date : Z),
      NoOverlap (fixedBlocks this clock date) ->
      Pairwise Compatible (fst (generateTimetable this clock date)))
  /\ (forall (this : Scheduler) (clock : Z) (taskId : string) (newStartTime : Z)
             (timetable : list TimeBlock.t),
         NoOverlap timetable ->
         NoOverlap (fst (rescheduleTask this clock taskId newStartTime (Some timetable)))).
Proof.
  split.
  - intros this clock date Hfixed.
    pose proof (placeTasks_timetable this clock date
      (prioritizeTasks clock
         (getTasksForRescheduling this clock (setHours date 0 0)
            (if localDay (setHours date 0 0) =? localDay clock
             then Some clock else None))
         (setHours date 0 0)
         (if localDay (setHours date 0 0) =? localDay clock then Some clock else None))
      (if localDay (setHours date 0 0) =? localDay clock then Some clock else None)
      Hfixed) as (Hno & Hok & Hty).
    apply insertIntelligentBreaks_Compatible in Hno; auto.
    revert Hno. unfold generateTimetable, fixedBlocks.
    destruct (setHours date 0 0 <? setHours clock 0 0); [intros; apply Pairwise_nil|].
    destruct (placeTasks _ _ _ _ _ _) as [timetable this']. simpl. intros Hno.
    eapply Pairwise_Permutation;
      [symmetry; eapply sortBy_Permutation; reflexivity|].
    apply Pairwise_filter, Hno.
  - intros this clock taskId newStartTime timetable Hno.
    destruct (rescheduleTask_result this clock taskId newStartTime timetable)
      as [->|(i & updated & -> & Hfree)]; auto.
    apply Pairwise_insert; auto.
    intros j other Hne Hj. rewrite (overlap_sym other). split; eapply Hfree; eauto.
Qed.

(** *** Exceptions of recurring blocks *)

Lemma NoDup_map_lookup {A B : Type} (f : A -> B) (l : list A) (i j : nat) (a b : A) :
  NoDup (map f l) -> l !! i = Some a -> l !! j = Some b -> f a = f b -> i = j.
Proof.
  revert i j. induction l as [|x l IH]; intros i j Hnd Hi Hj Hf.
  - destruct i; discriminate.
  - simpl in Hnd. apply NoDup_cons in Hnd as [Hx Hnd].
    rewrite list_elem_of_In in Hx.
    destruct i as [|i], j as [|j]; simpl in Hi, Hj;
      [reflexivity | | | f_equal; eapply IH; eauto].
    + inversion Hi; subst. destruct Hx. rewrite Hf.
      apply in_map, list_elem_of_In. eapply list_elem_of_lookup_2; eauto.
    + inversion Hj; subst. destruct Hx. rewrite <- Hf.
      apply in_map, list_elem_of_In. eapply list_elem_of_lookup_2; eauto.
Qed.

Lemma addExceptionToRecurringBlock_blocks this block recurring exceptionDate :
  NoDup (map UnavailableBlock.id (unavailableBlocks this)) ->
  In block (unavailableBlocks this) ->
  UnavailableBlock.recurring block = Some recurring ->
  exists index,
    unavailableBlocks this !! index = Some block
    /\ unavailableBlocks
         (snd (addExceptionToRecurringBlock this (UnavailableBlock.id block) exceptionDate))
       = <[index := withException block recurring exceptionDate]> (unavailableBlocks this).
Proof.
  intros Hnd Hin Hrec. unfold addExceptionToRecurringBlock.
  apply list_elem_of_In, list_elem_of_lookup_1 in Hin as [k Hk].
  destruct (list_find _ (unavailableBlocks this)) as [[index found]|] eqn:Hfind.
  - apply list_find_Some in Hfind as (Hindex & Hid & _).
    assert (index = k) by (eapply NoDup_map_lookup; eauto). subst index.
    assert (found = block) by congruence. subst found.
    rewrite Hrec. simpl. exists k. split; auto.
  - apply list_find_None in Hfind. rewrite Forall_forall in Hfind.
    destruct (Hfind block); [eapply list_elem_of_lookup_2; eauto | reflexivity].
Qed.

Lemma existsb_eqb_In (x : Z) (l : list Z) : existsb (Z.eqb x) l = true <-> In x l.
Proof.
  rewrite existsb_exists. split.
  - intros (y & Hy & Heq). apply Z.eqb_eq in Heq. subst. auto.
  - intros H. exists x. split; auto. apply Z.eqb_refl.
Qed.

Lemma exceptionsWith_In recurring exceptionDate day :
  In day (exceptionsWith recurring exceptionDate) <->
  day = isoDateString exceptionDate
  \/ In day (default [] (Recurring.exceptions recurring)).
Proof.
  unfold exceptionsWith.
  destruct (existsb _ _) eqn:Hex.
  - apply existsb_eqb_In in Hex. split; auto. intros [->|H]; auto.
  - rewrite in_app_iff. simpl. split; intros [H|H]; auto.
    destruct H as [H|[]]; auto.
Qed.

Lemma generateTimetable_FromApplicable this clock date timeBlock :
  In timeBlock (fst (generateTimetable this clock date)) ->
  FromApplicable this (setHours date 0 0) timeBlock.
Proof.
  intros Hin. apply generateTimetable_blocks in Hin.
  unfold insertIntelligentBreaks in Hin. apply in_app_or in Hin as [Hin|Hin].
  - match type of Hin with
    | In _ ?placed =>
      assert (Hok : Forall (FromApplicable this (setHours date 0 0)) placed)
    end.
    { apply placeTasks_invariant
        with (Inv := Forall (FromApplicable this (setHours date 0 0))).
      - intros timetable task last work start stop Hinv _.
        apply Forall_app. split; auto. constructor; auto.
        intros blockId day Hid. discriminate Hid.
      - unfold fixedBlocks.
        destruct (addExistingScheduledTasks_app this clock
                    (addUnavailableBlocks this [] (setHours date 0 0)) (setHours date 0 0)
                    (if localDay (setHours date 0 0) =? localDay clock
                     then Some clock else None))
          as (added & -> & Hadded).
        rewrite addUnavailableBlocks_app. simpl. apply Forall_app. split.
        + apply Forall_forall. intros b Hb. apply list_elem_of_In in Hb.
          apply in_map_iff in Hb as (ub & <- & Hub).
          apply filter_In in Hub as [Hub Hinc].
          intros blockId day Hid. inversion Hid; subst. eauto.
        + eapply Forall_impl; [exact Hadded|].
          intros b (stored & sd & _ & _ & ->) blockId day Hid. discriminate Hid. }
    rewrite Forall_forall in Hok. apply Hok, list_elem_of_In, Hin.
  - match type of Hin with
    | In _ (breaksLoop ?work ?blocks) =>
      pose proof (breaksLoop_id work blocks) as Hid
    end.
    rewrite Forall_forall in Hid.
    apply list_elem_of_In, Hid in Hin as (x & y & Hxy).
    intros blockId day Hu. congruence.
Qed.

(** A fixed block that is not a completed task is in the output when the
    date is not in the past. *)
Lemma generateTimetable_fixed this clock date timeBlock :
  localDay clock <= localDay date ->
  In timeBlock (fixedBlocks this clock date) ->
  TimeBlock.task timeBlock = None ->
  In timeBlock (fst (generateTimetable this clock date)).
Proof.
  intros Hday Hin Htask.
  assert (Hplaced : forall sortedTasks currentTime,
             In timeBlock
                (fst (placeTasks this clock (fixedBlocks this clock date) sortedTasks
                                 (setHours date 0 0) currentTime))).
  { intros. apply placeTasks_invariant with (Inv := In timeBlock); auto.
    intros. apply in_or_app. auto. }
  revert Hplaced. unfold generateTimetable, fixedBlocks.
  rewrite startOfDay_ltb. destruct (Z.ltb_spec (localDay date) (localDay clock)); [lia|].
  intros Hplaced.
  specialize (Hplaced
    (prioritizeTasks clock
       (getTasksForRescheduling this clock (setHours date 0 0)
          (if localDay (setHours date 0 0) =? localDay clock then Some clock else None))
       (setHours date 0 0)
       (if localDay (setHours date 0 0) =? localDay clock then Some clock else None))
    (if localDay (setHours date 0 0) =? localDay clock then Some clock else None)).
  destruct (placeTasks _ _ _ _ _ _) as [timetable this']. simpl in *.
  eapply Permutation_in; [symmetry; eapply sortBy_Permutation; reflexivity|].
  apply filter_In. split.
  - unfold insertIntelligentBreaks. apply in_or_app. auto.
  - rewrite Htask. reflexivity.
Qed.

Lemma shouldIncludeBlock_withException block recurring exceptionDate date :
  localDateString date = isoDateString exceptionDate ->
  shouldIncludeBlock (withException block recurring exceptionDate) date = false.
Proof.
  intros Hday. unfold shouldIncludeBlock, withException. simpl.
  rewrite Hday.
  assert (Hin : existsb (Z.eqb (isoDateString exceptionDate))
                        (exceptionsWith recurring exceptionDate) = true).
  { apply existsb_eqb_In, exceptionsWith_In. auto. }
  rewrite Hin. reflexivity.
Qed.

Lemma shouldIncludeBlock_daily block recurring exceptionDate date :
  Recurring.type recurring = daily ->
  localDateString date <> isoDateString exceptionDate ->
  ~ In (localDateString date) (default [] (Recurring.exceptions recurring)) ->
  shouldIncludeBlock (withException block recurring exceptionDate) date = true.
Proof.
  intros Hdaily Hne Hnot. unfold shouldIncludeBlock, withException. simpl.
  destruct (existsb _ (exceptionsWith recurring exceptionDate)) eqn:Hex.
  - apply existsb_eqb_In, exceptionsWith_In in Hex as [Hex|Hex]; contradiction.
  - rewrite Hdaily. reflexivity.
Qed.

(** Exception suppression where the two date strings agree.  Let a daily
    recurring block with a unique id be held by the scheduler, and let [D]
    be an instant whose UTC calendar date is its local calendar date.  After
    [addException(block, D)]:
    the output of [generateTimetable] for [D] holds no block with the id of
    an unavailable block derived from that block; and, provided the day
    after [D] is not before today and is not already among the exceptions
    of the block, the output for [D + 1 day] holds the unavailable block
    derived from it. *)
Theorem exception_suppression
    (this : Scheduler) (block : UnavailableBlock.t) (recurring : Recurring.t) (D : Z) :
  NoDup (map UnavailableBlock.id (unavailableBlocks this)) ->
  In block (unavailableBlocks this) ->
  UnavailableBlock.recurring block = Some recurring ->
  Recurring.type recurring = daily ->
  isoDateString D = localDateString D ->
  let this' := snd (addExceptionToRecurringBlock this (UnavailableBlock.id block) D) in
  (forall clock timeBlock day,
      In timeBlock (fst (generateTimetable this' clock D)) ->
      TimeBlock.id timeBlock <> UnavailableId (UnavailableBlock.id block) day)
  /\ (forall clock,
         localDay clock <= localDay (D + DAY) ->
         ~ In (localDateString (D + DAY)) (default [] (Recurring.exceptions recurring)) ->
         exists timeBlock,
           In timeBlock (fst (generateTimetable this' clock (D + DAY)))
           /\ TimeBlock.id timeBlock
              = UnavailableId (UnavailableBlock.id block) (localDay (D + DAY))
           /\ TimeBlock.type timeBlock = BlockType.unavailable).
Proof.
  intros Hnd Hin Hrec Hdaily Hutc this'.
  destruct (addExceptionToRecurringBlock_blocks this block recurring D Hnd Hin Hrec)
    as (index & Hindex & Hblocks).
  fold this' in Hblocks.
  assert (Hday0 : forall d, localDay (setHours d 0 0) = localDay d)
    by (intros; apply localDay_setHours; unfold DAY, HOUR, MINUTE; lia).
  split.
  - intros clock timeBlock day Hout Hid.
    apply generateTimetable_FromApplicable in Hout.
    destruct (Hout _ _ Hid) as (ub & Hub & Hinc & Hubid).
    rewrite Hblocks in Hub.
    apply list_elem_of_In, list_elem_of_lookup_1 in Hub as [k Hk].
    apply list_lookup_insert_Some in Hk as [(-> & <- & _)|(Hne & Hk)].
    + rewrite shouldIncludeBlock_withException in Hinc; [discriminate|].
      unfold localDateString. rewrite Hday0. symmetry. exact Hutc.
    + destruct Hne. eapply NoDup_map_lookup; eauto.
  - intros clock Hday Hnot.
    exists (unavailableTimeBlock (withException block recurring D) (setHours (D + DAY) 0 0)).
    split; [|split].
    + apply generateTimetable_fixed; auto.
      unfold fixedBlocks.
      destruct (addExistingScheduledTasks_app this' clock
                  (addUnavailableBlocks this' [] (setHours (D + DAY) 0 0))
                  (setHours (D + DAY) 0 0)
                  (if localDay (setHours (D + DAY) 0 0) =? localDay clock
                   then Some clock else None))
        as (added & -> & _).
      apply in_or_app. left. rewrite addUnavailableBlocks_app. simpl.
      apply in_map_iff. eexists. split; [reflexivity|]. apply filter_In. split.
      * rewrite Hblocks. apply list_elem_of_In.
        eapply list_elem_of_lookup_2. apply list_lookup_insert_eq.
        eapply lookup_lt_Some; eauto.
      * apply shouldIncludeBlock_daily; auto;
          unfold localDateString in *; rewrite Hday0; auto.
        rewrite Hutc, localDay_next. lia.
    + simpl. rewrite Hday0. reflexivity.
    + reflexivity.
Qed.

(** *** The slots of an empty day *)

Lemma setHours_startOfDay d h m : setHours (setHours d 0 0) h m = setHours d h m.
Proof.
  unfold setHours at 1 3. rewrite localDay_setHours; [reflexivity|].
  unfold DAY, HOUR, MINUTE. lia.
Qed.

Lemma windowStart_startOfDay now date :
  windowStart now (setHours date 0 0) = windowStart now date.
Proof.
  unfold windowStart. rewrite setHours_startOfDay, localDay_setHours; [reflexivity|].
  unfold DAY, HOUR, MINUTE. lia.
Qed.

(** The window start lies on the 15-minute grid of the end of the day. *)
Lemma windowStart_aligned now date :
  exists m, setHours date dayEnd 0 - windowStart now date = 15 * 60000 * m.
Proof.
  assert (Hday : localDay (setHours date dayStart 0) = localDay date)
    by (apply localDay_setHours; unfold dayStart, DAY, HOUR, MINUTE; lia).
  unfold windowStart.
  destruct (_ && _); [destruct (_ >=? 60)|].
  - exists (4 * (22 - getHours (now + 15 * 60000))).
    unfold setHours at 1 2. rewrite Hday. unfold dayEnd, HOUR, MINUTE. lia.
  - exists (4 * (23 - getHours (now + 15 * 60000))
            - ceilDiv (getMinutes (now + 15 * 60000)) 15).
    unfold setHours at 1 2. rewrite Hday. unfold dayEnd, HOUR, MINUTE. lia.
  - exists 68. unfold setHours, dayEnd, dayStart, HOUR, MINUTE. lia.
Qed.

Lemma buildSlots_available fuel current latestTaskStart dayEndTime :
  Forall (fun slot => available slot = true)
         (buildSlots fuel current latestTaskStart dayEndTime).
Proof.
  revert current. induction fuel as [|fuel IH]; intros; simpl; [constructor|].
  destruct (current <? latestTaskStart); [|constructor].
  apply Forall_app. split; [|apply IH].
  destruct (_ <=? dayEndTime); repeat constructor.
Qed.

Lemma buildSlots_length (k fuel : nat) current latestTaskStart dayEndTime :
  (k <= fuel)%nat ->
  current + 15 * 60000 * (Z.of_nat k - 1) < latestTaskStart ->
  current + 15 * 60000 * Z.of_nat k <= dayEndTime ->
  (k <= length (buildSlots fuel current latestTaskStart dayEndTime))%nat.
Proof.
  revert fuel current.
  induction k as [|k IH]; intros fuel current Hfuel Hlast Hend; [lia|].
  destruct fuel as [|fuel]; [lia|]. simpl.
  destruct (Z.ltb_spec current latestTaskStart); [|lia].
  destruct (Z.leb_spec (current + 15 * 60000) dayEndTime); [|lia].
  simpl. apply le_n_S, IH; lia.
Qed.

Lemma buildSlots_first fuel current latestTaskStart dayEndTime :
  (0 < fuel)%nat ->
  current < latestTaskStart ->
  current + 15 * 60000 <= dayEndTime ->
  exists rest,
    buildSlots fuel current latestTaskStart dayEndTime
    = mkSlot current (current + 15 * 60000) true :: rest.
Proof.
  intros Hfuel Hlast Hend. destruct fuel as [|fuel]; [lia|]. simpl.
  destruct (Z.ltb_spec current latestTaskStart); [|lia].
  destruct (Z.leb_spec (current + 15 * 60000) dayEndTime); [|lia].
  simpl. eauto.
Qed.

(** On an empty timetable the first run of slots is taken when it exists. *)
Lemma findAvailableSlot_empty clock duration date currentTime continuousWorkTime :
  localDay clock <= localDay date ->
  let start := windowStart (default clock currentTime) date in
  start + 15 * 60000 * (ceilDiv (Z.pos duration) 15 - 1)
    < setHours date dayEnd 0 - Z.pos duration * 60000 ->
  findAvailableSlot clock [] duration date currentTime None continuousWorkTime
  = Some (start, start + Z.pos duration * 60000).
Proof.
  intros Hday start Hfits. unfold findAvailableSlot.
  rewrite startOfDay_ltb.
  destruct (Z.ltb_spec (localDay date) (localDay clock)); [lia|].
  fold start. simpl markUnavailable.
  set (latest := setHours date dayEnd 0 - Z.pos duration * 60000) in *.
  set (required := Z.to_nat (ceilDiv (Z.pos duration) 15)).
  assert (Hceil : 1 <= ceilDiv (Z.pos duration) 15) by (unfold ceilDiv; zdiv).
  assert (Hreq : Z.of_nat required = ceilDiv (Z.pos duration) 15)
    by (unfold required; lia).
  destruct (windowStart_aligned (default clock currentTime) date) as [m Hm].
  fold start in Hm.
  assert (Hend : start + 15 * 60000 * Z.of_nat required <= setHours date dayEnd 0)
    by (unfold latest in Hfits; nia).
  assert (Hfuel : (required <= slotFuel start latest)%nat).
  { unfold slotFuel. apply Nat2Z.inj_le. rewrite Hreq.
    rewrite <- Hreq in Hfits. zdiv. }
  pose proof (buildSlots_length required _ start latest (setHours date dayEnd 0)
                Hfuel ltac:(lia) Hend) as Hlen.
  destruct (buildSlots_first (slotFuel start latest) start latest
              (setHours date dayEnd 0)) as [rest Hslots]; [lia | nia | nia |].
  pose proof (buildSlots_available (slotFuel start latest) start latest
                (setHours date dayEnd 0)) as Havail.
  set (slots := buildSlots _ _ _ _) in *.
  replace (length slots + 1 - required)%nat
    with (S (length slots - required)) by lia.
  cbn [seq scanSlots].
  assert (Hall : forallb available (slice 0 (0 + required) slots) = true).
  { apply forallb_forall. intros slot Hin. apply In_slice in Hin.
    rewrite Forall_forall in Havail. apply Havail, list_elem_of_In, Hin. }
  rewrite Hall.
  assert (Hslice : exists more, slice 0 (0 + required) slots
                                = mkSlot start (start + 15 * 60000) true :: more).
  { unfold slice. rewrite Hslots. simpl.
    destruct required as [|n] eqn:Hn; [lia|].
    replace (S n - 0)%nat with (S n) by lia. simpl. eauto. }
  destruct Hslice as [more ->]. cbn [slotStart existsb].
  destruct (Z.gtb_spec (start + Z.pos duration * 60000) (setHours date dayEnd 0));
    [unfold latest in *; nia | reflexivity].
Qed.

(** When an overdue task is carried forward: for a single incomplete task
    without [scheduledTime] whose deadline day is before today, and no
    unavailable block, [generateTimetable] for today returns exactly one
    block, the task placed at the start of the working window, whenever the
    [ceil(duration / 15)] slots that start at the window start all begin
    strictly before 23:00 minus the duration. *)
Theorem overdue_task_carried_forward
    (scheduler : Scheduler) (now date : Z) (overdue : Task.t) :
  Task.completed overdue = false ->
  Task.scheduledTime overdue = None ->
  localDay (Task.deadline overdue) < localDay now ->
  localDay date = localDay now ->
  let start := windowStart now date in
  let minutes := Z.pos (Task.duration overdue) in
  start + 15 * 60000 * (ceilDiv minutes 15 - 1)
    < setHours date dayEnd 0 - minutes * 60000 ->
  fst (generateTimetableForDate scheduler now [overdue] [] date)
  = [placedTimeBlock overdue (setHours date 0 0) start (start + minutes * 60000)].
Proof.
  intros Hcompleted Hscheduled Hdeadline Htoday start minutes Hfits.
  assert (Hday0 : forall d, localDay (setHours d 0 0) = localDay d)
    by (intros; apply localDay_setHours; unfold DAY, HOUR, MINUTE; lia).
  unfold generateTimetableForDate, setTasks, setUnavailableBlocks, generateTimetable.
  cbn [List.filter]. rewrite Hcompleted. cbn [negb].
  rewrite startOfDay_ltb, Hday0, Htoday, Z.ltb_irrefl, Z.eqb_refl.
  unfold addUnavailableBlocks, addExistingScheduledTasks, getTasksForRescheduling.
  cbn [tasks unavailableBlocks fold_left List.filter default from_option]. unfold id.
  rewrite Hscheduled, Hcompleted, !startOfDay_ltb, Hday0, Htoday, Z.ltb_irrefl.
  apply Z.ltb_lt in Hdeadline as Hoverdue. rewrite Hoverdue.
  assert (Hge : (setHours (setHours date 0 0) 0 0 >=? setHours now 0 0) = true).
  { rewrite Z.geb_leb. apply Z.leb_le. rewrite setHours_startOfDay.
    unfold setHours. rewrite Htoday. lia. }
  rewrite Hge. cbn [andb].
  unfold prioritizeTasks, placeTasks. cbn [sortBy fold_right insertSorted placeTasksLoop tasks].
  rewrite (findAvailableSlot_empty now (Task.duration overdue) (setHours date 0 0)
             (Some now) 0);
    [| rewrite Hday0; lia
     | cbn [default from_option]; unfold id;
       rewrite windowStart_startOfDay, setHours_startOfDay; exact Hfits].
  cbn [default from_option]. unfold id. rewrite windowStart_startOfDay. fold start minutes.
  cbn [placeTasksLoop app fst snd].
  unfold insertIntelligentBreaks.
  cbn [List.filter isTaskBlock placedTimeBlock TimeBlock.type TimeBlock.task].
  unfold isTaskBlock. cbn [TimeBlock.type TimeBlock.task List.filter].
  rewrite bool_decide_eq_true_2 by reflexivity.
  cbn [sortBy fold_right insertSorted breaksLoop app List.filter].
  unfold placedTimeBlock at 1 2.
  cbn [TimeBlock.task TimeBlock.type Task.withScheduledTime Task.completed].
  rewrite Hcompleted. reflexivity.
Qed.

(** Where a found slot lies: not before the window start computed by
    [findAvailableSlot], and ending by the end of the day. *)
Lemma buildSlots_start fuel current latestTaskStart dayEndTime :
  Forall (fun slot => current <= slotStart slot)
         (buildSlots fuel current latestTaskStart dayEndTime).
Proof.
  revert current. induction fuel as [|fuel IH]; intros; simpl; [constructor|].
  destruct (current <? latestTaskStart); [|constructor].
  apply Forall_app. split.
  - destruct (_ <=? dayEndTime); repeat constructor. simpl. lia.
  - eapply Forall_impl; [apply IH|]. simpl. intros; lia.
Qed.

Lemma markUnavailable_start timetable slots :
  map slotStart (markUnavailable timetable slots) = map slotStart slots.
Proof.
  unfold markUnavailable. revert slots.
  induction timetable as [|block timetable IH]; intros; simpl; auto.
  rewrite IH, map_map. apply map_ext. intros slot.
  destruct (slotsOverlap _ _ _ _); reflexivity.
Qed.

Lemma findAvailableSlot_window clock timetable duration date currentTime
    lastTaskEndTime continuousWorkTime start stop :
  findAvailableSlot clock timetable duration date currentTime
                    lastTaskEndTime continuousWorkTime = Some (start, stop) ->
  windowStart (default clock currentTime) date <= start
  /\ stop <= setHours date dayEnd 0.
Proof.
  unfold findAvailableSlot.
  destruct (setHours date 0 0 <? setHours clock 0 0); [discriminate|].
  intros H. apply scanSlots_Some in H as (_ & Hend & (slot & Hin & <-) & _).
  split; auto.
  apply (in_map slotStart) in Hin. rewrite markUnavailable_start in Hin.
  apply in_map_iff in Hin as (slot' & <- & Hin').
  pose proof (buildSlots_start
    (slotFuel (windowStart (default clock currentTime) date)
              (setHours date dayEnd 0 - Z.pos duration * 60000))
    (windowStart (default clock currentTime) date)
    (setHours date dayEnd 0 - Z.pos duration * 60000)
    (setHours date dayEnd 0)) as Hstart.
  rewrite Forall_forall in Hstart. apply Hstart, list_elem_of_In, Hin'.
Qed.

(** The fuel given to [buildSlots] lets the loop leave by its own test:
    more fuel builds the same slots. *)
Lemma slotFuel_step current latestTaskStart :
  current < latestTaskStart ->
  slotFuel current latestTaskStart = S (slotFuel (current + 15 * 60000) latestTaskStart).
Proof.
  intros Hlt. unfold slotFuel.
  rewrite <- Z2Nat.inj_succ by zdiv. f_equal. zdiv.
Qed.

Lemma buildSlots_fuel_enough fuel current latestTaskStart dayEndTime :
  (slotFuel current latestTaskStart <= fuel)%nat ->
  buildSlots fuel current latestTaskStart dayEndTime
  = buildSlots (slotFuel current latestTaskStart) current latestTaskStart dayEndTime.
Proof.
  revert current. induction fuel as [|fuel IH]; intros current Hfuel.
  - replace (slotFuel current latestTaskStart) with 0%nat by lia. reflexivity.
  - destruct (Z.ltb_spec current latestTaskStart) as [Hlt|Hge].
    + rewrite (slotFuel_step _ _ Hlt) in *. simpl.
      apply Z.ltb_lt in Hlt. rewrite Hlt. f_equal. apply IH. lia.
    + simpl. apply Z.ltb_ge in Hge as Hge'. rewrite Hge'.
      destruct (slotFuel current latestTaskStart); simpl; [|rewrite Hge']; reflexivity.
Qed.

(** The run of slots examined by the scan is never empty, so
    [consecutiveSlots[0]] is defined. *)
Lemma length_slice {A : Type} (i j : nat) (l : list A) :
  (i <= j)%nat -> (j <= length l)%nat -> length (slice i j l) = (j - i)%nat.
Proof.
  intros Hij Hj. unfold slice. rewrite length_firstn, length_skipn. lia.
Qed.

Lemma scanned_slice_not_empty (duration : positive) (slots : list Slot) (i : nat) :
  let requiredSlots := Z.to_nat (ceilDiv (Z.pos duration) 15) in
  In i (seq 0 (length slots + 1 - requiredSlots)) ->
  slice i (i + requiredSlots) slots <> [].
Proof.
  intros requiredSlots Hi. apply in_seq in Hi.
  assert (Hreq : (1 <= requiredSlots)%nat).
  { unfold requiredSlots, ceilDiv. apply Nat2Z.inj_le. zdiv. }
  intros Hnil. apply (f_equal (@length Slot)) in Hnil.
  rewrite length_slice in Hnil by lia. simpl in Hnil. lia.
Qed.

(** Every task block appended by the slot allocator starts at or after the
    window start computed by [findAvailableSlot] and ends by 23:00 of the
    target date. *)
Lemma generateTimetable_placed_window this clock date block taskId day :
  In block (fst (generateTimetable this clock date)) ->
  TimeBlock.id block = PlacedId taskId day ->
  windowStart clock date <= TimeBlock.startTime block
  /\ TimeBlock.endTime block <= setHours date dayEnd 0.
Proof.
  intros Hin Hid. apply generateTimetable_blocks in Hin.
  unfold insertIntelligentBreaks in Hin. apply in_app_or in Hin as [Hin|Hin].
  - set (InWindow := fun b : TimeBlock.t =>
           forall taskId day, TimeBlock.id b = PlacedId taskId day ->
             windowStart clock date <= TimeBlock.startTime b
             /\ TimeBlock.endTime b <= setHours date dayEnd 0).
    match type of Hin with
    | In _ ?placed => assert (Hok : Forall InWindow placed)
    end.
    { apply placeTasks_invariant with (Inv := Forall InWindow).
      - intros timetable task last work start stop Hinv Hslot.
        apply Forall_app. split; auto. constructor; auto.
        intros _ _ _. apply findAvailableSlot_window in Hslot. simpl.
        rewrite windowStart_startOfDay, setHours_startOfDay in Hslot.
        destruct (localDay (setHours date 0 0) =? localDay clock); exact Hslot.
      - unfold fixedBlocks.
        destruct (addExistingScheduledTasks_app this clock
                    (addUnavailableBlocks this [] (setHours date 0 0)) (setHours date 0 0)
                    (if localDay (setHours date 0 0) =? localDay clock
                     then Some clock else None))
          as (added & -> & Hadded).
        rewrite addUnavailableBlocks_app. simpl. apply Forall_app. split.
        + apply Forall_forall. intros b Hb. apply list_elem_of_In in Hb.
          apply in_map_iff in Hb as (ub & <- & _). intros ? ? Hb. discriminate Hb.
        + eapply Forall_impl; [exact Hadded|].
          intros b (stored & sd & _ & _ & ->) ? ? Hb. discriminate Hb. }
    rewrite Forall_forall in Hok. apply list_elem_of_In in Hin.
    eapply Hok; eauto.
  - match type of Hin with
    | In _ (breaksLoop ?work ?blocks) =>
      pose proof (breaksLoop_id work blocks) as Hbreak
    end.
    rewrite Forall_forall in Hbreak.
    apply list_elem_of_In, Hbreak in Hin as (x & y & Hxy). congruence.
Qed.


(** ** More on the slot allocator and the stored tasks *)

Lemma addExistingScheduledTasks_kept this clock timetable date currentTime :
  addExistingScheduledTasks this clock timetable date currentTime
  = timetable ++ omap (keptScheduledBlock clock date currentTime) (tasks this).
Proof.
  unfold addExistingScheduledTasks. revert timetable.
  induction (tasks this) as [|task stored IH]; intros timetable; simpl.
  - symmetry. apply app_nil_r.
  - rewrite IH. unfold keptScheduledBlock.
    destruct (Task.scheduledTime task) as [scheduledDate|]; [|reflexivity].
    repeat match goal with
           | |- context [if ?c then _ else _] => destruct c
           end; simpl; rewrite <- ?app_assoc; reflexivity.
Qed.

Lemma placeTasksLoop_chosen clock date currentTime pending :
  forall timetable lastTaskEndTime continuousWorkTime stored,
  exists chosen,
    placeTasksLoop clock date currentTime pending timetable
                   lastTaskEndTime continuousWorkTime stored
    = (timetable ++ map (chosenBlock date) chosen, storeChosen stored chosen)
    /\ sublist (map fst chosen) pending
    /\ Forall (fun c => snd (snd c)
                        = fst (snd c) + Z.pos (Task.duration (fst c)) * 60000)
              chosen.
Proof.
  induction pending as [|task pending IH]; intros timetable last work stored.
  - exists []. simpl. rewrite app_nil_r. repeat split; constructor.
  - simpl.
    destruct (findAvailableSlot _ _ _ _ _ _ _) as [[start stop]|] eqn:Hslot.
    + destruct (IH (timetable ++ [placedTimeBlock task date start stop]) (Some stop)
                   (if work + Z.pos (Task.duration task) >? maxContinuousWork
                    then 0 else work + Z.pos (Task.duration task))
                   (updateScheduledTime stored (Task.id task) start))
        as (chosen & Heq & Hsub & Hall).
      exists ((task, (start, stop)) :: chosen). rewrite Heq. split; [|split].
      * simpl. rewrite <- app_assoc. reflexivity.
      * simpl. apply sublist_skip, Hsub.
      * constructor; auto. simpl.
        apply findAvailableSlot_Some in Hslot as [Hstop _]. exact Hstop.
    + destruct (IH timetable last work stored) as (chosen & Heq & Hsub & Hall).
      exists chosen. rewrite Heq. split; [reflexivity|]. split; auto.
      apply sublist_cons, Hsub.
Qed.

Lemma placeTasksLoop_turns clock date currentTime pending :
  forall timetable lastTaskEndTime continuousWorkTime stored,
  exists turns : list Turn,
    map fst turns = pending
    /\ fst (placeTasksLoop clock date currentTime pending timetable
                           lastTaskEndTime continuousWorkTime stored)
       = timetable ++ placedBlocks date turns
    /\ forall (i : nat) task slot,
         turns !! i = Some (task, slot) ->
         slot = findAvailableSlot clock (timetable ++ placedBlocks date (take i turns))
                                  (Task.duration task) date currentTime
                                  (lastTaskEndTimeAfter lastTaskEndTime (take i turns))
                                  (continuousWorkTimeAfter continuousWorkTime
                                                           (take i turns)).
Proof.
  induction pending as [|task pending IH]; intros timetable last work stored.
  - exists []. simpl. rewrite app_nil_r. split; [reflexivity|]. split; [reflexivity|].
    intros i t s Hi. destruct i; discriminate Hi.
  - cbn [placeTasksLoop].
    destruct (findAvailableSlot clock timetable (Task.duration task) date currentTime
                                last work) as [[start stop]|] eqn:Hslot.
    + destruct (IH (timetable ++ [placedTimeBlock task date start stop]) (Some stop)
                   (if work + Z.pos (Task.duration task) >? maxContinuousWork
                    then 0 else work + Z.pos (Task.duration task))
                   (updateScheduledTime stored (Task.id task) start))
        as (turns & Hmap & Heq & Hturn).
      exists ((task, Some (start, stop)) :: turns).
      split; [simpl; f_equal; exact Hmap|]. split.
      * rewrite Heq. unfold placedBlocks. cbn [flat_map snd fst].
        rewrite <- app_assoc. reflexivity.
      * intros [|i] t s Hi; cbn [lookup list_lookup] in Hi.
        -- inversion Hi; subst t s. cbn [take firstn]. unfold placedBlocks. cbn [flat_map].
           rewrite app_nil_r. symmetry. exact Hslot.
        -- specialize (Hturn i t s Hi). rewrite <- app_assoc in Hturn.
           exact Hturn.
    + destruct (IH timetable last work stored) as (turns & Hmap & Heq & Hturn).
      exists ((task, None) :: turns).
      split; [simpl; f_equal; exact Hmap|]. split.
      * rewrite Heq. reflexivity.
      * intros [|i] t s Hi; cbn [lookup list_lookup] in Hi.
        -- inversion Hi; subst t s. cbn [take firstn]. unfold placedBlocks. cbn [flat_map].
           rewrite app_nil_r. symmetry. exact Hslot.
        -- exact (Hturn i t s Hi).
Qed.

(** X1 (greedy placement): [placeTasks] takes the tasks of the sorted list
    in order, one turn each, and gives each task exactly what
    [findAvailableSlot] returns for it on the timetable as the earlier turns
    left it (the input timetable followed by the blocks placed so far), with
    [lastTaskEndTime] and [continuousWorkTime] as the earlier turns left them
    (the end of the last placed slot; the minutes placed, set back to 0 each
    time they exceed 90).  The result is the input timetable, every block at
    its position, followed by the block of each task that got a slot, in the
    order of the list; each such block is [duration] minutes long. *)
Theorem placeTasks_appends_in_priority_order
    (this : Scheduler) (clock : Z) (timetable : list TimeBlock.t)
    (sortedTasks : list Task.t) (date : Z) (currentTime : option Z) :
  exists turns : list Turn,
    map fst turns = sortedTasks
    /\ fst (placeTasks this clock timetable sortedTasks date currentTime)
       = timetable ++ placedBlocks date turns
    /\ (forall (i : nat) task slot,
          turns !! i = Some (task, slot) ->
          slot = findAvailableSlot clock (timetable ++ placedBlocks date (take i turns))
                                   (Task.duration task) date currentTime
                                   (lastTaskEndTimeAfter None (take i turns))
                                   (continuousWorkTimeAfter 0 (take i turns)))
    /\ (forall (i : nat) task start stop,
          turns !! i = Some (task, Some (start, stop)) ->
          stop = start + Z.pos (Task.duration task) * 60000).
Proof.
  unfold placeTasks.
  destruct (placeTasksLoop_turns clock date currentTime sortedTasks
              timetable None 0 (tasks this)) as (turns & Hmap & Heq & Hturn).
  destruct (placeTasksLoop _ _ _ _ _ _ _ _) as [placed stored]. cbn [fst] in *.
  exists turns. split; [exact Hmap|]. split; [exact Heq|]. split; [exact Hturn|].
  intros i task start stop Hi. specialize (Hturn i task _ Hi). symmetry in Hturn.
  apply findAvailableSlot_Some in Hturn as [Hstop _]. exact Hstop.
Qed.

Lemma sublist_map {A B : Type} (f : A -> B) (l1 l2 : list A) :
  sublist l1 l2 -> sublist (map f l1) (map f l2).
Proof. induction 1; simpl; constructor; auto. Qed.

Lemma sublist_List_filter {A : Type} (p : A -> bool) (l : list A) :
  sublist (List.filter p l) l.
Proof.
  induction l as [|x l IH]; simpl; [constructor|].
  destruct (p x); constructor; auto.
Qed.

Lemma sublist_In {A : Type} (l1 l2 : list A) (x : A) :
  sublist l1 l2 -> In x l1 -> In x l2.
Proof.
  induction 1 as [|y l1 l2 _ IH|y l1 l2 _ IH]; simpl; auto.
  intros [->|H]; auto.
Qed.

Lemma NoDup_map_In {A B : Type} (f : A -> B) (l : list A) (a b : A) :
  NoDup (map f l) -> In a l -> In b l -> f a = f b -> a = b.
Proof.
  intros Hnd Ha Hb Hf.
  apply list_elem_of_In, list_elem_of_lookup_1 in Ha as [i Hi].
  apply list_elem_of_In, list_elem_of_lookup_1 in Hb as [j Hj].
  assert (i = j) by (eapply NoDup_map_lookup; eauto). subst. congruence.
Qed.

(** *** The stored tasks *)

Lemma updateScheduledTime_unscheduled stored taskId time :
  map unscheduled (updateScheduledTime stored taskId time) = map unscheduled stored.
Proof.
  unfold updateScheduledTime. rewrite map_map. apply map_ext.
  intros t. destruct (String.eqb (Task.id t) taskId); reflexivity.
Qed.

Lemma storeChosen_unscheduled stored chosen :
  map unscheduled (storeChosen stored chosen) = map unscheduled stored.
Proof.
  unfold storeChosen. revert stored.
  induction chosen as [|c chosen IH]; intros stored; simpl; auto.
  rewrite IH. apply updateScheduledTime_unscheduled.
Qed.

(** The parts of a run of [generateTimetable] on a date that is not in the
    past: the tasks that found a slot, the blocks before the final
    selection and sort, and the state left. *)
Lemma generateTimetable_parts this clock date :
  localDay clock <= localDay date ->
  let targetDate := setHours date 0 0 in
  let currentTime := if localDay targetDate =? localDay clock then Some clock else None in
  exists chosen : list (Task.t * (Z * Z)),
    sublist (map fst chosen)
            (prioritizeTasks clock
               (getTasksForRescheduling this clock targetDate currentTime)
               targetDate currentTime)
    /\ Forall (fun c => snd (snd c)
                        = fst (snd c) + Z.pos (Task.duration (fst c)) * 60000)
              chosen
    /\ snd (generateTimetable this clock date)
       = mkScheduler (storeChosen (tasks this) chosen) (unavailableBlocks this)
    /\ fst (generateTimetable this clock date)
       = sortBy byStartTime
           (List.filter
              (fun block =>
                 match TimeBlock.task block with
                 | Some task =>
                   if isTaskBlock block then negb (Task.completed task) else true
                 | None => true
                 end)
              (insertIntelligentBreaks
                 (fixedBlocks this clock date ++ map (chosenBlock targetDate) chosen))).
Proof.
  intros Hday targetDate currentTime.
  unfold generateTimetable, fixedBlocks, placeTasks.
  rewrite startOfDay_ltb.
  destruct (Z.ltb_spec (localDay date) (localDay clock)); [lia|].
  fold targetDate. fold currentTime.
  destruct (placeTasksLoop_chosen clock targetDate currentTime
              (prioritizeTasks clock
                 (getTasksForRescheduling this clock targetDate currentTime)
                 targetDate currentTime)
              (addExistingScheduledTasks this clock
                 (addUnavailableBlocks this [] targetDate) targetDate currentTime)
              None 0 (tasks this)) as (chosen & -> & Hsub & Hall).
  exists chosen. simpl. auto.
Qed.

Lemma generateTimetable_state this clock date :
  let this' := snd (generateTimetable this clock date) in
  unavailableBlocks this' = unavailableBlocks this
  /\ map unscheduled (tasks this') = map unscheduled (tasks this).
Proof.
  intros this'. subst this'.
  destruct (Z.lt_ge_cases (localDay date) (localDay clock)) as [Hpast|Hday].
  - unfold generateTimetable. rewrite startOfDay_ltb.
    apply Z.ltb_lt in Hpast. rewrite Hpast. auto.
  - destruct (generateTimetable_parts this clock date Hday)
      as (chosen & _ & _ & -> & _).
    simpl. split; [reflexivity | apply storeChosen_unscheduled].
Qed.

(** X2: [generateTimetable] leaves the list of unavailable blocks as it
    is and changes nothing in the stored tasks but their [scheduledTime]:
    the same tasks, in the same order, with the same ids, durations and
    completion flags. *)
Theorem generateTimetable_keeps_stored_tasks (this : Scheduler) (clock date : Z) :
  let this' := snd (generateTimetable this clock date) in
  unavailableBlocks this' = unavailableBlocks this
  /\ map unscheduled (tasks this') = map unscheduled (tasks this).
Proof. apply generateTimetable_state. Qed.

Lemma generateTimetable_past_date_nil this clock date :
  localDay date < localDay clock -> fst (generateTimetable this clock date) = [].
Proof.
  intros Hpast. unfold generateTimetable. rewrite startOfDay_ltb.
  apply Z.ltb_lt in Hpast. rewrite Hpast. reflexivity.
Qed.

(** *** Which tasks the output shows *)

Lemma In_getTasksForRescheduling this clock targetDate currentTime task :
  In task (getTasksForRescheduling this clock targetDate currentTime) ->
  In task (tasks this) /\ Task.completed task = false.
Proof.
  unfold getTasksForRescheduling. intros H. apply filter_In in H as [Hin Hp].
  split; auto. destruct (Task.completed task); [discriminate | reflexivity].
Qed.

(** A task selected for (re)placement is not kept as a fixed block. *)
Lemma eligible_not_kept this clock targetDate currentTime task :
  In task (getTasksForRescheduling this clock targetDate currentTime) ->
  keptScheduledBlock clock targetDate currentTime task = None.
Proof.
  unfold getTasksForRescheduling, keptScheduledBlock.
  intros H. apply filter_In in H as [_ Hp]. revert Hp.
  destruct (Task.scheduledTime task) as [scheduledDate|]; [|reflexivity].
  destruct (Task.completed task); [reflexivity|].
  destruct (setHours targetDate 0 0 <? setHours (default clock currentTime) 0 0);
    [discriminate|].
  destruct (setHours scheduledDate 0 0 =? setHours targetDate 0 0); [|reflexivity].
  destruct (_ && negb false); [reflexivity|].
  destruct (_ && _); discriminate.
Qed.

Lemma keptScheduledBlock_Some clock date currentTime task block :
  keptScheduledBlock clock date currentTime task = Some block ->
  exists scheduledDate,
    Task.scheduledTime task = Some scheduledDate
    /\ Task.completed task = false
    /\ block = scheduledTimeBlock task scheduledDate date.
Proof.
  unfold keptScheduledBlock.
  destruct (Task.scheduledTime task) as [scheduledDate|]; [|discriminate].
  destruct (Task.completed task); [discriminate|].
  destruct (_ =? _); [|discriminate]. destruct (_ && _); [discriminate|].
  intros H. inversion H. eauto.
Qed.

Lemma fixedBlocks_eq this clock date :
  let targetDate := setHours date 0 0 in
  let currentTime := if localDay targetDate =? localDay clock then Some clock else None in
  fixedBlocks this clock date
  = map (fun block => unavailableTimeBlock block targetDate)
        (List.filter (fun block => shouldIncludeBlock block targetDate)
                     (unavailableBlocks this))
    ++ omap (keptScheduledBlock clock targetDate currentTime) (tasks this).
Proof.
  intros targetDate currentTime. unfold fixedBlocks.
  rewrite addExistingScheduledTasks_kept, addUnavailableBlocks_app. reflexivity.
Qed.

Lemma taskIdsOf_app l1 l2 : taskIdsOf (l1 ++ l2) = taskIdsOf l1 ++ taskIdsOf l2.
Proof. apply omap_app. Qed.

Lemma taskIdsOf_unavailable date blocks :
  taskIdsOf (map (fun block => unavailableTimeBlock block date) blocks) = [].
Proof. induction blocks as [|b blocks IH]; simpl; auto. Qed.

Lemma breaksLoop_taskId work taskBlocks :
  Forall (fun block => TimeBlock.taskId block = None) (breaksLoop work taskBlocks).
Proof.
  revert work. induction taskBlocks as [|current rest IH]; intros; [constructor|].
  destruct rest as [|next rest]; [constructor|].
  cbn [breaksLoop]. apply Forall_app. split; [|apply IH].
  match goal with |- context [if ?c then _ else _] => destruct c end;
    repeat constructor.
Qed.

Lemma taskIdsOf_breaks work taskBlocks : taskIdsOf (breaksLoop work taskBlocks) = [].
Proof.
  pose proof (breaksLoop_taskId work taskBlocks) as H.
  induction H as [|b l Hb _ IH]; [reflexivity|].
  unfold taskIdsOf in *. simpl. rewrite Hb. exact IH.
Qed.

Lemma taskIdsOf_chosen date chosen :
  taskIdsOf (map (chosenBlock date) chosen) = map Task.id (map fst chosen).
Proof.
  induction chosen as [|c chosen IH]; [reflexivity|].
  simpl. unfold taskIdsOf in *. simpl. rewrite IH. reflexivity.
Qed.

Lemma taskIdsOf_kept clock date currentTime stored :
  exists kept,
    sublist kept stored
    /\ Forall (fun t => keptScheduledBlock clock date currentTime t <> None) kept
    /\ taskIdsOf (omap (keptScheduledBlock clock date currentTime) stored)
       = map Task.id kept.
Proof.
  induction stored as [|t stored (kept & Hsub & Hall & Heq)].
  - exists []. repeat split; constructor.
  - unfold taskIdsOf in *. simpl omap.
    destruct (keptScheduledBlock clock date currentTime t) as [block|] eqn:Hkept.
    + exists (t :: kept). split; [constructor; auto|]. split.
      * constructor; auto. congruence.
      * apply keptScheduledBlock_Some in Hkept as (sd & _ & _ & ->).
        simpl. f_equal. exact Heq.
    + exists kept. split; [constructor; auto|]. auto.
Qed.

Lemma taskIdsOf_filter (keep : TimeBlock.t -> bool) timetable :
  sublist (taskIdsOf (List.filter keep timetable)) (taskIdsOf timetable).
Proof.
  unfold taskIdsOf. induction timetable as [|b timetable IH]; simpl; [constructor|].
  destruct (keep b); simpl; destruct (TimeBlock.taskId b); try constructor; auto.
Qed.

(** The task ids on the blocks gathered by a run of [generateTimetable]
    are distinct when the stored tasks have distinct ids. *)
Lemma taskIds_gathered_NoDup this clock date chosen :
  let targetDate := setHours date 0 0 in
  let currentTime := if localDay targetDate =? localDay clock then Some clock else None in
  NoDup (map Task.id (tasks this)) ->
  sublist (map fst chosen)
          (prioritizeTasks clock
             (getTasksForRescheduling this clock targetDate currentTime)
             targetDate currentTime) ->
  NoDup (taskIdsOf (fixedBlocks this clock date ++ map (chosenBlock targetDate) chosen)).
Proof.
  intros targetDate currentTime Hnd Hsub.
  assert (Hperm : Permutation
            (prioritizeTasks clock
               (getTasksForRescheduling this clock targetDate currentTime)
               targetDate currentTime)
            (getTasksForRescheduling this clock targetDate currentTime))
    by (eapply sortBy_Permutation; reflexivity).
  assert (Heligible : forall t, In t (map fst chosen) ->
            In t (getTasksForRescheduling this clock targetDate currentTime)).
  { intros t Ht. eapply Permutation_in; [exact Hperm|]. eapply sublist_In; eauto. }
  rewrite fixedBlocks_eq. fold targetDate. fold currentTime.
  rewrite !taskIdsOf_app, taskIdsOf_unavailable, taskIdsOf_chosen. simpl.
  destruct (taskIdsOf_kept clock targetDate currentTime (tasks this))
    as (kept & Hkept & Hall & ->).
  apply NoDup_app. split; [|split].
  - eapply sublist_NoDup; [exact Hnd | apply sublist_map, Hkept].
  - intros tid H1 H2. apply list_elem_of_In in H1, H2.
    apply in_map_iff in H1 as (t1 & <- & Ht1).
    apply in_map_iff in H2 as (t2 & Hid & Ht2).
    assert (t2 = t1).
    { apply (NoDup_map_In Task.id (tasks this)); auto.
      - eapply In_getTasksForRescheduling, Heligible, Ht2.
      - eapply sublist_In; eauto. }
    subst t2. rewrite Forall_forall in Hall.
    apply (Hall t1); [apply list_elem_of_In, Ht1|].
    eapply eligible_not_kept, Heligible, Ht2.
  - eapply sublist_NoDup; [|apply sublist_map, Hsub].
    eapply NoDup_Permutation_proper; [apply Permutation_map; exact Hperm|].
    eapply sublist_NoDup; [exact Hnd|].
    apply sublist_map. unfold getTasksForRescheduling. apply sublist_List_filter.
Qed.

Lemma generateTimetable_taskIds_NoDup (this : Scheduler) (clock date : Z) :
  NoDup (map Task.id (tasks this)) ->
  NoDup (taskIdsOf (fst (generateTimetable this clock date))).
Proof.
  intros Hnd.
  destruct (Z.lt_ge_cases (localDay date) (localDay clock)) as [Hpast|Hday].
  - rewrite generateTimetable_past_date_nil by exact Hpast. constructor.
  - destruct (generateTimetable_parts this clock date Hday)
      as (chosen & Hsub & _ & _ & ->).
    eapply NoDup_Permutation_proper.
    { unfold taskIdsOf. apply omap_Permutation, sortBy_Permutation. }
    eapply sublist_NoDup; [|apply taskIdsOf_filter].
    unfold insertIntelligentBreaks. rewrite taskIdsOf_app, taskIdsOf_breaks, app_nil_r.
    apply taskIds_gathered_NoDup; auto.
Qed.

(** X3: when the stored tasks have distinct ids, no task is shown twice:
    the task ids named by the blocks of the output of [generateTimetable] are
    distinct (a task is either kept at its scheduled time or placed anew,
    and placed at most once). *)
Theorem generateTimetable_no_task_twice (this : Scheduler) (clock date : Z) :
  NoDup (map Task.id (tasks this)) ->
  NoDup (taskIdsOf (fst (generateTimetable this clock date))).
Proof. apply generateTimetable_taskIds_NoDup. Qed.

Lemma withScheduledTime_same task scheduledDate :
  Task.scheduledTime task = Some scheduledDate ->
  Task.withScheduledTime task (Some scheduledDate) = task.
Proof. destruct task. simpl. intros ->. reflexivity. Qed.

Lemma generateTimetable_task_block_stored
    (this : Scheduler) (clock date : Z) (block : TimeBlock.t) :
  In block (fst (generateTimetable this clock date)) ->
  TimeBlock.type block = BlockType.task ->
  exists stored,
    In stored (tasks this)
    /\ Task.completed stored = false
    /\ TimeBlock.taskId block = Some (Task.id stored)
    /\ TimeBlock.title block = Task.name stored
    /\ TimeBlock.task block
       = Some (Task.withScheduledTime stored (Some (TimeBlock.startTime block)))
    /\ TimeBlock.endTime block
       = TimeBlock.startTime block + Z.pos (Task.duration stored) * 60000.
Proof.
  intros Hin Htype.
  destruct (Z.lt_ge_cases (localDay date) (localDay clock)) as [Hpast|Hday].
  { rewrite generateTimetable_past_date_nil in Hin by exact Hpast. contradiction. }
  destruct (generateTimetable_parts this clock date Hday)
    as (chosen & Hsub & Hends & _ & Hout).
  rewrite Hout in Hin. clear Hout.
  eapply Permutation_in in Hin; [|apply sortBy_Permutation].
  apply filter_In in Hin as [Hin _].
  unfold insertIntelligentBreaks in Hin. rewrite fixedBlocks_eq in Hin.
  rewrite !in_app_iff in Hin. destruct Hin as [[[Hin|Hin]|Hin]|Hin].
  - apply in_map_iff in Hin as (ub & <- & _). discriminate Htype.
  - apply list_elem_of_In, list_elem_of_omap in Hin as (stored & Hstored & Hkept).
    apply keptScheduledBlock_Some in Hkept as (sd & Hsd & Hcompleted & ->).
    exists stored. simpl. rewrite withScheduledTime_same by exact Hsd.
    repeat split; auto. apply list_elem_of_In, Hstored.
  - apply in_map_iff in Hin as (c & <- & Hc).
    assert (Heligible : In (fst c)
              (getTasksForRescheduling this clock (setHours date 0 0)
                 (if localDay (setHours date 0 0) =? localDay clock
                  then Some clock else None))).
    { eapply Permutation_in; [apply sortBy_Permutation|].
      eapply sublist_In; [exact Hsub|]. apply in_map, Hc. }
    apply In_getTasksForRescheduling in Heligible as [Hstored Hcompleted].
    rewrite Forall_forall in Hends. apply list_elem_of_In, Hends in Hc.
    exists (fst c). simpl. auto 10.
  - match type of Hin with
    | In _ (breaksLoop ?work ?blocks) =>
      pose proof (breaksLoop_type work blocks) as Hbreaks
    end.
    rewrite Forall_forall in Hbreaks. apply list_elem_of_In, Hbreaks in Hin.
    congruence.
Qed.

(** X4: every block of type task in the output of [generateTimetable]
    stands for a task held by the scheduler that is not completed: it names
    the task's id, is titled with its name, and carries the task itself with
    [scheduledTime] set to the block's start. *)
Theorem generateTimetable_shows_stored_tasks
    (this : Scheduler) (clock date : Z) (block : TimeBlock.t) :
  In block (fst (generateTimetable this clock date)) ->
  TimeBlock.type block = BlockType.task ->
  exists stored,
    In stored (tasks this)
    /\ Task.completed stored = false
    /\ TimeBlock.taskId block = Some (Task.id stored)
    /\ TimeBlock.title block = Task.name stored
    /\ TimeBlock.task block
       = Some (Task.withScheduledTime stored (Some (TimeBlock.startTime block))).
Proof.
  intros Hin Htype.
  destruct (generateTimetable_task_block_stored this clock date block Hin Htype)
    as (stored & H1 & H2 & H3 & H4 & H5 & _).
  exists stored. auto.
Qed.

Lemma updateScheduledTime_In stored taskId time t :
  In t (updateScheduledTime stored taskId time) ->
  exists t0, In t0 stored
    /\ ((Task.id t0 = taskId /\ t = Task.withScheduledTime t0 (Some time))
        \/ (Task.id t0 <> taskId /\ t = t0)).
Proof.
  unfold updateScheduledTime. intros H. apply in_map_iff in H as (t0 & <- & Hin).
  exists t0. split; auto.
  destruct (String.eqb_spec (Task.id t0) taskId); auto.
Qed.

Lemma storeChosen_other stored chosen (taskId : string) (time : option Z) :
  (forall c, In c chosen -> Task.id (fst c) <> taskId) ->
  (forall t, In t stored -> Task.id t = taskId -> Task.scheduledTime t = time) ->
  forall t, In t (storeChosen stored chosen) -> Task.id t = taskId ->
    Task.scheduledTime t = time.
Proof.
  unfold storeChosen. revert stored.
  induction chosen as [|c chosen IH]; intros stored Hother Hstored; simpl; auto.
  apply IH; [intros; apply Hother; right; auto|].
  intros t Ht Hid.
  apply updateScheduledTime_In in Ht as (t0 & Ht0 & [[Hid0 ->]|[Hid0 ->]]).
  - destruct (Hother c (or_introl eq_refl)). simpl in Hid. congruence.
  - auto.
Qed.

Lemma storeChosen_agrees stored chosen c :
  NoDup (map Task.id (map fst chosen)) ->
  In c chosen ->
  forall t, In t (storeChosen stored chosen) -> Task.id t = Task.id (fst c) ->
    Task.scheduledTime t = Some (fst (snd c)).
Proof.
  revert stored. induction chosen as [|c0 chosen IH]; intros stored Hnd Hc;
    [contradiction|].
  simpl in Hnd. apply NoDup_cons in Hnd as [Hfresh Hnd].
  destruct Hc as [->|Hc].
  - simpl. apply storeChosen_other.
    + intros c' Hc' Heq. apply Hfresh, list_elem_of_In.
      rewrite <- Heq. apply in_map, in_map, Hc'.
    + intros t Ht Hid.
      apply updateScheduledTime_In in Ht as (t0 & _ & [[_ ->]|[Hne ->]]);
        [reflexivity | contradiction].
  - simpl. apply IH; auto.
Qed.

Lemma storeChosen_ids stored chosen :
  map Task.id (storeChosen stored chosen) = map Task.id stored.
Proof.
  pose proof (storeChosen_unscheduled stored chosen) as H.
  apply (f_equal (map Task.id)) in H. rewrite !map_map in H.
  exact H.
Qed.

(** X5: when the stored tasks have distinct ids, the state left by
    [generateTimetable] agrees with its output: for every block placed by the
    slot allocator, the scheduler holds a task with the block's task id, and
    every stored task with that id has the block's start as its
    [scheduledTime]. *)
Theorem generateTimetable_stores_placements
    (this : Scheduler) (clock date : Z) (block : TimeBlock.t)
    (taskId : string) (day : Z) :
  NoDup (map Task.id (tasks this)) ->
  In block (fst (generateTimetable this clock date)) ->
  TimeBlock.id block = PlacedId taskId day ->
  let this' := snd (generateTimetable this clock date) in
  (exists stored, In stored (tasks this') /\ Task.id stored = taskId)
  /\ (forall stored, In stored (tasks this') -> Task.id stored = taskId ->
        Task.scheduledTime stored = Some (TimeBlock.startTime block)).
Proof.
  intros Hnd Hin Hid this'. subst this'.
  destruct (Z.lt_ge_cases (localDay date) (localDay clock)) as [Hpast|Hday].
  { rewrite generateTimetable_past_date_nil in Hin by exact Hpast. contradiction. }
  destruct (generateTimetable_parts this clock date Hday)
    as (chosen & Hsub & _ & -> & Hout).
  rewrite Hout in Hin. clear Hout. simpl tasks.
  eapply Permutation_in in Hin; [|apply sortBy_Permutation].
  apply filter_In in Hin as [Hin _].
  unfold insertIntelligentBreaks in Hin. rewrite fixedBlocks_eq in Hin.
  rewrite !in_app_iff in Hin. destruct Hin as [[[Hin|Hin]|Hin]|Hin].
  - apply in_map_iff in Hin as (ub & <- & _). discriminate Hid.
  - apply list_elem_of_In, list_elem_of_omap in Hin as (stored & _ & Hkept).
    apply keptScheduledBlock_Some in Hkept as (sd & _ & _ & ->). discriminate Hid.
  - apply in_map_iff in Hin as (c & <- & Hc). simpl in Hid. inversion Hid; subst.
      assert (Hperm : Permutation
                (prioritizeTasks clock
                   (getTasksForRescheduling this clock (setHours date 0 0)
                      (if localDay (setHours date 0 0) =? localDay clock
                       then Some clock else None))
                   (setHours date 0 0)
                   (if localDay (setHours date 0 0) =? localDay clock
                    then Some clock else None))
                (getTasksForRescheduling this clock (setHours date 0 0)
                   (if localDay (setHours date 0 0) =? localDay clock
                    then Some clock else None)))
      by apply sortBy_Permutation.
    split.
    + assert (Hstored : In (Task.id (fst c)) (map Task.id (tasks this))).
      { apply in_map. eapply In_getTasksForRescheduling.
        eapply Permutation_in; [exact Hperm|].
        eapply sublist_In; [exact Hsub|]. apply in_map, Hc. }
      rewrite <- (storeChosen_ids (tasks this) chosen) in Hstored.
      apply in_map_iff in Hstored as (stored & Hsid & Hs). eauto.
    + apply storeChosen_agrees; auto.
      eapply sublist_NoDup; [|apply sublist_map, Hsub].
      eapply NoDup_Permutation_proper; [apply Permutation_map; exact Hperm|].
      eapply sublist_NoDup; [exact Hnd|].
      apply sublist_map. unfold getTasksForRescheduling. apply sublist_List_filter.
  - match type of Hin with
    | In _ (breaksLoop ?work ?blocks) =>
      pose proof (breaksLoop_id work blocks) as Hbreaks
    end.
    rewrite Forall_forall in Hbreaks.
    apply list_elem_of_In, Hbreaks in Hin as (x & y & Hxy). congruence.
Qed.

Lemma default_currentTime (clock : Z) (isToday : bool) :
  default clock (if isToday then Some clock else None) = clock.
Proof. destruct isToday; reflexivity. Qed.

(** A fixed block is in the output when the date is not in the past and
    the block does not carry a completed task. *)
Lemma generateTimetable_fixed_incomplete this clock date timeBlock :
  localDay clock <= localDay date ->
  In timeBlock (fixedBlocks this clock date) ->
  (forall t, TimeBlock.task timeBlock = Some t -> Task.completed t = false) ->
  In timeBlock (fst (generateTimetable this clock date)).
Proof.
  intros Hday Hin Htask.
  destruct (generateTimetable_parts this clock date Hday) as (chosen & _ & _ & _ & ->).
  eapply Permutation_in; [symmetry; apply sortBy_Permutation|].
  apply filter_In. split.
  - unfold insertIntelligentBreaks. rewrite !in_app_iff. auto.
  - destruct (TimeBlock.task timeBlock) as [t|]; [|reflexivity].
    rewrite (Htask t eq_refl). destruct (isTaskBlock timeBlock); reflexivity.
Qed.

(** X6: an incomplete task already scheduled on the target date (not a
    past date) is treated in exactly one of two ways.  If the date is today
    and the scheduled time is at or before now, the placement is stale: the
    task is selected for a new slot and its old block is not in the output.
    Otherwise the task is not selected and the output holds its block at the
    scheduled time. *)
Theorem scheduled_task_kept_or_replaced
    (this : Scheduler) (clock date : Z) (task : Task.t) (scheduledDate : Z) :
  In task (tasks this) ->
  Task.completed task = false ->
  Task.scheduledTime task = Some scheduledDate ->
  localDay scheduledDate = localDay date ->
  localDay clock <= localDay date ->
  let targetDate := setHours date 0 0 in
  let currentTime := if localDay targetDate =? localDay clock then Some clock else None in
  let stale := localDay date = localDay clock /\ scheduledDate <= clock in
  (stale ->
     In task (getTasksForRescheduling this clock targetDate currentTime)
     /\ ~ In (scheduledTimeBlock task scheduledDate targetDate)
             (fst (generateTimetable this clock date)))
  /\ (~ stale ->
        ~ In task (getTasksForRescheduling this clock targetDate currentTime)
        /\ In (scheduledTimeBlock task scheduledDate targetDate)
              (fst (generateTimetable this clock date))).
Proof.
  intros Hstored Hcompleted Hscheduled Hsame Hday targetDate currentTime stale.
  assert (Hday0 : forall d, localDay (setHours d 0 0) = localDay d)
    by (intros; apply localDay_setHours; unfold DAY, HOUR, MINUTE; lia).
  assert (Hnow : default clock currentTime = clock) by apply default_currentTime.
  assert (Hkept : keptScheduledBlock clock targetDate currentTime task
                  = if (localDay date =? localDay clock) && (scheduledDate <=? clock)
                    then None
                    else Some (scheduledTimeBlock task scheduledDate targetDate)).
  { unfold keptScheduledBlock. rewrite Hscheduled, Hcompleted, Hnow.
    rewrite startOfDay_eqb. unfold targetDate at 1 2. rewrite !Hday0, Hsame, Z.eqb_refl.
    rewrite andb_true_r. reflexivity. }
  assert (Heligible :
            In task (getTasksForRescheduling this clock targetDate currentTime)
            <-> (localDay date =? localDay clock) && (scheduledDate <=? clock) = true).
  { unfold getTasksForRescheduling. rewrite filter_In, Hscheduled, Hcompleted, Hnow.
    rewrite startOfDay_ltb, startOfDay_eqb. unfold targetDate. rewrite !Hday0, Hsame.
    destruct (Z.ltb_spec (localDay date) (localDay clock)); [lia|].
    rewrite Z.eqb_refl, andb_true_r.
    destruct ((localDay date =? localDay clock) && (scheduledDate <=? clock)).
    - tauto.
    - destruct (_ && _); split; intros; intuition discriminate. }
  assert (Hstale : stale <-> (localDay date =? localDay clock) && (scheduledDate <=? clock) = true).
  { unfold stale. rewrite andb_true_iff, Z.eqb_eq, Z.leb_le. tauto. }
  split.
  - intros Hs. apply Hstale in Hs. split; [apply Heligible, Hs|].
    intros Hin. rewrite Hs in Hkept.
    destruct (generateTimetable_parts this clock date Hday)
      as (chosen & _ & _ & _ & Hout).
    rewrite Hout in Hin. clear Hout.
    eapply Permutation_in in Hin; [|apply sortBy_Permutation].
    apply filter_In in Hin as [Hin _].
    unfold insertIntelligentBreaks in Hin. rewrite fixedBlocks_eq in Hin.
    rewrite !in_app_iff in Hin. destruct Hin as [[[Hin|Hin]|Hin]|Hin].
    + apply in_map_iff in Hin as (ub & Heq & _). discriminate Heq.
    + apply list_elem_of_In, list_elem_of_omap in Hin as (stored & _ & Hk).
      apply keptScheduledBlock_Some in Hk as Hk'. destruct Hk' as (sd & _ & _ & Heq).
      assert (stored = task) by (inversion Heq; auto). subst stored.
      fold targetDate currentTime in Hk. congruence.
    + apply in_map_iff in Hin as (c & Heq & _). discriminate Heq.
    + match type of Hin with
      | In _ (breaksLoop ?work ?blocks) =>
        pose proof (breaksLoop_type work blocks) as Hbreaks
      end.
      rewrite Forall_forall in Hbreaks. apply list_elem_of_In, Hbreaks in Hin.
      discriminate Hin.
  - intros Hs. rewrite Hstale in Hs. apply not_true_is_false in Hs.
    split; [rewrite Heligible, Hs; discriminate|].
    rewrite Hs in Hkept.
    apply generateTimetable_fixed_incomplete; auto.
    + rewrite fixedBlocks_eq. apply in_or_app. right.
      apply list_elem_of_In, list_elem_of_omap. exists task.
      split; [apply list_elem_of_In, Hstored | exact Hkept].
    + simpl. intros t Ht. inversion Ht; subst. exact Hcompleted.
Qed.

(** *** More on the slots *)

(** Every placed block of the output is the block of a slot returned by
    [findAvailableSlot] on the target date. *)
Lemma generateTimetable_placed_slot this clock date block taskId day :
  In block (fst (generateTimetable this clock date)) ->
  TimeBlock.id block = PlacedId taskId day ->
  exists task timetable lastTaskEndTime continuousWorkTime,
    findAvailableSlot clock timetable (Task.duration task) (setHours date 0 0)
      (if localDay (setHours date 0 0) =? localDay clock then Some clock else None)
      lastTaskEndTime continuousWorkTime
    = Some (TimeBlock.startTime block, TimeBlock.endTime block)
    /\ TimeBlock.task block
       = Some (Task.withScheduledTime task (Some (TimeBlock.startTime block))).
Proof.
  intros Hin Hid. apply generateTimetable_blocks in Hin.
  unfold insertIntelligentBreaks in Hin. apply in_app_or in Hin as [Hin|Hin].
  - set (currentTime :=
           if localDay (setHours date 0 0) =? localDay clock then Some clock else None)
      in *.
    set (FromSlot := fun b : TimeBlock.t =>
           forall taskId day, TimeBlock.id b = PlacedId taskId day ->
             exists task timetable lastTaskEndTime continuousWorkTime,
               findAvailableSlot clock timetable (Task.duration task)
                                 (setHours date 0 0) currentTime
                                 lastTaskEndTime continuousWorkTime
               = Some (TimeBlock.startTime b, TimeBlock.endTime b)
               /\ TimeBlock.task b
                  = Some (Task.withScheduledTime task (Some (TimeBlock.startTime b)))).
    match type of Hin with
    | In _ ?placed => assert (Hok : Forall FromSlot placed)
    end.
    { apply placeTasks_invariant with (Inv := Forall FromSlot).
      - intros timetable task last work start stop Hinv Hslot.
        apply Forall_app. split; auto. constructor; auto.
        intros _ _ _. exists task, timetable, last, work. simpl. auto.
      - rewrite fixedBlocks_eq. apply Forall_app. split.
        + apply Forall_forall. intros b Hb. apply list_elem_of_In in Hb.
          apply in_map_iff in Hb as (ub & <- & _). intros ? ? Hb. discriminate Hb.
        + apply Forall_forall. intros b Hb.
          apply list_elem_of_omap in Hb as (stored & _ & Hkept).
          apply keptScheduledBlock_Some in Hkept as (sd & _ & _ & ->).
          intros ? ? Hb. discriminate Hb. }
    rewrite Forall_forall in Hok. apply list_elem_of_In in Hin.
    eapply Hok; eauto.
  - match type of Hin with
    | In _ (breaksLoop ?work ?blocks) =>
      pose proof (breaksLoop_id work blocks) as Hbreak
    end.
    rewrite Forall_forall in Hbreak.
    apply list_elem_of_In, Hbreak in Hin as (x & y & Hxy). congruence.
Qed.

Lemma scanSlots_break_rule timetable duration dayEndTime lastEnd continuousWorkTime
    slots requiredSlots indices start stop :
  scanSlots timetable duration dayEndTime (Some lastEnd) continuousWorkTime
            slots requiredSlots indices = Some (start, stop) ->
  maxContinuousWork <= continuousWorkTime ->
  lastEnd + (if continuousWorkTime >=? 120 then longBreakDuration
             else shortBreakDuration) * 60000 <= start.
Proof.
  intros Hscan Hwork. revert Hscan.
  induction indices as [|i indices IH]; simpl; [discriminate|].
  destruct (forallb available _); auto.
  destruct (slice i (i + requiredSlots) slots) as [|first rest]; [discriminate|].
  destruct (_ >? dayEndTime); auto.
  destruct (existsb _ timetable); auto.
  assert (Hcond : negb (continuousWorkTime =? 0)
                  && (continuousWorkTime >=? maxContinuousWork) = true).
  { apply andb_true_iff. split.
    - apply negb_true_iff, Z.eqb_neq. unfold maxContinuousWork in *. lia.
    - rewrite Z.geb_leb. apply Z.leb_le. exact Hwork. }
  rewrite Hcond.
  destruct (Z.ltb_spec (slotStart first - lastEnd)
              ((if continuousWorkTime >=? 120 then longBreakDuration
                else shortBreakDuration) * 60000)); auto.
  intros Heq. inversion Heq; subst. lia.
Qed.

(** X7: the minimum-break rule of the slot allocator.  When the work
    accumulated since the last break is 90 minutes or more, a slot returned
    after a task that ended at [lastEnd] starts at least 15 minutes after
    [lastEnd], and at least 30 minutes after it when the accumulated work is
    120 minutes or more. *)
Theorem findAvailableSlot_break_rule
    (clock : Z) (timetable : list TimeBlock.t) (duration : positive) (date : Z)
    (currentTime : option Z) (lastEnd continuousWorkTime start stop : Z) :
  findAvailableSlot clock timetable duration date currentTime
                    (Some lastEnd) continuousWorkTime = Some (start, stop) ->
  90 <= continuousWorkTime ->
  lastEnd + 15 * 60000 <= start
  /\ (120 <= continuousWorkTime -> lastEnd + 30 * 60000 <= start).
Proof.
  unfold findAvailableSlot.
  destruct (setHours date 0 0 <? setHours clock 0 0); [discriminate|].
  intros Hscan Hwork.
  apply scanSlots_break_rule in Hscan; [|exact Hwork].
  unfold longBreakDuration, shortBreakDuration in Hscan.
  destruct (Z.geb_spec continuousWorkTime 120); split; intros; lia.
Qed.

(** The slots built are consecutive quarter hours from the first, all
    starting before the latest start. *)
Lemma buildSlots_none fuel current latestTaskStart dayEndTime :
  dayEndTime < current + 15 * 60000 ->
  buildSlots fuel current latestTaskStart dayEndTime = [].
Proof.
  revert current. induction fuel as [|fuel IH]; intros current Hend; simpl; auto.
  destruct (current <? latestTaskStart); auto.
  destruct (Z.leb_spec (current + 15 * 60000) dayEndTime); [lia|].
  simpl. apply IH. lia.
Qed.

Lemma buildSlots_shape fuel current latestTaskStart dayEndTime :
  exists n : nat,
    map slotStart (buildSlots fuel current latestTaskStart dayEndTime)
    = map (fun j => current + 15 * 60000 * Z.of_nat j) (seq 0 n)
    /\ (forall j, (j < n)%nat -> current + 15 * 60000 * Z.of_nat j < latestTaskStart).
Proof.
  revert current. induction fuel as [|fuel IH]; intros current.
  - exists 0%nat. split; [reflexivity | intros; lia].
  - simpl. destruct (Z.ltb_spec current latestTaskStart) as [Hlt|Hge].
    + destruct (Z.leb_spec (current + 15 * 60000) dayEndTime) as [Hend|Hend].
      * destruct (IH (current + 15 * 60000)) as (n & Hmap & Hbound).
        exists (S n). split.
        -- simpl. rewrite Hmap, <- seq_shift, map_map. f_equal; [lia|].
           apply map_ext. intros j. lia.
        -- intros [|j] Hj; [lia|]. specialize (Hbound j ltac:(lia)). lia.
      * rewrite buildSlots_none by lia. exists 0%nat.
        split; [reflexivity | intros; lia].
    + exists 0%nat. split; [reflexivity | intros; lia].
Qed.

Lemma slice_head {A : Type} (i j : nat) (l : list A) (first : A) (rest : list A) :
  slice i j l = first :: rest -> l !! i = Some first.
Proof.
  unfold slice. intros H.
  assert (Hdrop : skipn i l !! 0%nat = Some first).
  { destruct (j - i)%nat; [discriminate|].
    destruct (skipn i l); [discriminate|]. simpl in H. inversion H. reflexivity. }
  rewrite lookup_drop in Hdrop. rewrite Nat.add_0_r in Hdrop. exact Hdrop.
Qed.

Lemma scanSlots_Some_index timetable duration dayEndTime lastTaskEndTime
    continuousWorkTime slots requiredSlots indices start stop :
  scanSlots timetable duration dayEndTime lastTaskEndTime continuousWorkTime
            slots requiredSlots indices = Some (start, stop) ->
  exists i first,
    In i indices /\ slots !! i = Some first /\ slotStart first = start.
Proof.
  induction indices as [|i indices IH]; simpl; [discriminate|].
  assert (Hrest : scanSlots timetable duration dayEndTime lastTaskEndTime
                    continuousWorkTime slots requiredSlots indices = Some (start, stop) ->
                  exists i0 first,
                    (i = i0 \/ In i0 indices) /\ slots !! i0 = Some first
                    /\ slotStart first = start).
  { intros H. destruct (IH H) as (i0 & first & ? & ? & ?). eauto 6. }
  destruct (forallb available _); auto.
  destruct (slice i (i + requiredSlots) slots) as [|first rest] eqn:Hslice;
    [discriminate|].
  destruct (_ >? dayEndTime); auto.
  destruct (existsb _ timetable); auto.
  match goal with |- context [if ?c then _ else _] => destruct c end; auto.
  intros Heq. inversion Heq; subst.
  exists i, first. split; auto. split; auto. eapply slice_head, Hslice.
Qed.

(** X8: where the slot allocator can put a task.  A slot returned by
    [findAvailableSlot] starts a whole number of quarter hours after the
    window start, and the last of the [ceil(duration / 15)] quarter hours it
    covers starts strictly before 23:00 minus the duration; so the task ends
    strictly before 23:00. *)
Theorem findAvailableSlot_grid
    (clock : Z) (timetable : list TimeBlock.t) (duration : positive) (date : Z)
    (currentTime lastTaskEndTime : option Z) (continuousWorkTime start stop : Z) :
  findAvailableSlot clock timetable duration date currentTime
                    lastTaskEndTime continuousWorkTime = Some (start, stop) ->
  (exists k : nat,
      start = windowStart (default clock currentTime) date + 15 * 60000 * Z.of_nat k)
  /\ start + 15 * 60000 * (ceilDiv (Z.pos duration) 15 - 1)
     < setHours date dayEnd 0 - Z.pos duration * 60000
  /\ stop < setHours date dayEnd 0.
Proof.
  intros Hslot.
  apply findAvailableSlot_Some in Hslot as Hstop. destruct Hstop as (Hstop & _ & _).
  revert Hslot. unfold findAvailableSlot.
  destruct (setHours date 0 0 <? setHours clock 0 0); [discriminate|].
  set (ws := windowStart (default clock currentTime) date).
  set (latest := setHours date dayEnd 0 - Z.pos duration * 60000).
  set (built := buildSlots (slotFuel ws latest) ws latest (setHours date dayEnd 0)).
  set (required := Z.to_nat (ceilDiv (Z.pos duration) 15)).
  intros Hscan.
  apply scanSlots_Some_index in Hscan as (i & first & Hi & Hfirst & Hstart).
  apply in_seq in Hi.
  destruct (buildSlots_shape (slotFuel ws latest) ws latest (setHours date dayEnd 0))
    as (n & Hmap & Hbound).
  fold built in Hmap.
  assert (Hlen : length (markUnavailable timetable built) = n).
  { rewrite <- (length_map slotStart), markUnavailable_start, Hmap,
      length_map, length_seq. reflexivity. }
  assert (Hceil : 1 <= ceilDiv (Z.pos duration) 15) by (unfold ceilDiv; zdiv).
  assert (Hreq : Z.of_nat required = ceilDiv (Z.pos duration) 15)
    by (unfold required; lia).
  assert (Hist : (map slotStart (markUnavailable timetable built)) !! i = Some start).
  { rewrite <- Hstart. change (map slotStart) with (fmap (M:=list) slotStart).
    rewrite list_lookup_fmap, Hfirst. reflexivity. }
  rewrite markUnavailable_start, Hmap in Hist.
  change (map (fun j : nat => ws + 15 * 60000 * Z.of_nat j))
    with (fmap (M:=list) (fun j : nat => ws + 15 * 60000 * Z.of_nat j)) in Hist.
  rewrite list_lookup_fmap in Hist.
  destruct (seq 0 n !! i) as [j|] eqn:Hj; [|discriminate].
  apply lookup_seq in Hj as [-> _]. simpl in Hist. inversion Hist as [Hk].
  assert (Hlast : ws + 15 * 60000 * Z.of_nat (i + required - 1) < latest)
    by (apply Hbound; lia).
  split; [exists i; reflexivity|]. split; [|subst stop].
  - rewrite <- Hreq. lia.
  - unfold latest in Hlast. lia.
Qed.

(** X9: every task block placed by the slot allocator in the output of
    [generateTimetable] starts on a quarter hour of the local clock of the
    target date (a whole number of quarter hours after its local midnight)
    and ends strictly before 23:00 of that date. *)
Theorem placed_tasks_on_quarter_hours
    (this : Scheduler) (clock date : Z) (block : TimeBlock.t)
    (taskId : string) (day : Z) :
  In block (fst (generateTimetable this clock date)) ->
  TimeBlock.id block = PlacedId taskId day ->
  (exists k : Z, TimeBlock.startTime block = setHours date 0 0 + 15 * 60000 * k)
  /\ TimeBlock.endTime block < setHours date dayEnd 0.
Proof.
  intros Hin Hid.
  destruct (generateTimetable_placed_slot this clock date block taskId day Hin Hid)
    as (task & timetable & last & work & Hslot & _).
  apply findAvailableSlot_grid in Hslot as ((k & Hk) & _ & Hend).
  rewrite setHours_startOfDay in Hend. split; [|exact Hend].
  rewrite windowStart_startOfDay in Hk.
  destruct (windowStart_aligned
              (default clock (if localDay (setHours date 0 0) =? localDay clock
                              then Some clock else None)) date) as (m & Hm).
  exists (92 - m + Z.of_nat k). rewrite Hk.
  unfold setHours, dayEnd, HOUR, MINUTE in *. lia.
Qed.

(** *** The break inserter *)

Lemma breaksLoop_spec work taskBlocks :
  (length (breaksLoop work taskBlocks) <= length taskBlocks - 1)%nat
  /\ Forall
       (fun b =>
          TimeBlock.type b = BlockType.break
          /\ TimeBlock.task b = None
          /\ (TimeBlock.endTime b = TimeBlock.startTime b + 15 * 60000
              \/ TimeBlock.endTime b = TimeBlock.startTime b + 30 * 60000)
          /\ exists before current next after,
               taskBlocks = before ++ current :: next :: after
               /\ TimeBlock.startTime b = TimeBlock.endTime current
               /\ TimeBlock.endTime b <= TimeBlock.startTime next)
       (breaksLoop work taskBlocks).
Proof.
  revert work.
  induction taskBlocks as [|current rest IH]; intros work;
    [split; [simpl; lia | constructor]|].
  destruct rest as [|next rest]; [split; [simpl; lia | constructor]|].
  cbn [breaksLoop].
  set (work' := if minutesAtLeast _ 60 then 0 else _).
  destruct (IH work') as [Hlen Hall].
  match goal with
  | |- context [if ?c then [?b] else []] =>
    set (inserted := c) in *; set (breakBlock := b) in *
  end.
  split.
  - rewrite length_app. simpl length in *. destruct inserted; simpl; lia.
  - apply Forall_app. split.
    + destruct inserted eqn:Hinserted; [|constructor].
      constructor; [|constructor].
      subst inserted. apply andb_true_iff in Hinserted as [_ Hfits].
      apply Z.leb_le in Hfits.
      split; [reflexivity|]. split; [reflexivity|]. split.
      * subst breakBlock. simpl. unfold longBreakDuration, shortBreakDuration.
        match goal with |- context [if ?c then 30 else 15] => destruct c end; auto.
      * exists [], current, next, rest. auto.
    + eapply Forall_impl; [exact Hall|]. simpl.
      intros b (Hty & Htask & Hdur & before & cur & nxt & after & Heq & Hs & He).
      repeat split; auto.
      exists (current :: before), cur, nxt, after. rewrite Heq. auto.
Qed.

(** X10: what the break inserter adds.  [insertIntelligentBreaks] keeps
    the timetable and appends breaks; every break has no task, starts where
    a task block ends, lasts 15 or 30 minutes, and ends no later than the
    start of the task block that follows that one in start order; there is
    at most one break per pair of neighbouring task blocks. *)
Theorem insertIntelligentBreaks_breaks (timetable : list TimeBlock.t) :
  let taskBlocks := sortBy byStartTime (List.filter isTaskBlock timetable) in
  exists breaks,
    insertIntelligentBreaks timetable = timetable ++ breaks
    /\ (length breaks <= length taskBlocks - 1)%nat
    /\ Forall
         (fun b =>
            TimeBlock.type b = BlockType.break
            /\ TimeBlock.task b = None
            /\ (TimeBlock.endTime b = TimeBlock.startTime b + 15 * 60000
                \/ TimeBlock.endTime b = TimeBlock.startTime b + 30 * 60000)
            /\ exists before current next after,
                 taskBlocks = before ++ current :: next :: after
                 /\ TimeBlock.startTime b = TimeBlock.endTime current
                 /\ TimeBlock.endTime b <= TimeBlock.startTime next)
         breaks.
Proof.
  intros taskBlocks. unfold insertIntelligentBreaks. fold taskBlocks.
  exists (breaksLoop 0 taskBlocks). split; [reflexivity|].
  apply breaksLoop_spec.
Qed.

(** *** The rescheduler and the stored tasks *)

(** X11: [rescheduleTask] on a given timetable never changes the ids,
    types or task ids of the blocks, the list of unavailable blocks, or
    anything in the stored tasks but [scheduledTime]; and whenever it changes
    the timetable or the state, the move was accepted and every stored task
    with the given id has the new start as its [scheduledTime]. *)
Theorem rescheduleTask_state
    (this : Scheduler) (clock : Z) (taskId : string) (newStartTime : Z)
    (timetable : list TimeBlock.t) :
  let result := fst (rescheduleTask this clock taskId newStartTime (Some timetable)) in
  let this' := snd (rescheduleTask this clock taskId newStartTime (Some timetable)) in
  map (fun b => (TimeBlock.id b, TimeBlock.type b, TimeBlock.taskId b)) result
  = map (fun b => (TimeBlock.id b, TimeBlock.type b, TimeBlock.taskId b)) timetable
  /\ unavailableBlocks this' = unavailableBlocks this
  /\ map unscheduled (tasks this') = map unscheduled (tasks this)
  /\ (result <> timetable \/ this' <> this ->
      forall stored, In stored (tasks this') -> Task.id stored = taskId ->
        Task.scheduledTime stored = Some newStartTime).
Proof.
  intros result this'. subst result this'. unfold rescheduleTask.
  destruct (list_find _ timetable) as [[i block]|] eqn:Hfind;
    [|simpl; repeat split; auto; intros [H|H]; congruence].
  destruct (TimeBlock.task block) as [t|];
    [|simpl; repeat split; auto; intros [H|H]; congruence].
  destruct (someIndexed _ timetable); simpl;
    [repeat split; auto; intros [H|H]; congruence|].
  apply list_find_Some in Hfind as (Hi & _ & _).
  split; [|split; [reflexivity|split]].
  - change (map (fun b => (TimeBlock.id b, TimeBlock.type b, TimeBlock.taskId b)))
      with (fmap (M:=list)
              (fun b => (TimeBlock.id b, TimeBlock.type b, TimeBlock.taskId b))).
    rewrite list_fmap_insert. simpl. apply list_insert_id.
    rewrite list_lookup_fmap, Hi. reflexivity.
  - apply updateScheduledTime_unscheduled.
  - intros _ stored Hstored Hid.
    apply updateScheduledTime_In in Hstored as (t0 & _ & [[_ ->]|[Hne ->]]);
      [reflexivity | contradiction].
Qed.

(** *** Recurring blocks *)

Lemma getDay_next_week date : getDay (date + 7 * DAY) = getDay date.
Proof. unfold getDay, localDay, DAY. zdiv. Qed.

(** X12: a recurring block applies to a date exactly as it applies to
    the date one week later, unless one of the two days is among its
    exceptions: weekly blocks come back on the same weekday. *)
Theorem recurring_block_weekly_period
    (block : UnavailableBlock.t) (recurring : Recurring.t) (date : Z) :
  UnavailableBlock.recurring block = Some recurring ->
  ~ In (localDateString date) (default [] (Recurring.exceptions recurring)) ->
  ~ In (localDateString (date + 7 * DAY))
       (default [] (Recurring.exceptions recurring)) ->
  shouldIncludeBlock block (date + 7 * DAY) = shouldIncludeBlock block date.
Proof.
  intros Hrec H1 H2. unfold shouldIncludeBlock. rewrite Hrec, getDay_next_week.
  destruct (Recurring.exceptions recurring) as [exceptions|]; simpl in *; auto.
  destruct (existsb (Z.eqb (localDateString (date + 7 * DAY))) exceptions) eqn:E2;
    [apply existsb_eqb_In in E2; contradiction|].
  destruct (existsb (Z.eqb (localDateString date)) exceptions) eqn:E1;
    [apply existsb_eqb_In in E1; contradiction|].
  reflexivity.
Qed.


Lemma exceptionsWith_again recurring exceptionDate :
  exceptionsWith
    (Recurring.mk (Recurring.type recurring) (Recurring.days recurring)
                  (Some (exceptionsWith recurring exceptionDate)))
    exceptionDate
  = exceptionsWith recurring exceptionDate.
Proof.
  unfold exceptionsWith at 1. simpl.
  assert (H : existsb (Z.eqb (isoDateString exceptionDate))
                      (exceptionsWith recurring exceptionDate) = true).
  { apply existsb_eqb_In, exceptionsWith_In. auto. }
  rewrite H. reflexivity.
Qed.

Lemma addExceptionToRecurringBlock_found this blockId exceptionDate index block recurring :
  list_find (fun b => UnavailableBlock.id b = blockId) (unavailableBlocks this)
  = Some (index, block) ->
  UnavailableBlock.recurring block = Some recurring ->
  addExceptionToRecurringBlock this blockId exceptionDate
  = (true,
     mkScheduler (tasks this)
       (<[index := withException block recurring exceptionDate]>
          (unavailableBlocks this))).
Proof.
  intros Hfind Hrec. unfold addExceptionToRecurringBlock. rewrite Hfind, Hrec.
  reflexivity.
Qed.

(** X14: adding the same exception twice is the same as adding it once:
    the second call of [addExceptionToRecurringBlock] with the same block id
    and instant leaves the scheduler as the first one left it. *)
Theorem addExceptionToRecurringBlock_idempotent
    (this : Scheduler) (blockId : string) (exceptionDate : Z) :
  let once := snd (addExceptionToRecurringBlock this blockId exceptionDate) in
  snd (addExceptionToRecurringBlock once blockId exceptionDate) = once.
Proof.
  intros once. subst once.
  destruct (list_find (fun b => UnavailableBlock.id b = blockId)
                      (unavailableBlocks this)) as [[index block]|] eqn:Hfind.
  - destruct (UnavailableBlock.recurring block) as [recurring|] eqn:Hrec.
    + rewrite (addExceptionToRecurringBlock_found this blockId exceptionDate
                 index block recurring Hfind Hrec).
      cbn [snd].
      apply list_find_Some in Hfind as (Hindex & Hid & Hfirst).
      assert (Hfind' :
                list_find (fun b => UnavailableBlock.id b = blockId)
                  (<[index := withException block recurring exceptionDate]>
                     (unavailableBlocks this))
                = Some (index, withException block recurring exceptionDate)).
      { apply list_find_Some. split; [|split].
        - apply list_lookup_insert_eq. eapply lookup_lt_Some; eauto.
        - exact Hid.
        - intros j other Hj Hlt.
          rewrite list_lookup_insert_ne in Hj by lia. eapply Hfirst; eauto. }
      erewrite addExceptionToRecurringBlock_found;
        [|exact Hfind' | reflexivity].
      cbn [snd tasks unavailableBlocks]. f_equal.
      rewrite list_insert_insert_eq. f_equal.
      unfold withException at 1. cbn [UnavailableBlock.id UnavailableBlock.startTime
        UnavailableBlock.endTime UnavailableBlock.title UnavailableBlock.description
        withException Recurring.type Recurring.days].
      rewrite exceptionsWith_again. reflexivity.
    + unfold addExceptionToRecurringBlock at 2. rewrite Hfind, Hrec. cbn [snd].
      unfold addExceptionToRecurringBlock. rewrite Hfind, Hrec. reflexivity.
  - unfold addExceptionToRecurringBlock at 2. rewrite Hfind. cbn [snd].
    unfold addExceptionToRecurringBlock. rewrite Hfind. reflexivity.
Qed.

(** *** Adding an unavailable block *)

Lemma conflictsWithBlock_true day blockStart blockEnd task :
  conflictsWithBlock day blockStart blockEnd task = true ->
  Task.completed task = false /\ Task.scheduledTime task <> None.
Proof.
  unfold conflictsWithBlock. destruct (Task.scheduledTime task); [|discriminate].
  destruct (Task.completed task); [discriminate|]. split; congruence.
Qed.

Lemma clearConflicts_spec day blockStart blockEnd stored :
  let '(after, cleared) := clearConflicts day blockStart blockEnd stored in
  Forall2 KeptOrCleared stored after
  /\ Z.of_nat (scheduledCount stored) = Z.of_nat (scheduledCount after) + cleared
  /\ (forall t, In t after -> Task.scheduledTime t <> None ->
        In t stored /\ conflictsWithBlock day blockStart blockEnd t = false).
Proof.
  unfold clearConflicts, scheduledCount.
  induction stored as [|t stored (Hall & Hcount & Hin)]; simpl.
  - split; [constructor|]. split; [reflexivity | contradiction].
  - destruct (conflictsWithBlock day blockStart blockEnd t) eqn:Hc.
    + apply conflictsWithBlock_true in Hc as Hc'. destruct Hc' as [Hcompleted Hsched].
      split; [constructor; [right; auto | exact Hall]|]. split.
      * destruct (Task.scheduledTime t); [|congruence]. simpl length. lia.
      * intros t' [<-|Ht'] Hs; [simpl in Hs; congruence|].
        destruct (Hin t' Ht' Hs). auto.
    + split; [constructor; [left; auto | exact Hall]|]. split.
      * destruct (Task.scheduledTime t); simpl length; lia.
      * intros t' [<-|Ht'] Hs; [auto|]. destruct (Hin t' Ht' Hs). auto.
Qed.

Lemma KeptOrCleared_trans a b c :
  KeptOrCleared a b -> KeptOrCleared b c -> KeptOrCleared a c.
Proof.
  intros [->|(-> & Hc & Hs)] [->|(-> & Hc' & Hs')]; unfold KeptOrCleared; auto;
    try (simpl in Hs'; congruence).
Qed.

Lemma Forall2_KeptOrCleared_trans l1 l2 l3 :
  Forall2 KeptOrCleared l1 l2 -> Forall2 KeptOrCleared l2 l3 ->
  Forall2 KeptOrCleared l1 l3.
Proof.
  intros H. revert l3. induction H; intros l3 H3; inversion H3; subst; constructor;
    eauto using KeptOrCleared_trans.
Qed.

Lemma Forall2_KeptOrCleared_refl l : Forall2 KeptOrCleared l l.
Proof. induction l; constructor; auto. left. reflexivity. Qed.

Lemma Forall2_KeptOrCleared_unscheduled before after :
  Forall2 KeptOrCleared before after ->
  map unscheduled after = map unscheduled before.
Proof.
  induction 1 as [|b a ? ? [->|(-> & _)] _ IH]; simpl; f_equal; auto.
Qed.

Lemma Forall2_KeptOrCleared_count before after :
  Forall2 KeptOrCleared before after ->
  (scheduledCount after <= scheduledCount before)%nat.
Proof.
  unfold scheduledCount.
  induction 1 as [|b a ? ? [->|(-> & _)] _ IH]; simpl; auto.
  - destruct (Task.scheduledTime b); simpl; lia.
  - destruct (Task.scheduledTime b); simpl; lia.
Qed.

(** The clearing for a recurring block, over any list of dates. *)
Lemma clearRecurring_spec block dates :
  forall stored count,
    let '(after, total) :=
      fold_left
        (fun '(stored, rescheduledCount) date =>
           let blockStart :=
             setHours date (getHours (UnavailableBlock.startTime block))
                           (getMinutes (UnavailableBlock.startTime block)) in
           let blockEnd :=
             setHours date (getHours (UnavailableBlock.endTime block))
                           (getMinutes (UnavailableBlock.endTime block)) in
           let '(stored, cleared) := clearConflicts date blockStart blockEnd stored in
           (stored, rescheduledCount + cleared))
        dates (stored, count) in
    Forall2 KeptOrCleared stored after
    /\ Z.of_nat (scheduledCount stored) + count = Z.of_nat (scheduledCount after) + total
    /\ (forall t, In t after -> Task.scheduledTime t <> None ->
          In t stored
          /\ forall date, In date dates ->
               conflictsWithBlock date
                 (setHours date (getHours (UnavailableBlock.startTime block))
                                (getMinutes (UnavailableBlock.startTime block)))
                 (setHours date (getHours (UnavailableBlock.endTime block))
                                (getMinutes (UnavailableBlock.endTime block)))
                 t = false).
Proof.
  induction dates as [|date dates IH]; intros stored count.
  - simpl. split; [apply Forall2_KeptOrCleared_refl|]. split; [reflexivity|].
    intros t Ht _. split; [exact Ht | contradiction].
  - cbn [fold_left].
    pose proof (clearConflicts_spec date
      (setHours date (getHours (UnavailableBlock.startTime block))
                     (getMinutes (UnavailableBlock.startTime block)))
      (setHours date (getHours (UnavailableBlock.endTime block))
                     (getMinutes (UnavailableBlock.endTime block)))
      stored) as Hstep.
    destruct (clearConflicts date _ _ stored) as [mid cleared].
    destruct Hstep as (Hall1 & Hcount1 & Hin1).
    specialize (IH mid (count + cleared)).
    destruct (fold_left _ dates (mid, count + cleared)) as [after total].
    destruct IH as (Hall2 & Hcount2 & Hin2).
    split; [eapply Forall2_KeptOrCleared_trans; eauto|]. split; [lia|].
    intros t Ht Hs. destruct (Hin2 t Ht Hs) as [Hmid Hdates].
    destruct (Hin1 t Hmid Hs) as [Hstored Hfirst].
    split; [exact Hstored|]. intros d [<-|Hd]; auto.
Qed.

Lemma clearConflictingTasks_spec this clock block targetDate :
  let '(after, rescheduledCount) := clearConflictingTasks this clock block targetDate in
  Forall2 KeptOrCleared (tasks this) after
  /\ Z.of_nat (scheduledCount (tasks this))
     = Z.of_nat (scheduledCount after) + rescheduledCount.
Proof.
  unfold clearConflictingTasks.
  destruct (UnavailableBlock.recurring block) as [recurring|].
  - pose proof (clearRecurring_spec block (datesToCheck clock recurring targetDate)
                  (tasks this) 0) as H.
    destruct (fold_left _ _ _) as [after total].
    destruct H as (Hall & Hcount & _). split; [exact Hall | lia].
  - pose proof (clearConflicts_spec (UnavailableBlock.startTime block)
                  (UnavailableBlock.startTime block) (UnavailableBlock.endTime block)
                  (tasks this)) as H.
    destruct (clearConflicts _ _ _ _) as [after cleared].
    destruct H as (Hall & Hcount & _). auto.
Qed.

(** X15: [addUnavailableBlockAndReschedule] reports in
    [rescheduledTasksCount] exactly the number of stored tasks whose
    [scheduledTime] it cleared before regenerating, a number between 0 and
    the number of stored tasks; a cleared task was incomplete and scheduled,
    and every other task is left as it was. *)
Theorem rescheduledTasksCount_counts_cleared
    (this : Scheduler) (clock : Z) (block : UnavailableBlock.t) (targetDate : Z) :
  let pushed := mkScheduler (tasks this) (unavailableBlocks this ++ [block]) in
  let cleared := fst (clearConflictingTasks pushed clock block targetDate) in
  let rescheduledCount :=
    snd (fst (addUnavailableBlockAndReschedule this clock block targetDate)) in
  Forall2 KeptOrCleared (tasks this) cleared
  /\ Z.of_nat (scheduledCount (tasks this))
     = Z.of_nat (scheduledCount cleared) + rescheduledCount
  /\ 0 <= rescheduledCount <= Z.of_nat (length (tasks this)).
Proof.
  intros pushed cleared rescheduledCount.
  subst cleared rescheduledCount. unfold addUnavailableBlockAndReschedule.
  pose proof (clearConflictingTasks_spec pushed clock block targetDate) as H.
  fold pushed.
  destruct (clearConflictingTasks pushed clock block targetDate) as [after count].
  destruct (generateTimetable _ clock targetDate) as [updatedTimetable this'].
  simpl in *. destruct H as [Hall Hcount]. split; [exact Hall|].
  split; [exact Hcount|].
  assert (Hle : forall l, (scheduledCount l <= length l)%nat).
  { intros l. unfold scheduledCount. apply filter_length_le. }
  pose proof (Hle (tasks this)).
  pose proof (Forall2_KeptOrCleared_count _ _ Hall). lia.
Qed.

(** X16: [addUnavailableBlockAndReschedule] removes the block it pushed:
    it returns with the list of unavailable blocks it started with, and with
    the stored tasks unchanged but for their [scheduledTime]. *)
Theorem addUnavailableBlockAndReschedule_restores_blocks
    (this : Scheduler) (clock : Z) (block : UnavailableBlock.t) (targetDate : Z) :
  let this' := snd (addUnavailableBlockAndReschedule this clock block targetDate) in
  unavailableBlocks this' = unavailableBlocks this
  /\ map unscheduled (tasks this') = map unscheduled (tasks this).
Proof.
  intros this'. subst this'. unfold addUnavailableBlockAndReschedule.
  set (pushed := mkScheduler (tasks this) (unavailableBlocks this ++ [block])).
  pose proof (clearConflictingTasks_spec pushed clock block targetDate) as H.
  destruct (clearConflictingTasks pushed clock block targetDate) as [after count].
  destruct H as [Hall _].
  pose proof (generateTimetable_state
                (mkScheduler after (unavailableBlocks this ++ [block]))
                clock targetDate) as [Hblocks Htasks].
  destruct (generateTimetable _ clock targetDate) as [updatedTimetable this'].
  simpl in *. rewrite Hblocks, Htasks. split.
  - apply removelast_last.
  - apply Forall2_KeptOrCleared_unscheduled, Hall.
Qed.

Lemma timeOfDay_bounds d :
  0 <= getHours d * HOUR + getMinutes d * MINUTE < DAY.
Proof. unfold getHours, getMinutes, DAY, HOUR, MINUTE. zdiv. Qed.

Lemma setHours_same_day d d' h m :
  localDay d = localDay d' -> setHours d h m = setHours d' h m.
Proof. unfold setHours. intros ->. reflexivity. Qed.

(** A placed block overlaps no fixed block of the run, whether or not the
    fixed blocks overlap one another. *)
Lemma generateTimetable_placed_free this clock date block taskId day fixed :
  In block (fst (generateTimetable this clock date)) ->
  TimeBlock.id block = PlacedId taskId day ->
  In fixed (fixedBlocks this clock date) ->
  overlap block fixed = false.
Proof.
  intros Hin Hid Hfixed. apply generateTimetable_blocks in Hin.
  unfold insertIntelligentBreaks in Hin. apply in_app_or in Hin as [Hin|Hin].
  - set (Free := fun timetable : list TimeBlock.t =>
           In fixed timetable
           /\ Forall (fun b => forall taskId day,
                        TimeBlock.id b = PlacedId taskId day ->
                        overlap b fixed = false) timetable).
    match type of Hin with
    | In _ ?placed => assert (Hok : Free placed)
    end.
    { apply placeTasks_invariant with (Inv := Free).
      - intros timetable task last work start stop [Hf Hall] Hslot. split.
        + apply in_or_app. auto.
        + apply Forall_app. split; auto. constructor; auto.
          intros _ _ _. apply findAvailableSlot_Some in Hslot as (_ & _ & Hfree).
          apply (Hfree fixed Hf).
      - split; auto. rewrite fixedBlocks_eq. apply Forall_app. split.
        + apply Forall_forall. intros b Hb. apply list_elem_of_In in Hb.
          apply in_map_iff in Hb as (ub & <- & _). intros ? ? Hb. discriminate Hb.
        + apply Forall_forall. intros b Hb.
          apply list_elem_of_omap in Hb as (stored & _ & Hkept).
          apply keptScheduledBlock_Some in Hkept as (sd & _ & _ & ->).
          intros ? ? Hb. discriminate Hb. }
    destruct Hok as [_ Hall]. rewrite Forall_forall in Hall.
    apply list_elem_of_In in Hin. eapply Hall; eauto.
  - match type of Hin with
    | In _ (breaksLoop ?work ?blocks) =>
      pose proof (breaksLoop_id work blocks) as Hbreak
    end.
    rewrite Forall_forall in Hbreak.
    apply list_elem_of_In, Hbreak in Hin as (x & y & Hxy). congruence.
Qed.

Lemma keptScheduledBlock_same_day clock date currentTime task block :
  keptScheduledBlock clock date currentTime task = Some block ->
  exists scheduledDate,
    Task.scheduledTime task = Some scheduledDate
    /\ Task.completed task = false
    /\ localDay scheduledDate = localDay date
    /\ block = scheduledTimeBlock task scheduledDate date.
Proof.
  unfold keptScheduledBlock.
  destruct (Task.scheduledTime task) as [scheduledDate|]; [|discriminate].
  destruct (Task.completed task); [discriminate|].
  rewrite startOfDay_eqb.
  destruct (Z.eqb_spec (localDay scheduledDate) (localDay date)); [|discriminate].
  destruct (_ && _); [discriminate|].
  intros H. inversion H. eauto.
Qed.

(** What the clearing leaves scheduled does not conflict with the window
    of the block on the target date. *)
Lemma clearConflictingTasks_target this clock block targetDate t :
  let window := unavailableTimeBlock block (setHours targetDate 0 0) in
  (UnavailableBlock.recurring block = None ->
     UnavailableBlock.startTime block = TimeBlock.startTime window
     /\ UnavailableBlock.endTime block = TimeBlock.endTime window) ->
  In t (fst (clearConflictingTasks this clock block targetDate)) ->
  Task.scheduledTime t <> None ->
  conflictsWithBlock targetDate (TimeBlock.startTime window) (TimeBlock.endTime window) t
  = false.
Proof.
  intros window Honce Hin Hsched.
  assert (Hday0 : localDay (setHours targetDate 0 0) = localDay targetDate)
    by (apply localDay_setHours; unfold DAY, HOUR, MINUTE; lia).
  assert (Hstart : TimeBlock.startTime window
                   = setHours targetDate
                       (getHours (UnavailableBlock.startTime block))
                       (getMinutes (UnavailableBlock.startTime block))).
  { simpl. apply setHours_same_day, Hday0. }
  assert (Hend : TimeBlock.endTime window
                 = setHours targetDate
                     (getHours (UnavailableBlock.endTime block))
                     (getMinutes (UnavailableBlock.endTime block))).
  { simpl. apply setHours_same_day. rewrite localDay_setHours; [exact Hday0|].
    apply timeOfDay_bounds. }
  revert Hin. unfold clearConflictingTasks.
  destruct (UnavailableBlock.recurring block) as [recurring|] eqn:Hrec.
  - pose proof (clearRecurring_spec block (datesToCheck clock recurring targetDate)
                  (tasks this) 0) as H.
    destruct (fold_left _ _ _) as [after total]. cbn [fst].
    destruct H as (_ & _ & Hfree). intros Hin.
    destruct (Hfree t Hin Hsched) as [_ Hdates].
    rewrite Hstart, Hend. apply Hdates. unfold datesToCheck. left. reflexivity.
  - destruct (Honce eq_refl) as [Hs He].
    pose proof (clearConflicts_spec (UnavailableBlock.startTime block)
                  (UnavailableBlock.startTime block) (UnavailableBlock.endTime block)
                  (tasks this)) as H.
    destruct (clearConflicts _ _ _ _) as [after cleared]. cbn [fst].
    destruct H as (_ & _ & Hfree). intros Hin.
    destruct (Hfree t Hin Hsched) as [_ Hc].
    rewrite <- Hs, <- He. revert Hc. unfold conflictsWithBlock.
    destruct (Task.scheduledTime t) as [sd|]; auto.
    destruct (Task.completed t); auto.
    replace (localDay (UnavailableBlock.startTime block)) with (localDay targetDate);
      auto.
    rewrite Hs, Hstart. symmetry. apply localDay_setHours, timeOfDay_bounds.
Qed.

(** X17: after [addUnavailableBlockAndReschedule] for a block that
    applies to the target date (a one-off block lying on that day at whole
    minutes), the regenerated timetable holds the block when the date is not
    in the past, and no task block of it overlaps the block: the scheduled
    tasks in conflict were unscheduled, and no task is placed on it. *)
Theorem added_block_free_of_tasks
    (this : Scheduler) (clock : Z) (block : UnavailableBlock.t) (targetDate : Z) :
  let window := unavailableTimeBlock block (setHours targetDate 0 0) in
  let updatedTimetable :=
    fst (fst (addUnavailableBlockAndReschedule this clock block targetDate)) in
  shouldIncludeBlock block (setHours targetDate 0 0) = true ->
  (UnavailableBlock.recurring block = None ->
     UnavailableBlock.startTime block = TimeBlock.startTime window
     /\ UnavailableBlock.endTime block = TimeBlock.endTime window) ->
  (localDay clock <= localDay targetDate -> In window updatedTimetable)
  /\ (forall timeBlock,
        In timeBlock updatedTimetable ->
        TimeBlock.type timeBlock = BlockType.task ->
        overlap timeBlock window = false).
Proof.
  intros window updatedTimetable Happlies Honce. subst updatedTimetable.
  unfold addUnavailableBlockAndReschedule.
  set (pushed := mkScheduler (tasks this) (unavailableBlocks this ++ [block])).
  pose proof (clearConflictingTasks_target pushed clock block targetDate) as Hclear.
  destruct (clearConflictingTasks pushed clock block targetDate) as [after count].
  simpl in Hclear.
  set (regen := mkScheduler after (unavailableBlocks this ++ [block])).
  assert (Hwindow : In window (fixedBlocks regen clock targetDate)).
  { rewrite fixedBlocks_eq. apply in_or_app. left. apply in_map_iff.
    exists block. split; [reflexivity|]. apply filter_In. split; auto.
    simpl. apply in_or_app. right. left. reflexivity. }
  destruct (generateTimetable regen clock targetDate) as [out this'] eqn:Hgen.
  assert (Hout : out = fst (generateTimetable regen clock targetDate))
    by (rewrite Hgen; reflexivity).
  simpl. clear Hgen. subst out. split.
  - intros Hday. apply generateTimetable_fixed; auto.
  - intros timeBlock Hin Htype.
    destruct (Z.lt_ge_cases (localDay targetDate) (localDay clock)) as [Hpast|Hday].
    { rewrite generateTimetable_past_date_nil in Hin by exact Hpast. contradiction. }
    destruct (generateTimetable_parts regen clock targetDate Hday)
      as (chosen & _ & _ & _ & Hparts).
    pose proof Hin as Hin'. rewrite Hparts in Hin'.
    eapply Permutation_in in Hin'; [|apply sortBy_Permutation].
    apply filter_In in Hin' as [Hin' _].
    unfold insertIntelligentBreaks in Hin'. rewrite fixedBlocks_eq in Hin'.
    rewrite !in_app_iff in Hin'. destruct Hin' as [[[H|H]|H]|H].
    + apply in_map_iff in H as (ub & <- & _). discriminate Htype.
    + apply list_elem_of_In, list_elem_of_omap in H as (stored & Hstored & Hkept).
      apply keptScheduledBlock_same_day in Hkept
        as (sd & Hsd & Hcompleted & Hsame & ->).
      apply list_elem_of_In in Hstored. simpl in Hstored.
      specialize (Hclear stored Honce Hstored ltac:(congruence)).
      unfold conflictsWithBlock in Hclear.
      rewrite Hsd, Hcompleted in Hclear.
      rewrite localDay_setHours in Hsame by (unfold DAY, HOUR, MINUTE; lia).
      rewrite Hsame, Z.eqb_refl in Hclear. exact Hclear.
    + apply in_map_iff in H as (c & Hc & _).
      eapply generateTimetable_placed_free; eauto.
      rewrite <- Hc. reflexivity.
    + match type of H with
      | In _ (breaksLoop ?work ?blocks) =>
        pose proof (breaksLoop_type work blocks) as Hbreaks
      end.
      rewrite Forall_forall in Hbreaks. apply list_elem_of_In, Hbreaks in H.
      congruence.
Qed.

(** X18: whatever the fixed blocks are (they may overlap one another), a
    task block placed by the slot allocator overlaps none of them: no
    unavailable block that applies to the date and no task kept at its
    scheduled time. *)
Theorem placed_task_avoids_fixed_blocks
    (this : Scheduler) (clock date : Z) (block fixed : TimeBlock.t)
    (taskId : string) (day : Z) :
  In block (fst (generateTimetable this clock date)) ->
  TimeBlock.id block = PlacedId taskId day ->
  In fixed (fixedBlocks this clock date) ->
  overlap block fixed = false /\ overlap fixed block = false.
Proof.
  intros Hin Hid Hfixed. rewrite (overlap_sym fixed block).
  split; eapply generateTimetable_placed_free; eauto.
Qed.

(** *** The task helpers *)

(** X19: toggling the completion of a task twice gives back the task
    list: [toggleTaskCompletion] is its own inverse. *)
Theorem toggleTaskCompletion_involutive (tasks : list Task.t) (taskId : string) :
  toggleTaskCompletion (toggleTaskCompletion tasks taskId) taskId = tasks.
Proof.
  unfold toggleTaskCompletion. rewrite map_map.
  rewrite <- (map_id tasks) at 2. apply map_ext. intros task.
  destruct (String.eqb (Task.id task) taskId) eqn:Heq.
  - simpl. rewrite Heq. destruct task. simpl. rewrite negb_involutive. reflexivity.
  - rewrite Heq. reflexivity.
Qed.

Lemma In_convertTasksToScheduleBlocks tasks block :
  In block (convertTasksToScheduleBlocks tasks) <->
  exists task scheduledTime,
    In task tasks
    /\ Task.scheduledTime task = Some scheduledTime
    /\ Task.completed task = false
    /\ block = scheduleBlock task scheduledTime.
Proof.
  unfold convertTasksToScheduleBlocks. split.
  - intros Hin. eapply Permutation_in in Hin; [|apply sortBy_Permutation].
    apply in_flat_map in Hin as (task & Htask & Hblock).
    apply filter_In in Htask as [Htask Hp].
    destruct (Task.scheduledTime task) as [scheduledTime|] eqn:Hs; [|contradiction].
    destruct Hblock as [<-|[]]. exists task, scheduledTime.
    destruct (Task.completed task); [discriminate|]. auto.
  - intros (task & scheduledTime & Htask & Hs & Hc & ->).
    eapply Permutation_in; [symmetry; apply sortBy_Permutation|].
    apply in_flat_map. exists task. split.
    + apply filter_In. split; auto. rewrite Hs, Hc. reflexivity.
    + rewrite Hs. left. reflexivity.
Qed.

(** X20: [convertTasksToScheduleBlocks] returns, sorted by start time,
    exactly one block per task that is scheduled and not completed: the
    block starts at the task's [scheduledTime], lasts its duration and
    carries the task; completed and unscheduled tasks give no block. *)
Theorem convertTasksToScheduleBlocks_spec (tasks : list Task.t) :
  let blocks := convertTasksToScheduleBlocks tasks in
  StronglySorted (fun a b => TimeBlock.startTime a <= TimeBlock.startTime b) blocks
  /\ length blocks
     = length (List.filter
                 (fun task =>
                    match Task.scheduledTime task with Some _ => true | None => false end
                    && negb (Task.completed task))
                 tasks)
  /\ (forall block,
        In block blocks <->
        exists task scheduledTime,
          In task tasks
          /\ Task.scheduledTime task = Some scheduledTime
          /\ Task.completed task = false
          /\ TimeBlock.task block = Some task
          /\ TimeBlock.taskId block = Some (Task.id task)
          /\ TimeBlock.startTime block = scheduledTime
          /\ TimeBlock.endTime block
             = scheduledTime + Z.pos (Task.duration task) * 60000
          /\ block = scheduleBlock task scheduledTime).
Proof.
  intros blocks. subst blocks. split; [|split].
  - unfold convertTasksToScheduleBlocks. apply sortBy_sorted. reflexivity.
  - unfold convertTasksToScheduleBlocks.
    rewrite (Permutation_length (sortBy_Permutation _ _)).
    induction tasks as [|task tasks IH]; [reflexivity|]. simpl.
    destruct (Task.scheduledTime task) as [s|] eqn:Hs; simpl; auto.
    destruct (Task.completed task); simpl; auto. rewrite Hs. simpl. auto.
  - intros block. rewrite In_convertTasksToScheduleBlocks. split.
    + intros (task & s & Hin & Hs & Hc & ->). exists task, s. simpl.
      repeat split; auto.
    + intros (task & s & Hin & Hs & Hc & _ & _ & _ & _ & ->).
      exists task, s. repeat split; auto.
Qed.

(** X21: a removed task leaves the timeline and nothing else does: the
    blocks of [convertTasksToScheduleBlocks] after [removeTaskById] are
    exactly the blocks of before that do not name the removed id. *)
Theorem removeTaskById_timeline
    (tasks : list Task.t) (taskId : string) (block : TimeBlock.t) :
  In block (convertTasksToScheduleBlocks (removeTaskById tasks taskId)) <->
  In block (convertTasksToScheduleBlocks tasks)
  /\ TimeBlock.taskId block <> Some taskId.
Proof.
  rewrite !In_convertTasksToScheduleBlocks. unfold removeTaskById. split.
  - intros (task & s & Hin & Hs & Hc & ->).
    apply filter_In in Hin as [Hin Hne].
    apply negb_true_iff in Hne. apply String.eqb_neq in Hne.
    split; [eauto 6|]. simpl. congruence.
  - intros [(task & s & Hin & Hs & Hc & ->) Hne].
    exists task, s. repeat split; auto. apply filter_In. split; auto.
    apply negb_true_iff, String.eqb_neq. simpl in Hne. congruence.
Qed.

(** X22: after [updateTaskScheduledTime], every block of the timeline
    that names the task starts at the new time and lasts the duration of
    the task; the blocks of the other tasks are those of before. *)
Theorem updateTaskScheduledTime_timeline
    (tasks : list Task.t) (taskId : string) (newTime : Z) (block : TimeBlock.t) :
  In block (convertTasksToScheduleBlocks (updateTaskScheduledTime tasks taskId newTime)) ->
  (TimeBlock.taskId block = Some taskId ->
     TimeBlock.startTime block = newTime
     /\ exists task, TimeBlock.task block = Some task
          /\ TimeBlock.endTime block = newTime + Z.pos (Task.duration task) * 60000)
  /\ (TimeBlock.taskId block <> Some taskId ->
        In block (convertTasksToScheduleBlocks tasks)).
Proof.
  rewrite In_convertTasksToScheduleBlocks.
  intros (task & s & Hin & Hs & Hc & ->). unfold updateTaskScheduledTime in Hin.
  apply in_map_iff in Hin as (task0 & Heq & Hin0).
  destruct (String.eqb_spec (Task.id task0) taskId) as [Hid|Hid]; subst task.
  - simpl in Hs. inversion Hs; subst s. split.
    + intros _. split; [reflexivity|]. eexists. split; reflexivity.
    + simpl. intros Hne. congruence.
  - split.
    + simpl. intros Heq. congruence.
    + intros _. apply In_convertTasksToScheduleBlocks. eauto 6.
Qed.

(** *** The dashboard handlers *)

Lemma NoDup_omap_lookup {A B : Type} (f : A -> option B) (l : list A)
    (i j : nat) (a b : A) (x : B) :
  NoDup (omap f l) -> l !! i = Some a -> l !! j = Some b ->
  f a = Some x -> f b = Some x -> i = j.
Proof.
  revert i j. induction l as [|c l IH]; intros i j Hnd Hi Hj Ha Hb.
  - destruct i; discriminate.
  - simpl in Hnd. destruct i as [|i], j as [|j]; simpl in Hi, Hj.
    + reflexivity.
    + exfalso. inversion Hi; subst c. rewrite Ha in Hnd.
      apply NoDup_cons in Hnd as [Hnot _]. apply Hnot.
      apply list_elem_of_omap. exists b. split; auto.
      eapply list_elem_of_lookup_2; eauto.
    + exfalso. inversion Hj; subst c. rewrite Hb in Hnd.
      apply NoDup_cons in Hnd as [Hnot _]. apply Hnot.
      apply list_elem_of_omap. exists a. split; auto.
      eapply list_elem_of_lookup_2; eauto.
    + f_equal. apply IH; auto.
      destruct (f c); [apply NoDup_cons in Hnd as [_ Hnd]|]; auto.
Qed.

Lemma syncScheduledTime_found newSchedule block task :
  NoDup (taskIdsOf newSchedule) ->
  In block newSchedule ->
  TimeBlock.taskId block = Some (Task.id task) ->
  syncScheduledTime newSchedule task
  = Task.withScheduledTime task (Some (TimeBlock.startTime block)).
Proof.
  intros Hnd Hin Hid. unfold syncScheduledTime.
  apply list_elem_of_In, list_elem_of_lookup_1 in Hin as [i Hi].
  destruct (list_find _ newSchedule) as [[j found]|] eqn:Hfind.
  - apply list_find_Some in Hfind as (Hj & Hfound & _).
    assert (i = j) by (eapply (NoDup_omap_lookup TimeBlock.taskId); eauto).
    subst j. congruence.
  - exfalso. apply list_find_None in Hfind. rewrite Forall_forall in Hfind.
    apply (Hfind block); auto. eapply list_elem_of_lookup_2; eauto.
Qed.

Lemma withScheduledTime_fields task time :
  Task.id (Task.withScheduledTime task time) = Task.id task
  /\ Task.duration (Task.withScheduledTime task time) = Task.duration task
  /\ Task.completed (Task.withScheduledTime task time) = Task.completed task
  /\ Task.scheduledTime (Task.withScheduledTime task time) = time.
Proof. destruct task. simpl. auto. Qed.

(** X23: with distinct task ids, the timeline that [generateSchedule]
    sets agrees with the timetable it sets: for every task block of the new
    timetable, the task list given to [setTasks] holds the (incomplete) task
    named by the block with [scheduledTime] equal to the block's start, and
    the timeline has a block for that task on the same interval. *)
Theorem generateSchedule_timeline_shows_timetable
    (scheduler : Scheduler) (clock : Z) (tasks : list Task.t)
    (unavailableBlocks : list UnavailableBlock.t) (selectedDate : Z)
    (block : TimeBlock.t) :
  let result := fst (generateSchedule scheduler clock tasks unavailableBlocks
                                      selectedDate) in
  let newSchedule := fst (fst result) in
  let updatedTasks := snd (fst result) in
  let scheduleBlocks := snd result in
  NoDup (map Task.id tasks) ->
  In block newSchedule ->
  TimeBlock.type block = BlockType.task ->
  (exists task,
      In task updatedTasks
      /\ TimeBlock.taskId block = Some (Task.id task)
      /\ Task.completed task = false
      /\ Task.scheduledTime task = Some (TimeBlock.startTime block))
  /\ (exists shown,
        In shown scheduleBlocks
        /\ TimeBlock.taskId shown = TimeBlock.taskId block
        /\ TimeBlock.startTime shown = TimeBlock.startTime block
        /\ TimeBlock.endTime shown = TimeBlock.endTime block).
Proof.
  intros result newSchedule updatedTasks scheduleBlocks Hnd.
  subst scheduleBlocks updatedTasks newSchedule result. unfold generateSchedule.
  set (this := setUnavailableBlocks (setTasks scheduler tasks) unavailableBlocks).
  pose proof (generateTimetable_task_block_stored this clock selectedDate block)
    as Hstored.
  assert (Hids : NoDup (taskIdsOf (fst (generateTimetable this clock selectedDate)))).
  { apply generateTimetable_taskIds_NoDup. unfold this. simpl.
    eapply sublist_NoDup; [exact Hnd|]. apply sublist_map, sublist_List_filter. }
  destruct (generateTimetable this clock selectedDate) as [newSchedule scheduler'].
  cbn [fst snd] in *. intros Hin Htype.
  destruct (Hstored Hin Htype) as (stored & Hs & Hc & Hid & _ & _ & Hend).
  unfold this in Hs. simpl in Hs. apply filter_In in Hs as [Hs _].
  pose proof (syncScheduledTime_found newSchedule block stored Hids Hin Hid) as Hsync.
  destruct (withScheduledTime_fields stored (Some (TimeBlock.startTime block)))
    as (Hfid & Hfd & Hfc & Hfs).
  assert (Hupdated :
            In (Task.withScheduledTime stored (Some (TimeBlock.startTime block)))
               (map (syncScheduledTime newSchedule) tasks)).
  { apply in_map_iff. exists stored. auto. }
  split.
  - eexists. split; [exact Hupdated|]. rewrite Hfid, Hfc, Hfs. auto.
  - exists (scheduleBlock
              (Task.withScheduledTime stored (Some (TimeBlock.startTime block)))
              (TimeBlock.startTime block)).
    split.
    + apply In_convertTasksToScheduleBlocks. eexists _, _.
      split; [exact Hupdated|]. rewrite Hfc, Hfs. auto.
    + unfold scheduleBlock. cbn [TimeBlock.taskId TimeBlock.startTime TimeBlock.endTime].
      rewrite Hfid, Hfd, Hid, Hend. auto.
Qed.

Lemma existsb_false_In {A : Type} (f : A -> bool) (l : list A) (x : A) :
  existsb f l = false -> In x l -> f x = false.
Proof.
  intros Hf Hin. destruct (f x) eqn:Hx; auto.
  rewrite <- Hf. symmetry. apply existsb_exists. eauto.
Qed.

Lemma find_eqb_Some tasks taskId (task : Task.t) :
  List.find (fun task => String.eqb (Task.id task) taskId) tasks = Some task ->
  In task tasks /\ Task.id task = taskId.
Proof.
  intros H. apply find_some in H as [Hin Hid]. split; auto.
  apply String.eqb_eq, Hid.
Qed.

(** What has been checked when [handleRescheduleTask] goes through. *)
Lemma handleRescheduleTask_accepted_inv
    scheduler clock tasks timetable taskId newStartTime
    newTimetable updatedTasks scheduleBlocks :
  fst (handleRescheduleTask scheduler clock tasks timetable taskId newStartTime)
  = TaskRescheduled newTimetable updatedTasks scheduleBlocks ->
  clock < newStartTime
  /\ exists targetTask,
       List.find (fun task => String.eqb (Task.id task) taskId) tasks = Some targetTask
       /\ Task.completed targetTask = false
       /\ (forall block, In block timetable ->
             TimeBlock.taskId block <> Some taskId ->
             slotsOverlap newStartTime
                          (newStartTime + Z.pos (Task.duration targetTask) * 60000)
                          (TimeBlock.startTime block) (TimeBlock.endTime block)
             = false)
       /\ newStartTime + Z.pos (Task.duration targetTask) * 60000
          <= setHours newStartTime 23 0
       /\ updatedTasks = updateTaskScheduledTime tasks taskId newStartTime
       /\ newTimetable
          = fst (rescheduleTask (setTasks scheduler updatedTasks) clock taskId
                                newStartTime (Some timetable))
       /\ scheduleBlocks = convertTasksToScheduleBlocks updatedTasks.
Proof.
  unfold handleRescheduleTask.
  destruct (newStartTime <=? clock) eqn:Hnow; [discriminate|].
  destruct (List.find _ tasks) as [targetTask|]; [|discriminate].
  destruct (Task.completed targetTask) eqn:Hc; [discriminate|].
  destruct (existsb _ timetable) eqn:Hconflict; [discriminate|].
  destruct (_ >? setHours newStartTime 23 0) eqn:Hday; [discriminate|].
  destruct (rescheduleTask _ clock taskId newStartTime (Some timetable))
    as [moved scheduler'] eqn:Hmoved.
  cbn [fst]. intros Heq. inversion Heq; subst. clear Heq.
  split; [lia|]. exists targetTask. repeat split; auto.
  - intros block Hin Hne.
    pose proof (existsb_false_In _ _ block Hconflict Hin) as Hfree.
    cbn beta in Hfree. rewrite bool_decide_eq_false_2 in Hfree by exact Hne.
    exact Hfree.
  - rewrite Z.gtb_ltb in Hday. lia.
  - rewrite Hmoved. reflexivity.
Qed.

(** X24: [handleRescheduleTask] goes through only for a time after now
    and an incomplete task of the list whose new interval ends by 23:00 of
    the day of the new start and overlaps no timetable block of another
    task; then every task with the id has the new [scheduledTime] in the
    task list it sets, and the timeline it sets shows the task on the new
    interval. *)
Theorem handleRescheduleTask_accepted
    (scheduler : Scheduler) (clock : Z) (tasks : list Task.t)
    (timetable : list TimeBlock.t) (taskId : string) (newStartTime : Z)
    (newTimetable : list TimeBlock.t) (updatedTasks : list Task.t)
    (scheduleBlocks : list TimeBlock.t) :
  fst (handleRescheduleTask scheduler clock tasks timetable taskId newStartTime)
  = TaskRescheduled newTimetable updatedTasks scheduleBlocks ->
  clock < newStartTime
  /\ exists targetTask,
       In targetTask tasks
       /\ Task.id targetTask = taskId
       /\ Task.completed targetTask = false
       /\ (let taskEndTime :=
             newStartTime + Z.pos (Task.duration targetTask) * 60000 in
           localDay taskEndTime = localDay newStartTime
           /\ taskEndTime <= setHours newStartTime 23 0
           /\ (forall block, In block timetable ->
                 TimeBlock.taskId block <> Some taskId ->
                 newStartTime < TimeBlock.endTime block ->
                 taskEndTime <= TimeBlock.startTime block)
           /\ (forall task, In task updatedTasks -> Task.id task = taskId ->
                 Task.scheduledTime task = Some newStartTime)
           /\ exists shown,
                In shown scheduleBlocks
                /\ TimeBlock.taskId shown = Some taskId
                /\ TimeBlock.startTime shown = newStartTime
                /\ TimeBlock.endTime shown = taskEndTime).
Proof.
  intros Hrun.
  apply handleRescheduleTask_accepted_inv in Hrun
    as (Hnow & targetTask & Hfind & Hc & Hfree & Hday & -> & _ & ->).
  apply find_eqb_Some in Hfind as [Hin Hid].
  split; [exact Hnow|]. exists targetTask. repeat split; auto.
  - pose proof (setHours_same_day newStartTime 23 0) as Hsame.
    pose proof (timeOfDay_bounds newStartTime) as Hb.
    pose proof (timeOfDay_bounds (newStartTime + Z.pos (Task.duration targetTask) * 60000)).
    revert Hday Hsame. unfold setHours, localDay, HOUR, MINUTE, DAY in *.
    intros. zdiv.
  - intros block Hblock Hne Hlt. specialize (Hfree block Hblock Hne).
    unfold slotsOverlap in Hfree. rewrite Z.gtb_ltb in Hfree.
    apply andb_false_iff in Hfree as [Hf|Hf]; lia.
  - intros task Htask Htid. unfold updateTaskScheduledTime in Htask.
    apply in_map_iff in Htask as (task0 & <- & _).
    destruct (String.eqb_spec (Task.id task0) taskId) as [_|Hne].
    + apply withScheduledTime_fields.
    + contradiction.
  - destruct (withScheduledTime_fields targetTask (Some newStartTime))
      as (Hfid & Hfd & Hfc & Hfs).
    exists (scheduleBlock (Task.withScheduledTime targetTask (Some newStartTime))
                          newStartTime).
    split.
    + apply In_convertTasksToScheduleBlocks. eexists _, _. split.
      * unfold updateTaskScheduledTime. apply in_map_iff. exists targetTask.
        split; [|exact Hin]. rewrite Hid, String.eqb_refl. reflexivity.
      * rewrite Hfc, Hfs. auto.
    + unfold scheduleBlock. cbn [TimeBlock.taskId TimeBlock.startTime TimeBlock.endTime].
      rewrite Hfid, Hfd, Hid. auto.
Qed.

(** X25: when [handleRescheduleTask] goes through on a timetable that
    names no task twice, and the block of the task carries a snapshot with
    the duration the task has in the list, the scheduler's [rescheduleTask]
    does move the block: the timetable set has, at the position of the
    block, the block on the new interval (snapshot updated, other fields
    kept), and is the old timetable at every other position. *)
Theorem handleRescheduleTask_moves_block
    (scheduler : Scheduler) (clock : Z) (tasks : list Task.t)
    (timetable : list TimeBlock.t) (taskId : string) (newStartTime : Z)
    (newTimetable : list TimeBlock.t) (updatedTasks : list Task.t)
    (scheduleBlocks : list TimeBlock.t)
    (targetTask : Task.t) (i : nat) (block : TimeBlock.t) (snapshot : Task.t) :
  fst (handleRescheduleTask scheduler clock tasks timetable taskId newStartTime)
  = TaskRescheduled newTimetable updatedTasks scheduleBlocks ->
  List.find (fun task => String.eqb (Task.id task) taskId) tasks = Some targetTask ->
  NoDup (taskIdsOf timetable) ->
  timetable !! i = Some block ->
  TimeBlock.taskId block = Some taskId ->
  TimeBlock.task block = Some snapshot ->
  Task.duration snapshot = Task.duration targetTask ->
  length newTimetable = length timetable
  /\ newTimetable !! i
     = Some (TimeBlock.mk (TimeBlock.id block) (TimeBlock.type block)
               (TimeBlock.taskId block)
               (Some (Task.withScheduledTime snapshot (Some newStartTime)))
               newStartTime
               (newStartTime + Z.pos (Task.duration targetTask) * 60000)
               (TimeBlock.title block) (TimeBlock.description block)
               (TimeBlock.isFixed block))
  /\ (forall j, j <> i -> newTimetable !! j = timetable !! j).
Proof.
  intros Hrun Hfind Hnd Hi Hid Hsnapshot Hduration.
  apply handleRescheduleTask_accepted_inv in Hrun
    as (_ & targetTask' & Hfind' & _ & Hfree & _ & _ & -> & _).
  rewrite Hfind in Hfind'. inversion Hfind'; subst targetTask'. clear Hfind'.
  unfold rescheduleTask.
  pose proof (list_find_FirstMatch taskId timetable) as Hfirst.
  destruct (list_find _ timetable) as [[k found]|].
  2:{ exfalso. apply (Hfirst block); auto.
      apply list_elem_of_In. eapply list_elem_of_lookup_2; eauto. }
  destruct Hfirst as (Hk & Hkid & _).
  assert (k = i) by (eapply (NoDup_omap_lookup TimeBlock.taskId); eauto).
  subst k. rewrite Hi in Hk. inversion Hk; subst found. clear Hk.
  rewrite Hsnapshot, Hduration.
  match goal with
  | |- context [someIndexed ?f timetable] =>
    assert (Hno : someIndexed f timetable = false)
  end.
  { apply someIndexed_false. intros j other Hj.
    destruct (Nat.eqb_spec j i) as [->|Hne]; [reflexivity|]. simpl.
    apply Hfree.
    - apply list_elem_of_In. eapply list_elem_of_lookup_2; eauto.
    - intros Hother. apply Hne.
      eapply (NoDup_omap_lookup TimeBlock.taskId); eauto. }
  rewrite Hno. cbn [negb fst].
  split; [apply length_insert|]. split.
  - apply list_lookup_insert_eq. eapply lookup_lt_Some; eauto.
  - intros j Hne. apply list_lookup_insert_ne. auto.
Qed.

End Engine.

(** ** The engine on the sample data (host on UTC) *)

(** C1, as stated, fails: two daily unavailable blocks that overlap are
    both materialised, so two blocks of the output overlap. *)
Lemma overlapping_unavailable_blocks_kept :
  ~ NoOverlap
      (fst (generateTimetableForDate 0 emptyScheduler (sampleTime 5 0)
              [] [gym; call] (sampleTime 5 0))).
Proof.
  intros H. apply noOverlapb_complete in H. vm_compute in H. discriminate H.
Qed.

(** A break is inserted after a task although an unavailable block starts
    there: the fixed blocks do not overlap, the output has an overlap. *)
Lemma break_overlaps_unavailable_block :
  let this := mkScheduler [report; review] [gym] in
  NoOverlap (fixedBlocks 0 this (sampleTime 5 0) (sampleTime 5 0))
  /\ ~ NoOverlap (fst (generateTimetable 0 this (sampleTime 5 0) (sampleTime 5 0))).
Proof.
  split.
  - apply noOverlapb_sound. vm_compute. reflexivity.
  - intros H. apply noOverlapb_complete in H. vm_compute in H. discriminate H.
Qed.

(** [timetable_no_overlap] on a day with one unavailable block and two tasks,
    and on the move of a task to noon. *)
Lemma timetable_no_overlap_witness :
  let this := mkScheduler [report; review] [gym] in
  let clock := sampleTime 5 0 in
  let timetable := fst (generateTimetable 0 (mkScheduler [report; review] []) clock clock) in
  (NoOverlap (fixedBlocks 0 this clock clock)
   /\ Pairwise Compatible (fst (generateTimetable 0 this clock clock)))
  /\ (NoOverlap timetable
      /\ NoOverlap (fst (rescheduleTask 0 this clock "review" (sampleTime 12 0)
                                        (Some timetable)))).
Proof.
  intros this clock timetable.
  assert (Hfixed : NoOverlap (fixedBlocks 0 this clock clock))
    by (apply noOverlapb_sound; vm_compute; reflexivity).
  assert (Htimetable : NoOverlap timetable)
    by (apply noOverlapb_sound; vm_compute; reflexivity).
  split; split; auto.
  - apply (proj1 (timetable_no_overlap 0) this clock clock Hfixed).
  - apply (proj2 (timetable_no_overlap 0) this clock "review"%string (sampleTime 12 0)
                 timetable Htimetable).
Defined.

(** Without installing the task list again, a second [generateTimetable]
    on the same scheduler object sees the placements of the first (the
    task now counts as already scheduled) and returns other blocks. *)
Lemma generateTimetable_reads_updated_tasks :
  let now := sampleTime 5 0 in
  let this := setTasks emptyScheduler [report] in
  fst (generateTimetable 0 (snd (generateTimetable 0 this now now)) now now)
  <> fst (generateTimetable 0 this now now).
Proof. vm_compute. discriminate. Qed.

(** C3, as stated, fails: with the penalty of the specification the
    200-minute [thesis] outscores [reading], but the Prioritizer, which
    takes 25 points off a task longer than 180 minutes, puts [reading]
    first. *)
Lemma prioritizeTasks_not_by_spec_score :
  let now := sampleTime 5 0 in
  let sorted := prioritizeTasks now [thesis; reading] now (Some now) in
  sorted = [reading; thesis]
  /\ getScore now thesis = 15 + 40 + 15 - 25
  /\ score_spec now thesis = 15 + 40 + 15 - 15
  /\ ~ StronglySorted (fun a b => score_spec now a >= score_spec now b) sorted.
Proof.
  split; [reflexivity|]. split; [reflexivity|]. split; [reflexivity|].
  intros H. inversion H as [|? ? _ Hfirst]; subst.
  inversion Hfirst as [|? ? Hge _]; subst.
  vm_compute in Hge. apply Hge. reflexivity.
Qed.

(** C4, as stated, fails: the task id matches a block and there is no
    other block to overlap, yet the timetable is returned unchanged,
    because the matched block carries no task snapshot. *)
Lemma rescheduleTask_without_snapshot :
  let timetable := [orphan] in
  let newStartTime := sampleTime 12 0 in
  let result :=
    fst (rescheduleTask 0 emptyScheduler (sampleTime 5 0) "report" newStartTime
                        (Some timetable)) in
  FirstMatch "report" timetable 0 orphan
  /\ (forall j other, j <> 0%nat -> timetable !! j = Some other -> False)
  /\ result = timetable
  /\ (forall block, result !! 0%nat = Some block ->
        TimeBlock.startTime block <> newStartTime).
Proof.
  split; [|split; [|split]].
  - split; [reflexivity|]. split; [reflexivity|]. intros j other Hlt. lia.
  - intros [|j] other Hne Hj; [congruence | discriminate Hj].
  - reflexivity.
  - intros block Hblock. vm_compute in Hblock. inversion Hblock; subst.
    vm_compute. discriminate.
Qed.

(** Past dates stay empty after an exception: when the day after [D] is
    before today, the output for that day is empty and holds no block of
    the recurring block. *)
Lemma exception_day_after_in_the_past :
  let this := mkScheduler [] [gym] in
  let D := sampleDay - 10 * DAY in
  let this' := snd (addExceptionToRecurringBlock this "gym" D) in
  fst (generateTimetable 0 this' (sampleTime 8 0) (D + DAY)) = []
  /\ ~ exists timeBlock,
         In timeBlock (fst (generateTimetable 0 this' (sampleTime 8 0) (D + DAY)))
         /\ TimeBlock.type timeBlock = BlockType.unavailable.
Proof.
  split; [reflexivity|]. intros (timeBlock & Hin & _). vm_compute in Hin. exact Hin.
Qed.

(** [exception_suppression] for an exception of [gym] on the next day. *)
Lemma exception_suppression_witness :
  let this := mkScheduler [report] [gym; call] in
  let D := sampleDay + DAY in
  let this' := snd (addExceptionToRecurringBlock this "gym" D) in
  (forall clock timeBlock day,
      In timeBlock (fst (generateTimetable 0 this' clock D)) ->
      TimeBlock.id timeBlock <> UnavailableId "gym" day)
  /\ exists timeBlock,
       In timeBlock (fst (generateTimetable 0 this' (sampleTime 8 0) (D + DAY)))
       /\ TimeBlock.id timeBlock = UnavailableId "gym" (localDay 0 (D + DAY))
       /\ TimeBlock.type timeBlock = BlockType.unavailable.
Proof.
  intros this D this'.
  assert (Hnodup : NoDup (map UnavailableBlock.id (unavailableBlocks this))).
  { simpl. apply NoDup_cons_2; [|apply NoDup_cons_2; [|apply NoDup_nil_2]];
      rewrite list_elem_of_In; simpl; intuition discriminate. }
  destruct (exception_suppression 0 this gym (Recurring.mk daily None None) D
              Hnodup ltac:(simpl; auto) eq_refl eq_refl eq_refl) as [Hsuppressed Hnext].
  split; [exact Hsuppressed|].
  apply (Hnext (sampleTime 8 0)).
  - vm_compute. discriminate.
  - simpl. auto.
Defined.

(** C5 fails on the code: in a host two hours east of UTC, for the local
    midnight [D] of a day not before today, [addExceptionToRecurringBlock]
    returns [true] but records the UTC date of [D] ([toISOString]), which
    is the day before, while [shouldIncludeBlock] looks for the local date
    of [D]: the output of [generateTimetable] for [D] still holds the
    unavailable block derived from the daily block. *)
Lemma exception_misses_local_day_east_of_utc :
  let tz := 2 * HOUR in
  let this := mkScheduler [] [gym] in
  let D := sampleDay + DAY - tz in
  let result := addExceptionToRecurringBlock this "gym" D in
  let this' := snd result in
  setHours tz D 0 0 = D
  /\ fst result = true
  /\ isoDateString D = localDateString tz D - 1
  /\ exists timeBlock,
       In timeBlock (fst (generateTimetable tz this' (D + 5 * HOUR) D))
       /\ TimeBlock.id timeBlock = UnavailableId "gym" (localDay tz D)
       /\ TimeBlock.type timeBlock = BlockType.unavailable.
Proof.
  split; [reflexivity|]. split; [reflexivity|]. split; [reflexivity|].
  eexists. split; [vm_compute; left; reflexivity|]. split; reflexivity.
Qed.

(** [generateTimetable_past_date] for the day before the sample day. *)
Lemma generateTimetable_past_date_witness :
  let this := mkScheduler [report] [gym] in
  localDay 0 (sampleDay - DAY) < localDay 0 (sampleTime 8 0)
  /\ fst (generateTimetable 0 this (sampleTime 8 0) (sampleDay - DAY)) = [].
Proof.
  intros this.
  assert (Hpast : localDay 0 (sampleDay - DAY) < localDay 0 (sampleTime 8 0))
    by (vm_compute; reflexivity).
  split; [exact Hpast|].
  apply (generateTimetable_past_date 0 this (sampleTime 8 0) (sampleDay - DAY) Hpast).
Defined.

(** C7 fails on the code: at 23:45 the window start computed for today
    wraps around to 00:00 of today, and the task is placed there, before
    06:00 and before now. *)
Lemma late_evening_slot_in_the_past :
  let now := sampleTime 23 45 in
  fst (generateTimetableForDate 0 emptyScheduler now [memo] [] now)
  = [placedTimeBlock 0 memo sampleDay (sampleTime 0 0) (sampleTime 0 30)]
  /\ windowStart 0 now now = sampleTime 0 0
  /\ sampleTime 0 0 < setHours 0 now dayStart 0
  /\ sampleTime 0 0 < now.
Proof. vm_compute. repeat split; reflexivity. Qed.

(** Seconds are dropped by the rounding: 30 seconds after 10:00 the window
    starts at 10:15:00, before now plus 15 minutes. *)
Lemma window_start_drops_seconds :
  let now := sampleTime 10 0 + 30000 in
  windowStart 0 now now = sampleTime 10 15
  /\ sampleTime 10 15 < now + 15 * MINUTE.
Proof. vm_compute. split; reflexivity. Qed.

(** C8 fails on the code: an overdue task that fits in the working window
    is left out.  [findAvailableSlot] builds slots only while they start
    before 23:00 minus the duration, and then asks for [ceil(duration / 15)]
    of them in a row: the duration is taken off twice.  At 05:00, with no
    block, a 540-minute task would run from 06:00 to 15:00; at 21:50 a
    30-minute task would run from 22:15 to 22:45, and 22:15 is before the
    latest start, 22:30.  Neither is placed: the output is empty. *)
Lemma overdue_task_that_fits_not_placed :
  let morning := sampleTime 5 0 in
  let evening := sampleTime 21 50 in
  (Task.completed backlog = false
   /\ Task.scheduledTime backlog = None
   /\ localDay 0 (Task.deadline backlog) < localDay 0 morning
   /\ windowStart 0 morning morning = sampleTime 6 0
   /\ sampleTime 6 0 + Z.pos (Task.duration backlog) * 60000 = sampleTime 15 0
   /\ sampleTime 6 0
      <= setHours 0 morning dayEnd 0 - Z.pos (Task.duration backlog) * 60000
   /\ fst (generateTimetableForDate 0 emptyScheduler morning [backlog] [] morning) = [])
  /\ (Task.completed errand = false
      /\ Task.scheduledTime errand = None
      /\ localDay 0 (Task.deadline errand) < localDay 0 evening
      /\ windowStart 0 evening evening = sampleTime 22 15
      /\ sampleTime 22 15 + Z.pos (Task.duration errand) * 60000 = sampleTime 22 45
      /\ sampleTime 22 15
         <= setHours 0 evening dayEnd 0 - Z.pos (Task.duration errand) * 60000
      /\ fst (generateTimetableForDate 0 emptyScheduler evening [errand] [] evening) = []).
Proof. vm_compute. repeat split; try reflexivity; discriminate. Qed.

(** An overdue task that does not fit in the working day is left out. *)
Lemma overdue_task_too_long_not_placed :
  let now := sampleTime 5 0 in
  Task.completed marathon = false
  /\ Task.scheduledTime marathon = None
  /\ localDay 0 (Task.deadline marathon) < localDay 0 now
  /\ fst (generateTimetableForDate 0 emptyScheduler now [marathon] [] now) = [].
Proof. vm_compute. repeat split; reflexivity. Qed.

(** [overdue_task_carried_forward] for a 30-minute task due the day before,
    at 05:00. *)
Lemma overdue_task_carried_forward_witness :
  let now := sampleTime 5 0 in
  fst (generateTimetableForDate 0 emptyScheduler now [errand] [] now)
  = [placedTimeBlock 0 errand (setHours 0 now 0 0) (windowStart 0 now now)
                     (windowStart 0 now now + Z.pos (Task.duration errand) * 60000)].
Proof.
  intros now.
  apply (overdue_task_carried_forward 0 emptyScheduler now now errand);
    try reflexivity; vm_compute; reflexivity.
Defined.

(** [generateTimetable_task_blocks] for the block of a placed task. *)
Lemma generateTimetable_task_blocks_witness :
  let now := sampleTime 5 0 in
  let this := mkScheduler [report] [gym] in
  let block := placedTimeBlock 0 report sampleDay (sampleTime 6 0) (sampleTime 7 0) in
  In block (fst (generateTimetable 0 this now now))
  /\ exists t, TimeBlock.task block = Some t
       /\ TimeBlock.endTime block
          = TimeBlock.startTime block + Z.pos (Task.duration t) * 60000
       /\ Task.scheduledTime t = Some (TimeBlock.startTime block).
Proof.
  intros now this block.
  assert (Hin : In block (fst (generateTimetable 0 this now now)))
    by (vm_compute; auto).
  split; [exact Hin|].
  apply (generateTimetable_task_blocks 0 this now now block Hin eq_refl).
Defined.

(** ** The further properties at sample inputs *)

(** [generateTimetable_no_task_twice] for two tasks and the gym block. *)
Lemma generateTimetable_no_task_twice_witness :
  let now := sampleTime 5 0 in
  NoDup (taskIdsOf (fst (generateTimetable 0 (mkScheduler [report; review] [gym])
                                           now now))).
Proof.
  intros now. apply (generateTimetable_no_task_twice 0).
  simpl. apply NoDup_cons_2; [|apply NoDup_cons_2; [|apply NoDup_nil_2]];
    rewrite list_elem_of_In; simpl; intuition discriminate.
Defined.

(** [generateTimetable_shows_stored_tasks] for the block of a placed task. *)
Lemma generateTimetable_shows_stored_tasks_witness :
  let now := sampleTime 5 0 in
  let this := mkScheduler [report] [gym] in
  let block := placedTimeBlock 0 report sampleDay (sampleTime 6 0) (sampleTime 7 0) in
  In block (fst (generateTimetable 0 this now now))
  /\ exists stored,
       In stored (tasks this)
       /\ Task.completed stored = false
       /\ TimeBlock.taskId block = Some (Task.id stored)
       /\ TimeBlock.title block = Task.name stored
       /\ TimeBlock.task block
          = Some (Task.withScheduledTime stored (Some (TimeBlock.startTime block))).
Proof.
  intros now this block.
  assert (Hin : In block (fst (generateTimetable 0 this now now)))
    by (vm_compute; auto).
  split; [exact Hin|].
  apply (generateTimetable_shows_stored_tasks 0 this now now block Hin eq_refl).
Defined.

(** [generateTimetable_stores_placements] for the block of a placed task. *)
Lemma generateTimetable_stores_placements_witness :
  let now := sampleTime 5 0 in
  let this := mkScheduler [report] [gym] in
  let this' := snd (generateTimetable 0 this now now) in
  (exists stored, In stored (tasks this') /\ Task.id stored = "report"%string)
  /\ (forall stored, In stored (tasks this') -> Task.id stored = "report"%string ->
        Task.scheduledTime stored = Some (sampleTime 6 0)).
Proof.
  intros now this.
  apply (generateTimetable_stores_placements 0 this now now
           (placedTimeBlock 0 report sampleDay (sampleTime 6 0) (sampleTime 7 0))
           "report" (localDay 0 sampleDay)).
  - simpl. apply NoDup_cons_2; [|apply NoDup_nil_2].
    rewrite list_elem_of_In; simpl; intuition discriminate.
  - vm_compute; auto.
  - reflexivity.
Defined.

(** [scheduled_task_kept_or_replaced] for a task scheduled later today. *)
Lemma scheduled_task_kept_or_replaced_witness :
  let now := sampleTime 5 0 in
  let task := Task.withScheduledTime report (Some (sampleTime 10 0)) in
  let this := mkScheduler [task] [] in
  In (scheduledTimeBlock 0 task (sampleTime 10 0) (setHours 0 now 0 0))
     (fst (generateTimetable 0 this now now)).
Proof.
  intros now task this.
  assert (Hfresh : ~ (localDay 0 now = localDay 0 now /\ sampleTime 10 0 <= now))
    by (vm_compute; intros [_ H]; apply H; reflexivity).
  assert (Hstored : In task (tasks this)) by (simpl; auto).
  assert (Hday : localDay 0 now <= localDay 0 now) by lia.
  exact (proj2 (proj2 (scheduled_task_kept_or_replaced 0 this now now task
                         (sampleTime 10 0) Hstored eq_refl eq_refl eq_refl Hday)
                      Hfresh)).
Defined.

(** [findAvailableSlot_break_rule] after two hours of continuous work. *)
Lemma findAvailableSlot_break_rule_witness :
  let now := sampleTime 5 0 in
  findAvailableSlot 0 now [] 60 now (Some now) (Some (sampleTime 8 0)) 120
  = Some (sampleTime 8 30, sampleTime 9 30)
  /\ sampleTime 8 0 + 15 * 60000 <= sampleTime 8 30
  /\ (120 <= 120 -> sampleTime 8 0 + 30 * 60000 <= sampleTime 8 30).
Proof.
  intros now.
  assert (Hslot : findAvailableSlot 0 now [] 60 now (Some now)
                                    (Some (sampleTime 8 0)) 120
                  = Some (sampleTime 8 30, sampleTime 9 30))
    by (vm_compute; reflexivity).
  split; [exact Hslot|].
  apply (findAvailableSlot_break_rule 0 now [] 60 now (Some now) (sampleTime 8 0)
           120 (sampleTime 8 30) (sampleTime 9 30) Hslot).
  lia.
Defined.

(** [findAvailableSlot_grid] for the first slot of the day. *)
Lemma findAvailableSlot_grid_witness :
  let now := sampleTime 5 0 in
  (exists k : nat,
      sampleTime 6 0 = windowStart 0 (default now (Some now)) now
                       + 15 * 60000 * Z.of_nat k)
  /\ sampleTime 6 0 + 15 * 60000 * (ceilDiv (Z.pos 60) 15 - 1)
     < setHours 0 now dayEnd 0 - Z.pos 60 * 60000
  /\ sampleTime 7 0 < setHours 0 now dayEnd 0.
Proof.
  intros now.
  apply (findAvailableSlot_grid 0 now [] 60 now (Some now) None 0
           (sampleTime 6 0) (sampleTime 7 0)).
  vm_compute; reflexivity.
Defined.

(** [placed_tasks_on_quarter_hours] for the block of a placed task. *)
Lemma placed_tasks_on_quarter_hours_witness :
  let now := sampleTime 5 0 in
  let block := placedTimeBlock 0 report sampleDay (sampleTime 6 0) (sampleTime 7 0) in
  (exists k : Z, TimeBlock.startTime block = setHours 0 now 0 0 + 15 * 60000 * k)
  /\ TimeBlock.endTime block < setHours 0 now dayEnd 0.
Proof.
  intros now block.
  apply (placed_tasks_on_quarter_hours 0 (mkScheduler [report] [gym]) now now block
           "report" (localDay 0 sampleDay)).
  - vm_compute; auto.
  - reflexivity.
Defined.

(** [recurring_block_weekly_period] for the daily gym block. *)
Lemma recurring_block_weekly_period_witness :
  shouldIncludeBlock 0 gym (sampleDay + 7 * DAY) = shouldIncludeBlock 0 gym sampleDay.
Proof.
  apply (recurring_block_weekly_period 0 gym (Recurring.mk daily None None) sampleDay).
  - reflexivity.
  - simpl; auto.
  - simpl; auto.
Defined.

(** [added_block_free_of_tasks] when the gym block is added to a day with
    one task. *)
Lemma added_block_free_of_tasks_witness :
  let now := sampleTime 5 0 in
  let this := mkScheduler [report] [] in
  let window := unavailableTimeBlock 0 gym (setHours 0 now 0 0) in
  let updatedTimetable :=
    fst (fst (addUnavailableBlockAndReschedule 0 this now gym now)) in
  (localDay 0 now <= localDay 0 now -> In window updatedTimetable)
  /\ (forall timeBlock,
        In timeBlock updatedTimetable ->
        TimeBlock.type timeBlock = BlockType.task ->
        overlap timeBlock window = false).
Proof.
  intros now this.
  apply (added_block_free_of_tasks 0 this now gym now).
  - vm_compute; reflexivity.
  - simpl; discriminate.
Defined.

(** [placed_task_avoids_fixed_blocks] for a placed task and the gym block. *)
Lemma placed_task_avoids_fixed_blocks_witness :
  let now := sampleTime 5 0 in
  let block := placedTimeBlock 0 report sampleDay (sampleTime 6 0) (sampleTime 7 0) in
  let fixed := unavailableTimeBlock 0 gym (setHours 0 now 0 0) in
  overlap block fixed = false /\ overlap fixed block = false.
Proof.
  intros now block fixed.
  apply (placed_task_avoids_fixed_blocks 0 (mkScheduler [report] [gym]) now now
           block fixed "report" (localDay 0 sampleDay)).
  - vm_compute; auto.
  - reflexivity.
  - vm_compute; auto.
Defined.

(** [updateTaskScheduledTime_timeline] for a task moved to 09:00. *)
Lemma updateTaskScheduledTime_timeline_witness :
  let moved := Task.withScheduledTime report (Some (sampleTime 9 0)) in
  let block := scheduleBlock moved (sampleTime 9 0) in
  (TimeBlock.taskId block = Some "report"%string ->
     TimeBlock.startTime block = sampleTime 9 0
     /\ exists task, TimeBlock.task block = Some task
          /\ TimeBlock.endTime block
             = sampleTime 9 0 + Z.pos (Task.duration task) * 60000)
  /\ (TimeBlock.taskId block <> Some "report"%string ->
        In block (convertTasksToScheduleBlocks [report; review])).
Proof.
  intros moved block.
  apply (updateTaskScheduledTime_timeline [report; review] "report" (sampleTime 9 0)
                                          block).
  vm_compute; auto.
Defined.

(** [generateSchedule_timeline_shows_timetable] for the block of a placed
    task. *)
Lemma generateSchedule_timeline_shows_timetable_witness :
  let now := sampleTime 5 0 in
  let result := fst (generateSchedule 0 emptyScheduler now [report; review] [gym] now) in
  let block := placedTimeBlock 0 report sampleDay (sampleTime 6 0) (sampleTime 7 0) in
  (exists task,
      In task (snd (fst result))
      /\ TimeBlock.taskId block = Some (Task.id task)
      /\ Task.completed task = false
      /\ Task.scheduledTime task = Some (TimeBlock.startTime block))
  /\ (exists shown,
        In shown (snd result)
        /\ TimeBlock.taskId shown = TimeBlock.taskId block
        /\ TimeBlock.startTime shown = TimeBlock.startTime block
        /\ TimeBlock.endTime shown = TimeBlock.endTime block).
Proof.
  intros now result block.
  apply (generateSchedule_timeline_shows_timetable 0 emptyScheduler now
           [report; review] [gym] now block).
  - simpl. apply NoDup_cons_2; [|apply NoDup_cons_2; [|apply NoDup_nil_2]];
      rewrite list_elem_of_In; simpl; intuition discriminate.
  - vm_compute; auto.
  - reflexivity.
Defined.

(** [handleRescheduleTask_accepted] when the only task is moved from 06:00
    to 09:00. *)
Lemma handleRescheduleTask_accepted_witness :
  let now := sampleTime 5 0 in
  let timetable :=
    [placedTimeBlock 0 report sampleDay (sampleTime 6 0) (sampleTime 7 0)] in
  let moved := Task.withScheduledTime report (Some (sampleTime 9 0)) in
  fst (handleRescheduleTask 0 emptyScheduler now [report] timetable "report"
                            (sampleTime 9 0))
  = TaskRescheduled
      [placedTimeBlock 0 report sampleDay (sampleTime 9 0) (sampleTime 10 0)]
      [moved] [scheduleBlock moved (sampleTime 9 0)]
  /\ now < sampleTime 9 0.
Proof.
  intros now timetable moved.
  assert (Hrun :
            fst (handleRescheduleTask 0 emptyScheduler now [report] timetable "report"
                                      (sampleTime 9 0))
            = TaskRescheduled
                [placedTimeBlock 0 report sampleDay (sampleTime 9 0) (sampleTime 10 0)]
                [moved] [scheduleBlock moved (sampleTime 9 0)])
    by (vm_compute; reflexivity).
  split; [exact Hrun|].
  exact (proj1 (handleRescheduleTask_accepted 0 emptyScheduler now [report] timetable
                  "report" (sampleTime 9 0) _ _ _ Hrun)).
Defined.

(** [handleRescheduleTask_moves_block] when the only task is moved from
    06:00 to 09:00. *)
Lemma handleRescheduleTask_moves_block_witness :
  let now := sampleTime 5 0 in
  let block := placedTimeBlock 0 report sampleDay (sampleTime 6 0) (sampleTime 7 0) in
  let moved := Task.withScheduledTime report (Some (sampleTime 9 0)) in
  let newTimetable :=
    [placedTimeBlock 0 report sampleDay (sampleTime 9 0) (sampleTime 10 0)] in
  length newTimetable = length [block]
  /\ newTimetable !! 0%nat
     = Some (TimeBlock.mk (TimeBlock.id block) (TimeBlock.type block)
               (TimeBlock.taskId block)
               (Some (Task.withScheduledTime
                        (Task.withScheduledTime report (Some (sampleTime 6 0)))
                        (Some (sampleTime 9 0))))
               (sampleTime 9 0)
               (sampleTime 9 0 + Z.pos (Task.duration report) * 60000)
               (TimeBlock.title block) (TimeBlock.description block)
               (TimeBlock.isFixed block))
  /\ (forall j, j <> 0%nat -> newTimetable !! j = [block] !! j).
Proof.
  intros now block moved newTimetable.
  apply (handleRescheduleTask_moves_block 0 emptyScheduler now [report] [block]
           "report" (sampleTime 9 0) newTimetable [moved]
           [scheduleBlock moved (sampleTime 9 0)] report 0 block
           (Task.withScheduledTime report (Some (sampleTime 6 0)))).
  - vm_compute; reflexivity.
  - reflexivity.
  - simpl. apply NoDup_cons_2; [|apply NoDup_nil_2].
    rewrite list_elem_of_In; simpl; intuition discriminate.
  - reflexivity.
  - reflexivity.
  - reflexivity.
  - reflexivity.
Defined.
